(** * Database routing and temporal resolution of the unified monitoring API

    A shallow embedding of the routing and date-handling core of the
    service (app/core/config.py, app/core/database.py,
    app/services/banb_data.py, app/services/rtf_data.py,
    app/services/banbury_anomaly_detection.py,
    app/services/chiller_status.py, app/services/productivity_shift.py)
    together with the properties its design document states about it.

    Conventions.
    - A Python [str] is a Rocq [string]; its characters stand for the code
      points U+0000..U+00FF, and the string predicates below follow
      CPython on that range.
    - A Python [int] is a [Z].
    - A function that can raise returns a [result]; the exception carries
      its class and its message.
    - [datetime] values are records of their calendar fields; the
      arithmetic on them goes through proleptic Gregorian ordinals the way
      CPython's [datetime] module does. *)

From Stdlib Require Import ZArith String Ascii List Lia Bool.
Import ListNotations.

Open Scope string_scope.
Open Scope Z_scope.

(** Goals with [/] and [mod] by literals. *)
Ltac zdiv := Z.to_euclidean_division_equations; lia.

(** ** Exceptions and results *)

Inductive exn : Type :=
| ValueError (msg : string)
| OverflowError (msg : string)
| RuntimeError (msg : string).

Inductive result (A : Type) : Type :=
| Ok (a : A)
| Raise (e : exn).

Arguments Ok {A} a.
Arguments Raise {A} e.

Definition bind {A B : Type} (r : result A) (k : A -> result B) : result B :=
  match r with
  | Ok a => k a
  | Raise e => Raise e
  end.

Notation "'let*' x ':=' r 'in' k" := (bind r (fun x => k))
  (at level 10, x pattern, r at level 100, k at level 200).

Definition is_ok {A : Type} (r : result A) : bool :=
  match r with Ok _ => true | Raise _ => false end.

(** [try: ... except ValueError: pass]: a [ValueError] becomes "nothing
    returned", any other exception goes on. *)
Definition attempt {A : Type} (r : result A) : result (option A) :=
  match r with
  | Ok a => Ok (Some a)
  | Raise (ValueError _) => Ok None
  | Raise e => Raise e
  end.

(** ** Python strings *)

Module PyStr.

Definition code (c : ascii) : Z := Z.of_N (N_of_ascii c).

(** [len(s)] *)
Definition len (s : string) : Z := Z.of_nat (String.length s).

(** Decimal digits (category Nd): the characters [int()] and the regular
    expression class [\d] accept. *)
Definition is_decimal (c : ascii) : bool :=
  (48 <=? code c) && (code c <=? 57).

(** [str.isdigit] for one character: the decimal digits and the
    superscripts U+00B2, U+00B3 and U+00B9. *)
Definition isdigit_char (c : ascii) : bool :=
  is_decimal c || (code c =? 178) || (code c =? 179) || (code c =? 185).

Fixpoint forall_chars (p : ascii -> bool) (s : string) : bool :=
  match s with
  | EmptyString => true
  | String c s' => p c && forall_chars p s'
  end.

(** [s.isdigit()]: non-empty and every character a digit. *)
Definition isdigit (s : string) : bool :=
  match s with
  | EmptyString => false
  | _ => forall_chars isdigit_char s
  end.

Definition digit_val (c : ascii) : Z := code c - 48.

Fixpoint digits_val (acc : Z) (s : string) : Z :=
  match s with
  | EmptyString => acc
  | String c s' => digits_val (10 * acc + digit_val c) s'
  end.

(** [int(s)] on the strings that reach it here, which all satisfy
    [s.isdigit()]: the value of a non-empty run of decimal digits, and
    [ValueError] on anything else (a superscript digit passes
    [isdigit] and is refused by [int]). *)
Definition int_msg : string := "invalid literal for int() with base 10".

Definition int (s : string) : result Z :=
  match s with
  | EmptyString => Raise (ValueError int_msg)
  | _ => if forall_chars is_decimal s then Ok (digits_val 0 s)
         else Raise (ValueError int_msg)
  end.

(** [s[i:j]] for [0 <= i <= j]. *)
Definition slice (i j : nat) (s : string) : string :=
  String.substring i (j - i) s.

(** Whitespace ([str.isspace]) on U+0000..U+00FF. *)
Definition isspace_char (c : ascii) : bool :=
  ((9 <=? code c) && (code c <=? 13)) ||
  ((28 <=? code c) && (code c <=? 32)) ||
  (code c =? 133) || (code c =? 160).

Fixpoint lstrip (s : string) : string :=
  match s with
  | EmptyString => EmptyString
  | String c s' => if isspace_char c then lstrip s' else s
  end.

(** [rstrip] keeps a character when it is not a space or when something
    is kept after it. *)
Fixpoint rstrip (s : string) : string :=
  match s with
  | EmptyString => EmptyString
  | String c s' =>
      match rstrip s' with
      | EmptyString => if isspace_char c then EmptyString else String c EmptyString
      | r => String c r
      end
  end.

(** [s.strip()] *)
Definition strip (s : string) : string := rstrip (lstrip s).

(** [c in s] for one character. *)
Fixpoint contains_char (c : ascii) (s : string) : bool :=
  match s with
  | EmptyString => false
  | String d s' => Ascii.eqb c d || contains_char c s'
  end.

(** [s.count(c)] for one character. *)
Fixpoint count_char (c : ascii) (s : string) : Z :=
  match s with
  | EmptyString => 0
  | String d s' => (if Ascii.eqb c d then 1 else 0) + count_char c s'
  end.

(** [s.startswith(p)] *)
Definition startswith (p s : string) : bool := String.prefix p s.

(** [s.endswith(p)] *)
Definition endswith (p s : string) : bool :=
  let n := String.length s in
  let k := String.length p in
  (k <=? n)%nat && String.eqb (String.substring (n - k) k s) p.

Definition is_ascii_upper (c : ascii) : bool := (65 <=? code c) && (code c <=? 90).
Definition is_ascii_lower (c : ascii) : bool := (97 <=? code c) && (code c <=? 122).

Definition shift_char (c : ascii) (d : Z) : ascii :=
  ascii_of_N (Z.to_N (code c + d)).

(** [str.lower] on one character: A-Z and the Latin-1 capitals
    U+00C0..U+00DE (the multiplication sign U+00D7 apart). *)
Definition lower_char (c : ascii) : ascii :=
  if is_ascii_upper c then shift_char c 32
  else if (192 <=? code c) && (code c <=? 222) && negb (code c =? 215)
       then shift_char c 32
       else c.

Fixpoint lower (s : string) : string :=
  match s with
  | EmptyString => EmptyString
  | String c s' => String (lower_char c) (lower s')
  end.

(** [str.upper]: a-z and U+00E0..U+00FE (the division sign U+00F7 apart)
    move down by 32, and the sharp s U+00DF becomes [SS]. The capitals of
    U+00B5 and U+00FF lie outside the range; they are left in place,
    which no test against an ASCII pattern can tell apart. *)
Fixpoint upper (s : string) : string :=
  match s with
  | EmptyString => EmptyString
  | String c s' =>
      if is_ascii_lower c then String (shift_char c (-32)) (upper s')
      else if (224 <=? code c) && (code c <=? 254) && negb (code c =? 247)
           then String (shift_char c (-32)) (upper s')
           else if code c =? 223 then String "S" (String "S" (upper s'))
                else String c (upper s')
  end.

(** [s.replace(old, "")]: every occurrence of the non-empty [old] is
    removed, scanning from the left. *)
Fixpoint remove_all (old : string) (s : string) (fuel : nat) : string :=
  match fuel with
  | O => s
  | S fuel' =>
      match s with
      | EmptyString => EmptyString
      | String c s' =>
          if String.prefix old s
          then remove_all old
                 (String.substring (String.length old)
                    (String.length s - String.length old) s) fuel'
          else String c (remove_all old s' fuel')
      end
  end.

Definition replace_with_empty (old s : string) : string :=
  remove_all old s (S (String.length s)).

(** [s.replace(c, new)] for one character [c]. *)
Fixpoint replace_char (c : ascii) (new : string) (s : string) : string :=
  match s with
  | EmptyString => EmptyString
  | String d s' =>
      if Ascii.eqb c d then (new ++ replace_char c new s')%string
      else String d (replace_char c new s')
  end.

(** Nothing to strip on the left. *)
Definition tight_head (s : string) : Prop :=
  match s with
  | EmptyString => True
  | String c _ => isspace_char c = false
  end.

End PyStr.

(** ** The [datetime] module: dates, ordinals, instants *)

Module Calendar.

Definition MINYEAR : Z := 1.
Definition MAXYEAR : Z := 9999.

(** Ordinal of 9999-12-31. *)
Definition _MAXORDINAL : Z := 3652059.

Definition _is_leap (year : Z) : bool :=
  (year mod 4 =? 0) && (negb (year mod 100 =? 0) || (year mod 400 =? 0)).

(** Days in a month of a common or a leap year. *)
Definition month_length (leap : bool) (month : Z) : Z :=
  if month =? 2 then (if leap then 29 else 28)
  else if (month =? 4) || (month =? 6) || (month =? 9) || (month =? 11) then 30
       else 31.

Definition _days_in_month (year month : Z) : Z :=
  month_length (_is_leap year) month.

(** [_DAYS_BEFORE_MONTH]: days of a common year before the first of a
    month. *)
Definition _DAYS_BEFORE_MONTH (month : Z) : Z :=
  match month with
  | 1 => 0 | 2 => 31 | 3 => 59 | 4 => 90 | 5 => 120 | 6 => 151
  | 7 => 181 | 8 => 212 | 9 => 243 | 10 => 273 | 11 => 304 | 12 => 334
  | _ => 0
  end.

Definition days_before_month (leap : bool) (month : Z) : Z :=
  _DAYS_BEFORE_MONTH month + (if (2 <? month) && leap then 1 else 0).

Definition _days_before_year (year : Z) : Z :=
  let y := year - 1 in
  y * 365 + y / 4 - y / 100 + y / 400.

Definition _days_before_month (year month : Z) : Z :=
  days_before_month (_is_leap year) month.

(** [date.toordinal]: 0001-01-01 is day 1. *)
Definition _ymd2ord (year month day : Z) : Z :=
  _days_before_year year + _days_before_month year month + day.

Definition _DI400Y : Z := 146097.
Definition _DI100Y : Z := 36524.
Definition _DI4Y : Z := 1461.

(** The month and the day from the zero-based day [n] of a year, the way
    [_ord2ymd] ends: an estimate of the month that is at most one too
    large, then its correction. *)
Definition month_day_of_yday (leap : bool) (n : Z) : Z * Z :=
  let month := Z.shiftr (n + 50) 5 in
  let preceding := days_before_month leap month in
  if n <? preceding
  then let month' := month - 1 in
       let preceding' := preceding - month_length leap month' in
       (month', n - preceding' + 1)
  else (month, n - preceding + 1).

(** [_ord2ymd]: the date of an ordinal. *)
Definition _ord2ymd (n : Z) : Z * Z * Z :=
  let n := n - 1 in
  let n400 := n / _DI400Y in
  let n := n mod _DI400Y in
  let year := n400 * 400 + 1 in
  let n100 := n / _DI100Y in
  let n := n mod _DI100Y in
  let n4 := n / _DI4Y in
  let n := n mod _DI4Y in
  let n1 := n / 365 in
  let n := n mod 365 in
  let year := year + n100 * 100 + n4 * 4 + n1 in
  if (n1 =? 4) || (n100 =? 4)
  then (year - 1, 12, 31)
  else
    let leapyear := (n1 =? 3) && (negb (n4 =? 24) || (n100 =? 3)) in
    let '(month, day) := month_day_of_yday leapyear n in
    (year, month, day).

(** Time zones that occur: the zone of [DEFAULT_TZ] and of
    [JAKARTA_TZ], as named zones, and the fixed offsets an ISO-8601
    string can carry (in seconds east of UTC). *)
Inductive tz : Type :=
| ZoneInfo (key : string)
| FixedOffset (seconds : Z).

Record datetime : Type := mk_datetime {
  year : Z;
  month : Z;
  day : Z;
  hour : Z;
  minute : Z;
  second : Z;
  microsecond : Z;
  tzinfo : option tz
}.

Record date : Type := mk_date {
  d_year : Z;
  d_month : Z;
  d_day : Z
}.

Definition year_msg : string := "year is out of range".
Definition month_msg : string := "month must be in 1..12".
Definition day_msg : string := "day is out of range for month".
Definition time_msg : string := "time field is out of range".
Definition overflow_msg : string := "date value out of range".

(** The checks of the [date] constructor, in its order. *)
Definition check_date_fields (y m d : Z) : result unit :=
  if negb ((MINYEAR <=? y) && (y <=? MAXYEAR)) then Raise (ValueError year_msg)
  else if negb ((1 <=? m) && (m <=? 12)) then Raise (ValueError month_msg)
  else if negb ((1 <=? d) && (d <=? _days_in_month y m)) then Raise (ValueError day_msg)
  else Ok tt.

Definition check_time_fields (h mi s us : Z) : result unit :=
  if (0 <=? h) && (h <=? 23) && (0 <=? mi) && (mi <=? 59)
     && (0 <=? s) && (s <=? 59) && (0 <=? us) && (us <=? 999999)
  then Ok tt
  else Raise (ValueError time_msg).

(** [datetime(y, m, d, h, mi, s, us, tzinfo=tz)] *)
Definition new_datetime (y m d h mi s us : Z) (z : option tz) : result datetime :=
  let* _ := check_date_fields y m d in
  let* _ := check_time_fields h mi s us in
  Ok (mk_datetime y m d h mi s us z).

(** [datetime(y, m, d)]: midnight, naive. *)
Definition datetime_ymd (y m d : Z) : result datetime :=
  new_datetime y m d 0 0 0 0 None.

(** [dt.date()] *)
Definition date_of (dt : datetime) : date :=
  mk_date (year dt) (month dt) (day dt).

(** [dt.toordinal()] *)
Definition toordinal (dt : datetime) : Z :=
  _ymd2ord (year dt) (month dt) (day dt).

(** [dt.weekday()]: Monday is 0. *)
Definition weekday (dt : datetime) : Z :=
  (toordinal dt + 6) mod 7.

(** [dt.replace(tzinfo=z)] *)
Definition replace_tzinfo (dt : datetime) (z : option tz) : datetime :=
  mk_datetime (year dt) (month dt) (day dt) (hour dt) (minute dt) (second dt)
    (microsecond dt) z.

(** [dt + timedelta(days=k)]: the time of day and the zone stay, the date
    moves through its ordinal, and an ordinal outside 1.._MAXORDINAL is an
    [OverflowError]. *)
Definition add_days (dt : datetime) (k : Z) : result datetime :=
  let o := toordinal dt + k in
  if (0 <? o) && (o <=? _MAXORDINAL)
  then let '(y, m, d) := _ord2ymd o in
       Ok (mk_datetime y m d (hour dt) (minute dt) (second dt) (microsecond dt)
             (tzinfo dt))
  else Raise (OverflowError overflow_msg).

(** [dt + timedelta(seconds=k)]: the seconds of the day carry into the
    date, the microseconds and the zone stay, and a date outside the
    calendar is an [OverflowError]. *)
Definition add_seconds (dt : datetime) (k : Z) : result datetime :=
  let t := hour dt * 3600 + minute dt * 60 + second dt + k in
  let o := toordinal dt + t / 86400 in
  let r := t mod 86400 in
  if (0 <? o) && (o <=? _MAXORDINAL)
  then let '(y, m, d) := _ord2ymd o in
       Ok (mk_datetime y m d (r / 3600) (r / 60 mod 60) (r mod 60) (microsecond dt)
             (tzinfo dt))
  else Raise (OverflowError overflow_msg).

(** Comparison of two instants that are both naive or share one zone:
    the fields, lexicographically. *)
Definition fields (dt : datetime) : list Z :=
  [year dt; month dt; day dt; hour dt; minute dt; second dt; microsecond dt].

Fixpoint lex_compare (a b : list Z) : comparison :=
  match a, b with
  | [], [] => Eq
  | [], _ :: _ => Lt
  | _ :: _, [] => Gt
  | x :: a', y :: b' =>
      match x ?= y with
      | Eq => lex_compare a' b'
      | c => c
      end
  end.

Definition dt_compare (a b : datetime) : comparison :=
  lex_compare (fields a) (fields b).

(** [a < b] *)
Definition dt_ltb (a b : datetime) : bool :=
  match dt_compare a b with Lt => true | _ => false end.

(** [a >= b] *)
Definition dt_geb (a b : datetime) : bool := negb (dt_ltb a b).

(** What the calendar says, independently of ordinals: the day after a
    date and the day before it. *)
Definition next_day (y m d : Z) : Z * Z * Z :=
  if d <? _days_in_month y m then (y, m, d + 1)
  else if m <? 12 then (y, m + 1, 1)
       else (y + 1, 1, 1).

Definition prev_day (y m d : Z) : Z * Z * Z :=
  if 1 <? d then (y, m, d - 1)
  else if 1 <? m then (y, m - 1, _days_in_month y (m - 1))
       else (y - 1, 12, 31).

(** A date of the calendar. *)
Definition valid_date (y m d : Z) : Prop :=
  MINYEAR <= y <= MAXYEAR /\ 1 <= m <= 12 /\ 1 <= d <= _days_in_month y m.

Definition year_length (y : Z) : Z := if _is_leap y then 366 else 365.

(** Ranges of [Z] as lists, for checks by enumeration. *)
Fixpoint zrange (lo : Z) (n : nat) : list Z :=
  match n with
  | O => []
  | S n' => lo :: zrange (lo + 1) n'
  end.

(** The check, over every month and day, that [month_day_of_yday] inverts
    the numbering of the days of a year. *)
Definition yday_check (leap : bool) : bool :=
  forallb (fun m =>
    forallb (fun d =>
      negb (d <=? month_length leap m) ||
      (let '(m', d') := month_day_of_yday leap (days_before_month leap m + d - 1) in
       (m' =? m) && (d' =? d)))
      (zrange 1 31))
    (zrange 1 12).

End Calendar.

(** ** app/services/banb_data.py *)

Module BanbData.
Import PyStr Calendar.

Definition date_key_msg : string :=
  "date_key must be numeric in formats YYYY, YYYYMM, or YYYYMMDD".

Definition range_msg : string :=
  "start_key must represent a period earlier than end_key".

(** The two client errors of the date-key functions, as the exceptions
    the code raises for them. *)
Definition InvalidDateKey : exn := ValueError date_key_msg.
Definition InvalidRange : exn := ValueError range_msg.

(** [_resolve_date_key]: a date key (YYYY, YYYYMM, YYYYMMDD) to its
    start and end instants. *)
Definition _resolve_date_key (date_key : string) : result (datetime * datetime) :=
  if negb ((len date_key =? 4) || (len date_key =? 6) || (len date_key =? 8))
     || negb (isdigit date_key)
  then Raise InvalidDateKey
  else
    let* year := int (slice 0 4 date_key) in
    if len date_key =? 4 then
      let* start := datetime_ymd year 1 1 in
      let* end_ := datetime_ymd (year + 1) 1 1 in
      Ok (start, end_)
    else if len date_key =? 6 then
      let* month := int (slice 4 6 date_key) in
      let* start := datetime_ymd year month 1 in
      let* end_ := (if month =? 12 then datetime_ymd (year + 1) 1 1
                    else datetime_ymd year (month + 1) 1) in
      Ok (start, end_)
    else
      let* month := int (slice 4 6 date_key) in
      let* day := int (slice 6 8 date_key) in
      let* start := datetime_ymd year month day in
      let* end_ := add_days start 1 in
      Ok (start, end_).


(** Truth value of an [Optional[str]]: [None] and the empty string are
    false. *)
Definition truthy (k : option string) : bool :=
  match k with
  | Some EmptyString => false
  | Some _ => true
  | None => false
  end.

Definition key_of (k : option string) : string :=
  match k with Some s => s | None => EmptyString end.

(** The bounds [fetch_banb_data_by_pid_and_range] computes from its two
    keys before it queries: lines 30 to 44 of the function. *)
Definition range_bounds (start_key end_key : option string)
  : result (option datetime * option datetime) :=
  let start_dt : option datetime := None in
  let end_dt : option datetime := None in
  let* (start_dt, end_dt) :=
    (if truthy start_key then
       let* (s, start_dt_end) := _resolve_date_key (key_of start_key) in
       Ok (Some s, if negb (truthy end_key) then Some start_dt_end else end_dt)
     else Ok (start_dt, end_dt)) in
  let* (start_dt, end_dt) :=
    (if truthy end_key then
       let* (end_start, end_dt_candidate) := _resolve_date_key (key_of end_key) in
       Ok (if negb (truthy start_key) then Some end_start else start_dt,
           Some end_dt_candidate)
     else Ok (start_dt, end_dt)) in
  match start_dt, end_dt with
  | Some s, Some e =>
      if dt_geb s e then Raise InvalidRange else Ok (start_dt, end_dt)
  | _, _ => Ok (start_dt, end_dt)
  end.

Section Fetch.
(** The query itself, [_fetch_banb_data], is outside this development;
    [R] is what it returns. *)
Variable R : Type.
Variable _fetch_banb_data :
  Z -> Z -> option string -> option datetime -> option datetime -> result R.

Definition fetch_banb_data_by_pid_and_range
    (pid limit : Z) (start_key end_key : option string) (db_alias : option string)
  : result R :=
  let* (start_dt, end_dt) := range_bounds start_key end_key in
  _fetch_banb_data pid limit db_alias start_dt end_dt.

Definition fetch_banb_data_by_pid_and_date_key
    (pid limit : Z) (date_key : string) (db_alias : option string) : result R :=
  let* (start, end_) := _resolve_date_key date_key in
  _fetch_banb_data pid limit db_alias (Some start) (Some end_).
End Fetch.

(** Midnight at the start of a date, naive. *)
Definition midnight (y m d : Z) : datetime :=
  mk_datetime y m d 0 0 0 0 None.

(** A query that returns at once, to run the range functions on. *)
Definition fetch_none
  : Z -> Z -> option string -> option datetime -> option datetime -> result unit :=
  fun _ _ _ _ _ => Ok tt.

End BanbData.

(** ** app/services/rtf_data.py

    The date-key functions of this module have the text of those of
    [banb_data.py]. *)

Module RtfData.
Definition _resolve_date_key := BanbData._resolve_date_key.
Definition range_bounds := BanbData.range_bounds.
End RtfData.

(** ** What the design document says of date keys *)

Module DateKeySpec.
Import PyStr Calendar BanbData.

(** The granularity a digits-only key has by its length. *)
Inductive granularity : Type := Year | Month | Day.

(** [key] is a digits-only key of granularity [g] that writes the
    year [y], and the month [m] and the day [d] where it has them (1
    where it has not). *)
Definition key_denotes (key : string) (g : granularity) (y m d : Z) : Prop :=
  forall_chars is_decimal key = true /\
  match g with
  | Year => String.length key = 4%nat /\
            y = digits_val 0 key /\ m = 1 /\ d = 1
  | Month => String.length key = 6%nat /\
             y = digits_val 0 (slice 0 4 key) /\
             m = digits_val 0 (slice 4 6 key) /\ d = 1
  | Day => String.length key = 8%nat /\
           y = digits_val 0 (slice 0 4 key) /\
           m = digits_val 0 (slice 4 6 key) /\
           d = digits_val 0 (slice 6 8 key)
  end.

(** First day of the period after the one that starts on [y]-[m]-[d]. *)
Definition period_end (g : granularity) (y m d : Z) : Z * Z * Z :=
  match g with
  | Year => (y + 1, 1, 1)
  | Month => if m =? 12 then (y + 1, 1, 1) else (y, m + 1, 1)
  | Day => next_day y m d
  end.

(** Days the calendar gives the period. *)
Definition period_days (g : granularity) (y m : Z) : Z :=
  match g with
  | Year => year_length y
  | Month => _days_in_month y m
  | Day => 1
  end.

Definition midnight3 (p : Z * Z * Z) : datetime :=
  let '(y, m, d) := p in midnight y m d.

Definition fst3 (p : Z * Z * Z) : Z := let '(y, _, _) := p in y.


End DateKeySpec.

(** ** app/services/productivity_shift.py *)

Module ProductivityShift.
Import Calendar.

Definition JAKARTA_TZ : tz := ZoneInfo "Asia/Jakarta".

(** [time(h, mi)] *)
Record time : Type := mk_time { t_hour : Z; t_minute : Z }.

(** The local [combine]: the date of [base] (of [now_jkt] when there is
    no [base]) at the time [t], in the zone. *)
Definition combine (now_jkt : datetime) (t : time) (base : option datetime) : datetime :=
  let base := match base with Some b => b | None => now_jkt end in
  mk_datetime (year base) (month base) (day base) (t_hour t) (t_minute t) 0 0
    (Some JAKARTA_TZ).

(** The start of the shift window, [start_dt] at line 71: [None] where
    the code leaves it undefined. *)
Definition shift_start (now_jkt : datetime) : result (option datetime) :=
  let weekday := weekday now_jkt in
  if (weekday =? 0) || (weekday =? 1) || (weekday =? 2) || (weekday =? 3) then
    let t1 := mk_time 6 30 in
    let t2 := mk_time 14 30 in
    let t3 := mk_time 22 30 in
    if dt_ltb now_jkt (combine now_jkt t1 None) then
      let* yesterday := add_days now_jkt (-1) in
      Ok (Some (combine now_jkt t3 (Some yesterday)))
    else if dt_ltb now_jkt (combine now_jkt t2 None) then
      Ok (Some (combine now_jkt t1 None))
    else if dt_ltb now_jkt (combine now_jkt t3 None) then
      Ok (Some (combine now_jkt t2 None))
    else Ok (Some (combine now_jkt t3 None))
  else if weekday =? 4 then
    let t1 := mk_time 6 30 in
    let t2 := mk_time 15 0 in
    let t3 := mk_time 23 0 in
    let t_overlap := mk_time 22 30 in
    if dt_ltb now_jkt (combine now_jkt t1 None) then
      let* yesterday := add_days now_jkt (-1) in
      Ok (Some (combine now_jkt t_overlap (Some yesterday)))
    else if dt_ltb now_jkt (combine now_jkt t2 None) then
      Ok (Some (combine now_jkt t1 None))
    else if dt_ltb now_jkt (combine now_jkt t3 None) then
      Ok (Some (combine now_jkt t2 None))
    else Ok (Some (combine now_jkt t_overlap None))
  else if weekday =? 5 then
    let t1 := mk_time 6 30 in
    let t2 := mk_time 11 30 in
    let t3 := mk_time 16 30 in
    if dt_ltb now_jkt (combine now_jkt t1 None) then Ok None
    else if dt_ltb now_jkt (combine now_jkt t2 None) then
      Ok (Some (combine now_jkt t1 None))
    else if dt_ltb now_jkt (combine now_jkt t3 None) then
      Ok (Some (combine now_jkt t2 None))
    else Ok (Some (combine now_jkt t3 None))
  else Ok None.

(** The invariant of a [datetime] value. *)
Definition wf_datetime (dt : datetime) : Prop :=
  valid_date (year dt) (month dt) (day dt) /\
  0 <= hour dt <= 23 /\ 0 <= minute dt <= 59 /\ 0 <= second dt <= 59 /\
  0 <= microsecond dt <= 999999.

(** Lines 29 to 71, from the instant in the zone. *)
Definition business_date_at (now_jkt : datetime) : result date :=
  let today := date_of now_jkt in
  let* start_dt := shift_start now_jkt in
  Ok (date_of (match start_dt with Some s => s | None => now_jkt end)).

Section Zones.
(** What the interpreter takes from outside the program: the zone
    database and the clock. [zone_utcoffset key dt] is the offset from
    UTC, in seconds, that the named zone has at its own wall clock [dt]
    ([dt.utcoffset()]); [zone_fromutc key utc] is the offset the zone
    has at the instant whose fields in UTC are [utc]; [clock z] is
    [datetime.now(tz=z)]. *)
Variable zone_utcoffset : string -> datetime -> Z.
Variable zone_fromutc : string -> datetime -> Z.
Variable clock : tz -> datetime.

(** [z.utcoffset(dt)] *)
Definition utcoffset (z : tz) (dt : datetime) : Z :=
  match z with
  | FixedOffset seconds => seconds
  | ZoneInfo key => zone_utcoffset key dt
  end.

(** [z.fromutc(utc)]: the fields of [utc] moved by the offset of the
    zone at that instant. *)
Definition fromutc (z : tz) (utc : datetime) : result datetime :=
  add_seconds utc
    (match z with
     | FixedOffset seconds => seconds
     | ZoneInfo key => zone_fromutc key utc
     end).

(** [mytz is z]: a zone of one name is one object, [ZoneInfo] keeps a
    cache of them; an offset is never the object of a named zone. *)
Definition same_zone (mytz z : tz) : bool :=
  match mytz, z with
  | ZoneInfo k, ZoneInfo k' => String.eqb k k'
  | _, _ => false
  end.

(** [dt.astimezone(z)] for an aware [dt], whose zone is [mytz]: nothing
    to do in its own zone; otherwise to UTC by its offset, and from UTC
    into [z]. Either step leaves the calendar with an
    [OverflowError]. *)
Definition astimezone (mytz : tz) (dt : datetime) (z : tz) : result datetime :=
  if same_zone mytz z then Ok dt
  else
    let* utc := add_seconds dt (- utcoffset mytz dt) in
    fromutc z (replace_tzinfo utc (Some z)).

(** [_dt_in_jakarta(now)] *)
Definition _dt_in_jakarta (now : option datetime) : result datetime :=
  match now with
  | None => Ok (clock JAKARTA_TZ)
  | Some now =>
      match tzinfo now with
      | None => Ok (replace_tzinfo now (Some JAKARTA_TZ))
      | Some mytz => astimezone mytz now JAKARTA_TZ
      end
  end.

(** [get_jakarta_shift_business_date(now)] *)
Definition get_jakarta_shift_business_date (now : option datetime) : result date :=
  let* now_jkt := _dt_in_jakarta now in
  business_date_at now_jkt.

(** The invariant of the input: of the instant given, of the reading of
    the clock when none is given. *)
Definition wf_input (now : option datetime) : Prop :=
  match now with
  | Some dt => wf_datetime dt
  | None => wf_datetime (clock JAKARTA_TZ)
  end.

End Zones.

(** Before 06:30 on the wall clock. *)
Definition before_first_shift (dt : datetime) : bool :=
  (hour dt <? 6) || ((hour dt =? 6) && (minute dt <? 30)).

Definition date3 (p : Z * Z * Z) : date :=
  let '(y, m, d) := p in mk_date y m d.

(** A naive instant. *)
Definition at_time (y m d h mi s : Z) : datetime :=
  mk_datetime y m d h mi s 0 None.

(** An instant with a fixed offset from UTC, in seconds. *)
Definition at_offset (y m d h mi s offset : Z) : datetime :=
  mk_datetime y m d h mi s 0 (Some (FixedOffset offset)).

(** A zone database and a clock to run the function on: every named
    zone at seven hours east of UTC, as Asia/Jakarta is since 1964, and
    a clock that stands at a Friday afternoon. *)
Definition seven_east : string -> datetime -> Z := fun _ _ => 25200.

Definition clock_friday : tz -> datetime :=
  fun z => mk_datetime 2024 12 6 15 20 0 0 (Some z).

End ProductivityShift.

(** ** app/core/config.py *)

Module Config.
Import PyStr.

(** A [dict] with string keys, in insertion order. *)
Definition dict (V : Type) : Type := list (string * V).

(** [d[k] = v]: the value is replaced where the key is, and the pair is
    appended when the key is new. *)
Fixpoint dict_set {V : Type} (d : dict V) (k : string) (v : V) : dict V :=
  match d with
  | [] => [(k, v)]
  | (k', v') :: d' =>
      if String.eqb k' k then (k', v) :: d'
      else (k', v') :: dict_set d' k v
  end.

Fixpoint dict_get {V : Type} (d : dict V) (k : string) : option V :=
  match d with
  | [] => None
  | (k', v') :: d' => if String.eqb k' k then Some v' else dict_get d' k
  end.

(** [d.keys()] *)
Definition keys {V : Type} (d : dict V) : list string := map fst d.

(** [k in d] *)
Definition dict_mem {V : Type} (k : string) (d : dict V) : bool :=
  existsb (String.eqb k) (keys d).

(** A literal prefix of a pattern compiled with [re.IGNORECASE], matched
    at the head of [s]: what is left of [s], or [None]. The literals are
    ASCII, and on U+0000..U+00FF a character matches one of them exactly
    when both fold to the same lower-case letter. *)
Fixpoint match_literal_ci (p s : string) : option string :=
  match p with
  | EmptyString => Some s
  | String a p' =>
      match s with
      | EmptyString => None
      | String c s' =>
          if Ascii.eqb (lower_char a) (lower_char c) then match_literal_ci p' s'
          else None
      end
  end.

(** The longest run of decimal digits at the head of a string, and the
    rest: [(\d+)] followed by a literal that starts with no digit. *)
Fixpoint span_decimal (s : string) : string * string :=
  match s with
  | EmptyString => (EmptyString, EmptyString)
  | String c s' =>
      if is_decimal c
      then let '(ds, rest) := span_decimal s' in (String c ds, rest)
      else (EmptyString, s)
  end.

Definition newline : string := String (ascii_of_nat 10) EmptyString.

(** [re.compile(r'^<prefix>(\d+)_DATABASE_URL$', re.IGNORECASE).match(key)]:
    group 1 of the match. [$] also matches before a newline that ends
    the string. *)
Definition match_numbered (prefix key : string) : option string :=
  match match_literal_ci prefix key with
  | None => None
  | Some rest =>
      let '(ds, rest') := span_decimal rest in
      match ds with
      | EmptyString => None
      | _ =>
          match match_literal_ci "_DATABASE_URL" rest' with
          | Some tail =>
              if String.eqb tail EmptyString || String.eqb tail newline
              then Some ds else None
          | None => None
          end
      end
  end.

(** The alias the loop body of [database_urls] gives a key, [None] for a
    key that matches no pattern (lines 63 to 91). *)
Definition entry_alias (key : string) : option string :=
  match match_numbered "IP" key with
  | Some ip_number => Some ("ip" ++ lower ip_number)%string
  | None =>
  match match_numbered "BANB" key with
  | Some banb_number => Some ("banb" ++ lower banb_number)%string
  | None =>
  match match_numbered "CTM" key with
  | Some ctm_number => Some ("ctm" ++ lower ctm_number)%string
  | None =>
      if startswith "CKP_" (upper key) && endswith "_DATABASE_URL" (upper key)
      then Some (lower (replace_with_empty "_DATABASE_URL" key))
      else None
  end end end.

(** The loop over [os.environ.items()]. *)
Fixpoint scan_environ (items : list (string * string)) (urls : dict string)
  : dict string :=
  match items with
  | [] => urls
  | (key, value) :: rest =>
      match value with
      | EmptyString => scan_environ rest urls
      | _ =>
          match entry_alias key with
          | Some alias => scan_environ rest (dict_set urls alias value)
          | None => scan_environ rest urls
          end
      end
  end.

(** The two fields of [Settings] that name a backend of their own. *)
Record Settings : Type := mk_settings {
  montrg_database_url : option string;
  cmms_database_url : option string
}.

(** [Settings.database_urls], with the environment it reads. *)
Definition database_urls (environ : list (string * string)) (self : Settings)
  : dict string :=
  let urls := scan_environ environ [] in
  let urls :=
    match montrg_database_url self with
    | Some (String c u) => dict_set urls "montrg" (String c u)
    | _ => urls
    end in
  let urls :=
    match cmms_database_url self with
    | Some (String c u) => dict_set urls "cmms" (String c u)
    | _ => urls
    end in
  urls.

(** [Settings.default_database_alias]: [next(iter(keys), None)]. *)
Definition default_database_alias (environ : list (string * string)) (self : Settings)
  : option string :=
  match keys (database_urls environ self) with
  | [] => None
  | k :: _ => Some k
  end.

(** The entries the two fixed names add, in their order. *)
Definition fixed_entries (self : Settings) : dict string :=
  (match montrg_database_url self with
   | Some (String c u) => [("montrg", String c u)]
   | _ => []
   end ++
   match cmms_database_url self with
   | Some (String c u) => [("cmms", String c u)]
   | _ => []
   end)%list.

(** A value of white space only. *)
Definition blank (v : string) : bool :=
  negb (String.eqb v EmptyString) && String.eqb (strip v) EmptyString.

(** [old] occurs in [pre ++ old] at the end only. *)
Definition only_at_end (old pre : string) : Prop :=
  forall t1 t2, pre = (t1 ++ t2)%string -> t2 <> EmptyString ->
    String.prefix old (t2 ++ old)%string = false.

(** The aliases of the entries the loop keeps, in the order of the
    environment. *)
Fixpoint aliases (items : list (string * string)) : list string :=
  match items with
  | [] => []
  | (key, value) :: rest =>
      match value, entry_alias key with
      | String _ _, Some alias => alias :: aliases rest
      | _, _ => aliases rest
      end
  end.

(** The members of a list that were not seen before, in their order. *)
Fixpoint first_occurrences (seen l : list string) : list string :=
  match l with
  | [] => []
  | a :: l' =>
      if existsb (String.eqb a) seen then first_occurrences seen l'
      else a :: first_occurrences (seen ++ [a]) l'
  end.

End Config.

(** ** app/core/database.py *)

Module Database.
Import PyStr Config.

(** What the module builds for an alias: an engine of the asynchronous
    family or the synchronous engine of the thick-mode client, on its
    URL. *)
Inductive engine : Type :=
| AsyncEngine (url : string)
| SyncEngine (url : string).

(** The module-level dictionaries. *)
Record registry : Type := mk_registry {
  database_urls : dict string;
  ASYNC_ENGINES : dict engine;
  SYNC_ENGINES : dict engine;
  SESSION_FACTORIES : dict engine;
  DEFAULT_DB_ALIAS : string
}.

(** The test of line 62. *)
Definition is_sync (alias url : string) : bool :=
  String.eqb alias "cmms" && startswith "oracle+oracledb" (lower url).

(** The loop of lines 53 to 65 over [settings.database_urls.items()]. *)
Fixpoint provision (items : list (string * string)) (async sync : dict engine)
  : dict engine * dict engine :=
  match items with
  | [] => (async, sync)
  | (alias, url) :: rest =>
      if is_sync alias url
      then provision rest async (dict_set sync alias (SyncEngine url))
      else provision rest (dict_set async alias (AsyncEngine url)) sync
  end.

Definition no_database_msg : string :=
  "At least one database URL must be configured.".

(** The module body, from the configured URLs: it refuses an empty
    configuration, provisions the engines, makes one session factory for
    each asynchronous engine and fixes the default alias. (The
    initialisation of the Oracle client library, lines 18 to 40, is
    outside this model.) *)
Definition load (urls : dict string) : result registry :=
  match urls with
  | [] => Raise (RuntimeError no_database_msg)
  | (first, _) :: _ =>
      let '(async, sync) := provision urls [] [] in
      Ok (mk_registry urls async sync async first)
  end.

(** [available_databases()] *)
Definition available_databases (r : registry) : list string :=
  keys (SESSION_FACTORIES r).

(** [repr] of a list of strings, for strings that need no escape. *)
Fixpoint repr_items (l : list string) : string :=
  match l with
  | [] => ""
  | [a] => "'" ++ a ++ "'"
  | a :: l' => "'" ++ a ++ "', " ++ repr_items l'
  end%string.

Definition repr_list (l : list string) : string :=
  ("[" ++ repr_items l ++ "]")%string.

Definition unknown_alias_msg (resolved : string) (available : list string) : string :=
  ("Unknown database alias '" ++ resolved ++ "'. Available: "
   ++ repr_list available)%string.

(** The client error for an alias that was never provisioned. *)
Definition UnknownAlias (resolved : string) (available : list string) : exn :=
  ValueError (unknown_alias_msg resolved available).

(** [resolve_db_alias(alias)] *)
Definition resolve_db_alias (r : registry) (alias : option string) : result string :=
  let resolved :=
    match alias with
    | Some (String c a) => String c a
    | _ => DEFAULT_DB_ALIAS r
    end in
  if negb (dict_mem resolved (database_urls r))
  then Raise (UnknownAlias resolved (available_databases r))
  else Ok resolved.

Definition no_sync_engine_msg (resolved : string) : string :=
  ("No synchronous engine configured for alias '" ++ resolved ++ "'")%string.

(** [get_sync_engine(alias)] *)
Definition get_sync_engine (r : registry) (alias : option string) : result engine :=
  let* resolved := resolve_db_alias r alias in
  match dict_get (SYNC_ENGINES r) resolved with
  | None => Raise (ValueError (no_sync_engine_msg resolved))
  | Some e => Ok e
  end.

(** *** Scopes of sessions *)

(** How a piece of code that awaits ends: it completes, an exception
    leaves it, or its task is cancelled at one of its [await]s
    ([CancelledError], which nothing here catches). *)
Inductive outcome (A : Type) : Type :=
| Completes (a : A)
| Raises (e : exn)
| Cancelled.

Arguments Completes {A} a.
Arguments Raises {A} e.
Arguments Cancelled {A}.


Definition no_session_msg (alias : string) : string :=
  ("Asynchronous session is not configured for alias '" ++ alias ++ "'")%string.

Section Library.
(** What SQLAlchemy keeps and does, outside the program: [world] is the
    state of the engines, their pools and the sessions; [session] is an
    [AsyncSession]; [session_factory alias] is the call
    [SESSION_FACTORIES[alias]()] with the [__aenter__] of its result,
    which awaits nothing; [close s] is [await s.close()] and [aexit s]
    is the [__aexit__] of the session, each with the way it ends. *)
Variable world : Type.
Variable session : Type.
Variable session_factory : string -> world -> session * world.
Variable close : session -> world -> outcome unit * world.
Variable aexit : session -> world -> outcome unit * world.

(** A piece of code that awaits: from a state of the library to the way
    it ends and the state it leaves. *)
Definition awaitable (A : Type) : Type := world -> outcome A * world.

(** [try: m finally: f]. The [finally] clause runs on every way out of
    [m]; when it completes, the way out of [m] is taken further, and
    when it does not, its own way out is. *)
Definition try_finally {A : Type} (m : awaitable A) (f : awaitable unit) : awaitable A :=
  fun w =>
    let '(o, w) := m w in
    let '(fo, w) := f w in
    match fo with
    | Completes _ => (o, w)
    | Raises e => (Raises e, w)
    | Cancelled => (Cancelled, w)
    end.

(** [async with mgr as s: k]. The manager is entered, [k] runs, and
    the [__aexit__] of the manager runs on every way out of [k]; the
    [__aexit__] of a session returns nothing, so the way out of [k] is
    taken further. *)
Definition async_with {A : Type} (enter : world -> session * world)
    (k : session -> awaitable A) : awaitable A :=
  fun w =>
    let '(s, w) := enter w in
    let '(o, w) := k s w in
    let '(xo, w) := aexit s w in
    match xo with
    | Completes _ => (o, w)
    | Raises e => (Raises e, w)
    | Cancelled => (Cancelled, w)
    end.

(** Lines 105 to 110. [body] is what the caller does while the generator
    stands at [yield session], with the way it ends: the [yield] returns
    when the body completes, and raises what left the body
    otherwise. *)
Definition scope (alias : string) (body : session -> awaitable unit) : awaitable unit :=
  async_with (session_factory alias)
    (fun session => try_finally (body session) (close session)).

(** [async with get_session(db_alias) as session: body] *)
Definition get_session (r : registry) (db_alias : option string)
    (body : session -> awaitable unit) : awaitable unit :=
  match resolve_db_alias r db_alias with
  | Raise e => fun w => (Raises e, w)
  | Ok alias =>
      if negb (dict_mem alias (SESSION_FACTORIES r))
      then fun w => (Raises (ValueError (no_session_msg alias)), w)
      else scope alias body
  end.

(** What the pools count: [borrowed w alias] is the number of
    connections checked out of the pool of the engine of [alias], and
    [held s w alias] the number of them the session [s] holds. *)
Variable borrowed : world -> string -> Z.
Variable held : session -> world -> string -> Z.

(** While the scope of the session [s] that started with the counts
    [base] is open: what is checked out beyond [base] is what the
    session holds. *)
Definition scope_inv (base : string -> Z) (s : session) (w : world) : Prop :=
  forall a, borrowed w a = base a + held s w a.

Definition holds_nothing (s : session) (w : world) : Prop :=
  forall a, held s w a = 0.

(** The contract of the library. A new session holds no connection and
    making it checks none out. [close], however it ends, checks in what
    it takes from the session, and when it completes the session holds
    nothing. The [__aexit__] of the session awaits a shielded [close]:
    when control comes back from it the session holds nothing. *)
Definition library_contract : Prop :=
  (forall alias w s w', session_factory alias w = (s, w') ->
     scope_inv (borrowed w) s w' /\ holds_nothing s w') /\
  (forall base s w o w', scope_inv base s w -> close s w = (o, w') ->
     scope_inv base s w' /\ (o = Completes tt -> holds_nothing s w')) /\
  (forall base s w o w', scope_inv base s w -> aexit s w = (o, w') ->
     scope_inv base s w' /\ holds_nothing s w').


End Library.

(** A registry with one asynchronous backend and the CMMS backend. *)
Definition two_backends : dict string :=
  [("ip04", "mysql+aiomysql://h/a"); ("cmms", "oracle+oracledb://h/x")].

(** *** A pool to run a scope on

    One session at a time: the state is the count of each pool and
    whether the session holds a connection; the session is the alias of
    its engine. A session takes a connection when it first has to reach
    the database and gives it back when it is closed. *)
Record pool_state : Type := mk_pool_state {
  checked_out : string -> Z;
  connected : bool
}.

Definition idle : pool_state := mk_pool_state (fun _ => 0) false.

Definition pool_factory (alias : string) (w : pool_state) : string * pool_state :=
  (alias, mk_pool_state (checked_out w) false).

(** [await session.execute(...)] for a statement that completes. *)
Definition pool_execute (s : string) (w : pool_state) : pool_state :=
  if connected w then w
  else mk_pool_state (fun a => if String.eqb a s then checked_out w a + 1
                               else checked_out w a) true.

Definition pool_release (s : string) (w : pool_state) : pool_state :=
  if connected w
  then mk_pool_state (fun a => if String.eqb a s then checked_out w a - 1
                               else checked_out w a) false
  else w.

Definition pool_close (s : string) (w : pool_state) : outcome unit * pool_state :=
  (Completes tt, pool_release s w).

(** A [close] that is cancelled before it has given anything back. *)
Definition pool_close_cancelled (s : string) (w : pool_state)
  : outcome unit * pool_state :=
  (Cancelled, w).

Definition pool_held (s : string) (w : pool_state) (a : string) : Z :=
  if connected w && String.eqb a s then 1 else 0.

(** Bodies: a query and then the end of the body, by return, by an
    exception and by cancellation. *)
Definition body_returns (s : string) (w : pool_state) : outcome unit * pool_state :=
  (Completes tt, pool_execute s w).

Definition body_raises (e : exn) (s : string) (w : pool_state)
  : outcome unit * pool_state :=
  (Raises e, pool_execute s w).

Definition body_cancelled (s : string) (w : pool_state) : outcome unit * pool_state :=
  (Cancelled, pool_execute s w).

End Database.

(** ** [datetime.strptime] *)

Module Strptime.
Import PyStr Calendar.

(** The pieces of a format: a directive [%x], a run of white space
    (which the regular expression of the format turns into [\s+]), or
    any other character, which stands for itself. *)
Inductive item : Type :=
| Dir (x : ascii)
| Lit (c : ascii)
| Spaces.

Fixpoint items_of (in_space : bool) (format : string) : list item :=
  match format with
  | EmptyString => []
  | String c rest =>
      if isspace_char c
      then (if in_space then items_of true rest else Spaces :: items_of true rest)
      else
        match Ascii.eqb c "%", rest with
        | true, String x rest' => Dir x :: items_of false rest'
        | _, _ => Lit c :: items_of false rest
        end
  end.

(** The fields a match collects; a format without [%Y] leaves the year
    open. *)
Record fields : Type := mk_fields {
  f_Y : option Z;
  f_m : Z;
  f_d : Z;
  f_H : Z;
  f_M : Z;
  f_S : Z
}.

Definition no_fields : fields := mk_fields None 1 1 0 0 0.

Definition set_field (x : ascii) (v : Z) (f : fields) : fields :=
  if Ascii.eqb x "Y" then mk_fields (Some v) (f_m f) (f_d f) (f_H f) (f_M f) (f_S f)
  else if Ascii.eqb x "m" then mk_fields (f_Y f) v (f_d f) (f_H f) (f_M f) (f_S f)
  else if Ascii.eqb x "d" then mk_fields (f_Y f) (f_m f) v (f_H f) (f_M f) (f_S f)
  else if Ascii.eqb x "H" then mk_fields (f_Y f) (f_m f) (f_d f) v (f_M f) (f_S f)
  else if Ascii.eqb x "M" then mk_fields (f_Y f) (f_m f) (f_d f) (f_H f) v (f_S f)
  else if Ascii.eqb x "S" then mk_fields (f_Y f) (f_m f) (f_d f) (f_H f) (f_M f) v
  else f.

(** A character of the class [[lo-hi]] of ASCII digits. *)
Definition digit_in (lo hi : Z) (c : ascii) : bool :=
  is_decimal c && (lo <=? digit_val c) && (digit_val c <=? hi).

(** The ways a piece of a regular expression matches at the head of a
    string, best first: the value read and what is left. [one] is a
    class of one digit, [two] two such classes in a row. *)
Definition one (lo hi : Z) (s : string) : list (Z * string) :=
  match s with
  | String c r => if digit_in lo hi c then [(digit_val c, r)] else []
  | EmptyString => []
  end.

Definition two (lo1 hi1 lo2 hi2 : Z) (s : string) : list (Z * string) :=
  match s with
  | String c1 (String c2 r) =>
      if digit_in lo1 hi1 c1 && digit_in lo2 hi2 c2
      then [(10 * digit_val c1 + digit_val c2, r)] else []
  | _ => []
  end.

(** [\d\d\d\d] *)
Definition four (s : string) : list (Z * string) :=
  match s with
  | String c1 (String c2 (String c3 (String c4 r))) =>
      if is_decimal c1 && is_decimal c2 && is_decimal c3 && is_decimal c4
      then [(1000 * digit_val c1 + 100 * digit_val c2 + 10 * digit_val c3
             + digit_val c4, r)]
      else []
  | _ => []
  end.

(** A space and a digit of 1 to 9, the last alternative of [%d]. *)
Definition space_one (s : string) : list (Z * string) :=
  match s with
  | String c r => if Ascii.eqb c " " then one 1 9 r else []
  | EmptyString => []
  end.

(** The regular expressions of the directives, alternatives in their
    order:
    [%Y] is [\d\d\d\d], [%m] is [1[0-2]|0[1-9]|[1-9]],
    [%d] is [3[0-1]|[1-2]\d|0[1-9]|[1-9]| [1-9]],
    [%H] is [2[0-3]|[0-1]\d|\d], [%M] is [[0-5]\d|\d],
    [%S] is [6[0-1]|[0-5]\d|\d]. [None] is a directive outside this
    model. *)
Definition directive (x : ascii) (s : string) : option (list (Z * string)) :=
  if Ascii.eqb x "Y" then Some (four s)
  else if Ascii.eqb x "m" then Some (two 1 1 0 2 s ++ two 0 0 1 9 s ++ one 1 9 s)%list
  else if Ascii.eqb x "d" then
    Some (two 3 3 0 1 s ++ two 1 2 0 9 s ++ two 0 0 1 9 s ++ one 1 9 s
          ++ space_one s)%list
  else if Ascii.eqb x "H" then Some (two 2 2 0 3 s ++ two 0 1 0 9 s ++ one 0 9 s)%list
  else if Ascii.eqb x "M" then Some (two 0 5 0 9 s ++ one 0 9 s)%list
  else if Ascii.eqb x "S" then Some (two 6 6 0 1 s ++ two 0 5 0 9 s ++ one 0 9 s)%list
  else None.

(** [\s+], greedy: what is left after each non-empty run of white space
    at the head, the longest run first. *)
Fixpoint space_splits (s : string) : list string :=
  match s with
  | String c r => if isspace_char c then (space_splits r ++ [r])%list else []
  | EmptyString => []
  end.

(** The matches of a format at the head of a string, in the order in
    which a backtracking matcher finds them. *)
Fixpoint re_match (its : list item) (s : string) (f : fields)
  : list (fields * string) :=
  match its with
  | [] => [(f, s)]
  | Lit c :: its' =>
      match s with
      | String c' r => if Ascii.eqb c c' then re_match its' r f else []
      | EmptyString => []
      end
  | Spaces :: its' => flat_map (fun r => re_match its' r f) (space_splits s)
  | Dir x :: its' =>
      match directive x s with
      | Some alts => flat_map (fun vr => re_match its' (snd vr) (set_field x (fst vr) f)) alts
      | None => []
      end
  end.

Definition no_match_msg : string := "time data does not match format".
Definition unconverted_msg : string := "unconverted data remains".

(** [datetime.strptime(data_string, format)] for formats of the
    directives above: the first match must reach the end of the string,
    and its fields must make a [datetime]. Every failure is a
    [ValueError]. *)
Definition strptime (data_string format : string) : result datetime :=
  match re_match (items_of false format) data_string no_fields with
  | [] => Raise (ValueError no_match_msg)
  | (f, rest) :: _ =>
      match rest with
      | EmptyString =>
          let year :=
            match f_Y f with
            | Some y => y
            | None => if (f_m f =? 2) && (f_d f =? 29) then 1904 else 1900
            end in
          new_datetime year (f_m f) (f_d f) (f_H f) (f_M f) (f_S f) 0 None
      | _ => Raise (ValueError unconverted_msg)
      end
  end.

(** The decimal digit of a number below ten, and numbers written with
    two and with four digits. *)
Definition digit_char (k : Z) : ascii := ascii_of_N (Z.to_N (48 + k)).

Definition pad2 (n : Z) : string :=
  String (digit_char (n / 10)) (String (digit_char (n mod 10)) EmptyString).

Definition pad4 (n : Z) : string :=
  String (digit_char (n / 1000))
    (String (digit_char (n / 100 mod 10))
       (String (digit_char (n / 10 mod 10))
          (String (digit_char (n mod 10)) EmptyString))).

(** [l] starts with [a]. *)
Definition first_is {A : Type} (l : list A) (a : A) : Prop :=
  exists tl, l = a :: tl.

End Strptime.

(** ** app/services/banbury_anomaly_detection.py *)

Module BanburyAnomalyDetection.
Import PyStr Calendar Strptime.

(** Default timezone for naive inputs. *)
Definition DEFAULT_TZ : tz := ZoneInfo "Asia/Seoul".

Definition invalid_format_msg (date_str : string) : string :=
  ("Invalid date format. Supported formats: yyyy, yyyyMM, yyyyMMdd, yyyy-MM, YYYY-MM-DD, "
   ++ "YYYY-MM-DD HH:MM, YYYY-MM-DD HH:MM:SS. Input value: " ++ date_str)%string.

(** [dt.replace(tzinfo=DEFAULT_TZ)] *)
Definition in_default_tz (dt : datetime) : datetime :=
  replace_tzinfo dt (Some DEFAULT_TZ).

Section Iso.
(** [datetime.fromisoformat], whose language differs between versions of
    the interpreter: [None] stands for its [ValueError]. *)
Variable fromisoformat : string -> option datetime.

(** [_parse_cycle_start_date(date_str)] *)
Definition _parse_cycle_start_date (date_str : string) : result datetime :=
  let date_str := strip date_str in
  match fromisoformat (replace_char "Z" "+00:00" date_str) with
  | Some iso_dt =>
      Ok (match tzinfo iso_dt with
          | None => replace_tzinfo iso_dt (Some DEFAULT_TZ)
          | Some _ => iso_dt
          end)
  | None =>
  let* r :=
    (if (len date_str =? 19) && contains_char " " date_str && contains_char ":" date_str
     then attempt (strptime date_str "%Y%m%d %H:%M:%S") else Ok None) in
  match r with Some dt => Ok (in_default_tz dt) | None =>
  let* r :=
    (if (len date_str =? 16) && contains_char " " date_str && contains_char ":" date_str
        && negb (contains_char "-" (slice 0 10 date_str))
     then attempt (strptime date_str "%Y%m%d %H:%M") else Ok None) in
  match r with Some dt => Ok (in_default_tz dt) | None =>
  let* r :=
    (if (len date_str =? 19) && contains_char " " date_str
        && (count_char "-" date_str =? 2) && (count_char ":" date_str =? 2)
     then attempt (strptime date_str "%Y-%m-%d %H:%M:%S") else Ok None) in
  match r with Some dt => Ok (in_default_tz dt) | None =>
  let* r :=
    (if (len date_str =? 16) && contains_char " " date_str
        && (count_char "-" date_str =? 2) && (count_char ":" date_str =? 1)
     then attempt (strptime date_str "%Y-%m-%d %H:%M") else Ok None) in
  match r with Some dt => Ok (in_default_tz dt) | None =>
  let* r :=
    (if (len date_str =? 10) && (count_char "-" date_str =? 2)
     then attempt (strptime date_str "%Y-%m-%d") else Ok None) in
  match r with Some dt => Ok (in_default_tz dt) | None =>
  let* r :=
    (if (len date_str =? 8) && isdigit date_str
     then attempt (strptime date_str "%Y%m%d") else Ok None) in
  match r with Some dt => Ok (in_default_tz dt) | None =>
  let* r :=
    (if (len date_str =? 7) && (count_char "-" date_str =? 1)
     then attempt (let* parsed := strptime date_str "%Y-%m" in
                   new_datetime (year parsed) (month parsed) 1 0 0 0 0 (Some DEFAULT_TZ))
     else Ok None) in
  match r with Some dt => Ok dt | None =>
  let* r :=
    (if (len date_str =? 6) && isdigit date_str
     then attempt (let* parsed := strptime date_str "%Y%m" in
                   new_datetime (year parsed) (month parsed) 1 0 0 0 0 (Some DEFAULT_TZ))
     else Ok None) in
  match r with Some dt => Ok dt | None =>
  let* r :=
    (if (len date_str =? 4) && isdigit date_str
     then attempt (let* y := int date_str in
                   new_datetime y 1 1 0 0 0 0 (Some DEFAULT_TZ))
     else Ok None) in
  match r with Some dt => Ok dt | None =>
  Raise (ValueError (invalid_format_msg date_str))
  end end end end end end end end end
  end.

(** [dt.tzinfo or DEFAULT_TZ] *)
Definition tz_or_default (dt : datetime) : option tz :=
  match tzinfo dt with Some z => Some z | None => Some DEFAULT_TZ end.

(** The start of the period of a start key (lines 141 to 150). *)
Definition period_start (key : string) (start_dt : datetime) : result datetime :=
  if len key =? 4 then
    new_datetime (year start_dt) 1 1 0 0 0 0 (tz_or_default start_dt)
  else if (len key =? 6) && isdigit key then
    new_datetime (year start_dt) (month start_dt) 1 0 0 0 0 (tz_or_default start_dt)
  else if (len key =? 7) && contains_char "-" key then
    new_datetime (year start_dt) (month start_dt) 1 0 0 0 0 (tz_or_default start_dt)
  else if (len key =? 8) && isdigit key then
    new_datetime (year start_dt) (month start_dt) (day start_dt) 0 0 0 0
      (tz_or_default start_dt)
  else if (len key =? 10) && (count_char "-" key =? 2) then
    new_datetime (year start_dt) (month start_dt) (day start_dt) 0 0 0 0
      (tz_or_default start_dt)
  else Ok start_dt.

Definition next_month_start (end_dt : datetime) : result datetime :=
  if month end_dt =? 12
  then new_datetime (year end_dt + 1) 1 1 0 0 0 0 (tz_or_default end_dt)
  else new_datetime (year end_dt) (month end_dt + 1) 1 0 0 0 0 (tz_or_default end_dt).

(** The end of the period of an end key (lines 157 to 172). *)
Definition period_stop (key : string) (end_dt : datetime) : result datetime :=
  if len key =? 4 then
    new_datetime (year end_dt + 1) 1 1 0 0 0 0 (tz_or_default end_dt)
  else if (len key =? 6) && isdigit key then next_month_start end_dt
  else if (len key =? 7) && contains_char "-" key then next_month_start end_dt
  else if (len key =? 8) && isdigit key then add_days end_dt 1
  else if (len key =? 10) && (count_char "-" key =? 2) then add_days end_dt 1
  else Ok end_dt.

(** [_resolve_cycle_start_range(start_key, end_key)] *)
Definition _resolve_cycle_start_range (start_key end_key : option string)
  : result (option datetime * option datetime) :=
  let* start_dt :=
    (if BanbData.truthy start_key then
       let* start_dt := _parse_cycle_start_date (BanbData.key_of start_key) in
       let* start_dt := period_start (strip (BanbData.key_of start_key)) start_dt in
       Ok (Some start_dt)
     else Ok None) in
  let* end_dt :=
    (if BanbData.truthy end_key then
       let* end_dt := _parse_cycle_start_date (BanbData.key_of end_key) in
       let* end_dt := period_stop (strip (BanbData.key_of end_key)) end_dt in
       Ok (Some end_dt)
     else Ok None) in
  Ok (start_dt, end_dt).

End Iso.

(** An instant of the default zone, and a naive one. *)
Definition local (y m d h mi s : Z) : datetime :=
  mk_datetime y m d h mi s 0 (Some DEFAULT_TZ).

Definition naive (y m d h mi s : Z) : datetime :=
  mk_datetime y m d h mi s 0 None.

(** What [fromisoformat] is given. *)
Definition iso_arg (date_str : string) : string :=
  replace_char "Z" "+00:00" (strip date_str).

(** Tokens, written from their fields. *)
Definition key_ym (y m : Z) : string := (pad4 y ++ pad2 m)%string.
Definition key_y_m (y m : Z) : string := (pad4 y ++ "-" ++ pad2 m)%string.
Definition key_ymd (y m d : Z) : string := (pad4 y ++ pad2 m ++ pad2 d)%string.
Definition key_y_m_d (y m d : Z) : string :=
  (pad4 y ++ "-" ++ pad2 m ++ "-" ++ pad2 d)%string.
Definition key_minute (y m d h mi : Z) : string :=
  (key_y_m_d y m d ++ " " ++ pad2 h ++ ":" ++ pad2 mi)%string.
Definition key_second (y m d h mi s : Z) : string :=
  (key_minute y m d h mi ++ ":" ++ pad2 s)%string.


Definition period_key_dashed (g : DateKeySpec.granularity) (y m d : Z) : string :=
  match g with
  | DateKeySpec.Year => pad4 y
  | DateKeySpec.Month => key_y_m y m
  | DateKeySpec.Day => key_y_m_d y m d
  end.


(** [fromisoformat] reads a token as the naive instant [dt], if it reads
    it at all. *)
Definition reads_as (fromisoformat : string -> option datetime)
    (token : string) (dt : datetime) : Prop :=
  fromisoformat token = None \/ fromisoformat token = Some dt.

(** An instance of [fromisoformat] to run the parser on: the date
    [YYYY-MM-DD], alone or followed by one character and a time [HH:MM]
    or [HH:MM:SS], and then by an offset [+HH:MM] or [-HH:MM]. These
    every version of the interpreter reads so; the instance refuses the
    rest, of which later versions read more. *)
Definition two_digits (s : string) : option (Z * string) :=
  match s with
  | String a (String b r) =>
      if is_decimal a && is_decimal b then Some (10 * digit_val a + digit_val b, r)
      else None
  | _ => None
  end.

Definition expect (c : ascii) (s : string) : option string :=
  match s with
  | String c' r => if Ascii.eqb c c' then Some r else None
  | EmptyString => None
  end.

Definition iso_offset (s : string) : option (option tz) :=
  match s with
  | EmptyString => Some None
  | String sign r =>
      if Ascii.eqb sign "+" || Ascii.eqb sign "-" then
        match two_digits r with
        | Some (hh, r) =>
            match expect ":" r with
            | Some r =>
                match two_digits r with
                | Some (mm, EmptyString) =>
                    Some (Some (FixedOffset
                                  ((if Ascii.eqb sign "-" then -1 else 1)
                                   * (hh * 3600 + mm * 60))))
                | _ => None
                end
            | None => None
            end
        | None => None
        end
      else None
  end.

Definition iso_time (s : string) : option (Z * Z * Z * option tz) :=
  match two_digits s with
  | Some (h, r) =>
      match expect ":" r with
      | Some r =>
          match two_digits r with
          | Some (mi, r) =>
              match expect ":" r with
              | Some r' =>
                  match two_digits r' with
                  | Some (sec, r'') =>
                      match iso_offset r'' with
                      | Some z => Some (h, mi, sec, z)
                      | None => None
                      end
                  | None => None
                  end
              | None =>
                  match iso_offset r with
                  | Some z => Some (h, mi, 0, z)
                  | None => None
                  end
              end
          | None => None
          end
      | None => None
      end
  | None => None
  end.

Definition made (r : result datetime) : option datetime :=
  match r with Ok dt => Some dt | Raise _ => None end.

Definition fromisoformat_common (s : string) : option datetime :=
  match four s with
  | [(y, r)] =>
      match expect "-" r with
      | Some r =>
          match two_digits r with
          | Some (m, r) =>
              match expect "-" r with
              | Some r =>
                  match two_digits r with
                  | Some (d, EmptyString) => made (new_datetime y m d 0 0 0 0 None)
                  | Some (d, String _ r) =>
                      match iso_time r with
                      | Some (h, mi, sec, z) => made (new_datetime y m d h mi sec 0 z)
                      | None => None
                      end
                  | None => None
                  end
              | None => None
              end
          | None => None
          end
      | None => None
      end
  | _ => None
  end.

End BanburyAnomalyDetection.

(** ** app/services/chiller_status.py *)

Module ChillerStatus.
Import PyStr Calendar Strptime.

Definition invalid_format_msg (date_str : string) : string :=
  ("Invalid date format. Supported formats: yyyy, yyyyMM, yyyyMMdd, yyyyMMdd HH:MM, "
   ++ "yyyyMMdd HH:MM:SS. Input value: " ++ date_str)%string.

(** [_parse_date_string(date_str)]: the instants it returns are naive. *)
Definition _parse_date_string (date_str : string) : result datetime :=
  let date_str := strip date_str in
  let* r :=
    (if (len date_str =? 19) && contains_char " " date_str && contains_char ":" date_str
     then attempt (strptime date_str "%Y%m%d %H:%M:%S") else Ok None) in
  match r with Some dt => Ok dt | None =>
  let* r :=
    (if (len date_str =? 16) && contains_char " " date_str && contains_char ":" date_str
     then attempt (strptime date_str "%Y%m%d %H:%M") else Ok None) in
  match r with Some dt => Ok dt | None =>
  let* r :=
    (if (len date_str =? 8) && isdigit date_str
     then attempt (strptime date_str "%Y%m%d") else Ok None) in
  match r with Some dt => Ok dt | None =>
  let* r :=
    (if (len date_str =? 6) && isdigit date_str
     then attempt (strptime date_str "%Y%m") else Ok None) in
  match r with Some dt => Ok dt | None =>
  let* r :=
    (if (len date_str =? 4) && isdigit date_str
     then attempt (strptime date_str "%Y") else Ok None) in
  match r with Some dt => Ok dt | None =>
  Raise (ValueError (invalid_format_msg date_str))
  end end end end end.

(** [_get_date_format_type(date_str)] *)
Definition _get_date_format_type (date_str : string) : string :=
  let date_str := strip date_str in
  if (len date_str =? 19) && contains_char " " date_str && contains_char ":" date_str
  then "yyyyMMdd HH:MM:SS"
  else if (len date_str =? 16) && contains_char " " date_str && contains_char ":" date_str
  then "yyyyMMdd HH:MM"
  else if (len date_str =? 8) && isdigit date_str then "yyyyMMdd"
  else if (len date_str =? 6) && isdigit date_str then "yyyyMM"
  else if (len date_str =? 4) && isdigit date_str then "yyyy"
  else "unknown".

Definition format_mismatch_msg (start_format end_format : string) : string :=
  ("start_dt and end_dt formats must be the same. start_dt format: " ++ start_format
   ++ ", end_dt format: " ++ end_format)%string.

(** The start of the period of a start key (lines 196 to 202). The test
    for a space at line 201 reads the key as it was given, not
    stripped. *)
Definition range_start (start_key : string) (start_dt : datetime) : result datetime :=
  if len (strip start_key) =? 4 then datetime_ymd (year start_dt) 1 1
  else if len (strip start_key) =? 6 then datetime_ymd (year start_dt) (month start_dt) 1
  else if (len (strip start_key) =? 8) && negb (contains_char " " start_key)
  then datetime_ymd (year start_dt) (month start_dt) (day start_dt)
  else Ok start_dt.

(** The end of the period of an end key (lines 206 to 215). *)
Definition range_end (end_key : string) (end_dt : datetime) : result datetime :=
  if len (strip end_key) =? 4 then datetime_ymd (year end_dt + 1) 1 1
  else if len (strip end_key) =? 6 then
    (if month end_dt =? 12 then datetime_ymd (year end_dt + 1) 1 1
     else datetime_ymd (year end_dt) (month end_dt + 1) 1)
  else if (len (strip end_key) =? 8) && negb (contains_char " " end_key)
  then add_days end_dt 1
  else Ok end_dt.

(** [resolve_date_range(start_key, end_key)] *)
Definition resolve_date_range (start_key end_key : option string)
  : result (option datetime * option datetime) :=
  let* _ :=
    (if BanbData.truthy start_key && BanbData.truthy end_key then
       let start_format := _get_date_format_type (BanbData.key_of start_key) in
       let end_format := _get_date_format_type (BanbData.key_of end_key) in
       if negb (String.eqb start_format end_format)
       then Raise (ValueError (format_mismatch_msg start_format end_format))
       else Ok tt
     else Ok tt) in
  let* start_dt :=
    (if BanbData.truthy start_key then
       let* start_dt := _parse_date_string (BanbData.key_of start_key) in
       let* start_dt := range_start (BanbData.key_of start_key) start_dt in
       Ok (Some start_dt)
     else Ok None) in
  let* end_dt :=
    (if BanbData.truthy end_key then
       let* end_dt := _parse_date_string (BanbData.key_of end_key) in
       let* end_dt := range_end (BanbData.key_of end_key) end_dt in
       Ok (Some end_dt)
     else Ok None) in
  Ok (start_dt, end_dt).

(** The documented forms with a time of day, written from their fields:
    [yyyyMMdd HH:MM] and [yyyyMMdd HH:MM:SS]. *)
Definition key_compact_minute (y m d h mi : Z) : string :=
  (pad4 y ++ pad2 m ++ pad2 d ++ " " ++ pad2 h ++ ":" ++ pad2 mi)%string.

Definition key_compact_second (y m d h mi s : Z) : string :=
  (key_compact_minute y m d h mi ++ ":" ++ pad2 s)%string.

(** The same with [gap], a run of blanks, between the date and the
    time. *)
Definition key_spaced_minute (gap : string) (y m d h mi : Z) : string :=
  (pad4 y ++ pad2 m ++ pad2 d ++ gap ++ pad2 h ++ ":" ++ pad2 mi)%string.

Definition key_spaced_second (gap : string) (y m d h mi s : Z) : string :=
  (key_spaced_minute gap y m d h mi ++ ":" ++ pad2 s)%string.

(** [_format_chiller_name(device_id)] *)
Definition _format_chiller_name (device_id : string) : string :=
  match device_id with
  | EmptyString => device_id
  | _ =>
      let chiller_number :=
        if 2 <=? len device_id
        then String.substring (String.length device_id - 2) 2 device_id
        else device_id in
      ("Chiller " ++ chiller_number)%string
  end.

End ChillerStatus.

(** * Properties *)

(** ** Facts about the calendar *)

Module CalendarFacts.
Import Calendar.

Lemma is_leap_decomp a b c e :
  0 <= a -> 0 <= b < 4 -> 0 <= c < 25 -> 0 <= e < 4 ->
  _is_leap (400 * a + 100 * b + 4 * c + e + 1) =
  (e =? 3) && (negb (c =? 24) || (b =? 3)).
Proof.
  intros. unfold _is_leap.
  set (y := 400 * a + 100 * b + 4 * c + e + 1).
  assert (H4 : y mod 4 = (e + 1) mod 4) by (subst y; zdiv).
  assert (H100 : y mod 100 = (4 * c + e + 1) mod 100) by (subst y; zdiv).
  assert (H400 : y mod 400 = (100 * b + 4 * c + e + 1) mod 400) by (subst y; zdiv).
  rewrite H4, H100, H400.
  assert (e = 0 \/ e = 1 \/ e = 2 \/ e = 3) as [-> | [-> | [-> | ->]]] by lia; simpl (_ =? 3); cbn [andb].
  1-3: (replace ((_ + 1) mod 4 =? 0) with false; [reflexivity | symmetry; apply Z.eqb_neq; zdiv]).
  replace ((3 + 1) mod 4 =? 0) with true by reflexivity. cbn [andb].
  destruct (c =? 24) eqn:Hc; cbn [negb orb].
  - apply Z.eqb_eq in Hc. subst c.
    replace ((4 * 24 + 3 + 1) mod 100 =? 0) with true by reflexivity. cbn [negb orb].
    destruct (b =? 3) eqn:Hb.
    + apply Z.eqb_eq in Hb. subst b. reflexivity.
    + apply Z.eqb_neq in Hb. apply Z.eqb_neq. zdiv.
  - apply Z.eqb_neq in Hc.
    replace ((4 * c + 3 + 1) mod 100 =? 0) with false; [reflexivity|].
    symmetry. apply Z.eqb_neq. zdiv.
Qed.

Lemma year_decomp y :
  1 <= y -> exists a b c e,
    y = 400 * a + 100 * b + 4 * c + e + 1 /\
    0 <= a /\ 0 <= b < 4 /\ 0 <= c < 25 /\ 0 <= e < 4.
Proof.
  intros. exists ((y - 1) / 400), ((y - 1) mod 400 / 100),
    ((y - 1) mod 100 / 4), ((y - 1) mod 4). zdiv.
Qed.

Lemma days_before_year_decomp a b c e :
  0 <= a -> 0 <= b < 4 -> 0 <= c < 25 -> 0 <= e < 4 ->
  _days_before_year (400 * a + 100 * b + 4 * c + e + 1) =
  146097 * a + 36524 * b + 1461 * c + 365 * e.
Proof. intros. unfold _days_before_year. zdiv. Qed.

Lemma in_zrange lo n x : lo <= x < lo + Z.of_nat n -> In x (zrange lo n).
Proof.
  revert lo. induction n as [|n IH]; intros lo H; [lia|].
  cbn [zrange]. destruct (Z.eq_dec lo x) as [->|Hne]; [now left|].
  right. apply IH. lia.
Qed.

Lemma yday_check_ok leap : yday_check leap = true.
Proof. destruct leap; vm_compute; reflexivity. Qed.

Lemma month_day_of_yday_spec leap m d :
  1 <= m <= 12 -> 1 <= d <= month_length leap m ->
  month_day_of_yday leap (days_before_month leap m + d - 1) = (m, d).
Proof.
  intros Hm Hd.
  assert (Hd31 : d <= 31).
  { unfold month_length in Hd.
    destruct (m =? 2); [destruct leap; lia|].
    destruct (_ || _); lia. }
  pose proof (yday_check_ok leap) as H. unfold yday_check in H.
  rewrite forallb_forall in H.
  specialize (H m (in_zrange 1 12 m ltac:(lia))).
  rewrite forallb_forall in H.
  specialize (H d (in_zrange 1 31 d ltac:(lia))).
  apply orb_true_iff in H. destruct H as [H|H].
  - apply negb_true_iff, Z.leb_gt in H. lia.
  - destruct (month_day_of_yday leap _) as [m' d'].
    apply andb_true_iff in H. destruct H as [H1 H2].
    apply Z.eqb_eq in H1, H2. now subst.
Qed.

Lemma days_before_month_bound leap m d :
  1 <= m <= 12 -> 1 <= d <= month_length leap m ->
  0 <= days_before_month leap m + d - 1 < (if leap then 366 else 365).
Proof.
  intros Hm Hd.
  assert (m = 1 \/ m = 2 \/ m = 3 \/ m = 4 \/ m = 5 \/ m = 6 \/ m = 7 \/ m = 8 \/
          m = 9 \/ m = 10 \/ m = 11 \/ m = 12) as Hc by lia.
  unfold days_before_month, month_length in *.
  repeat (destruct Hc as [-> | Hc]); try subst m; destruct leap;
    cbn -[Z.add Z.sub] in Hd |- *; lia.
Qed.

Lemma last_yday leap m d :
  1 <= m <= 12 -> 1 <= d <= month_length leap m ->
  days_before_month leap m + d - 1 = 365 -> m = 12 /\ d = 31.
Proof.
  intros Hm Hd.
  assert (m = 1 \/ m = 2 \/ m = 3 \/ m = 4 \/ m = 5 \/ m = 6 \/ m = 7 \/ m = 8 \/
          m = 9 \/ m = 10 \/ m = 11 \/ m = 12) as Hc by lia.
  unfold days_before_month, month_length in *.
  repeat (destruct Hc as [-> | Hc]); try subst m; destruct leap;
    cbn -[Z.add Z.sub] in Hd |- *; lia.
Qed.

Lemma ord2ymd_ymd2ord y m d :
  1 <= y -> 1 <= m <= 12 -> 1 <= d <= _days_in_month y m ->
  _ord2ymd (_ymd2ord y m d) = (y, m, d).
Proof.
  intros Hy Hm Hd.
  destruct (year_decomp y Hy) as (a & b & c & e & -> & Ha & Hb & Hc & He).
  unfold _days_in_month in Hd.
  unfold _ymd2ord, _days_before_month.
  rewrite days_before_year_decomp by assumption.
  rewrite is_leap_decomp in * by assumption.
  set (leap := (e =? 3) && (negb (c =? 24) || (b =? 3))) in *.
  pose proof (days_before_month_bound leap m d Hm Hd) as Hn.
  pose proof (month_day_of_yday_spec leap m d Hm Hd) as Hmd.
  pose proof (last_yday leap m d Hm Hd) as Hlast.
  set (n := days_before_month leap m + d - 1) in *.
  assert (Hn' : n < 365 \/ (n = 365 /\ e = 3 /\ (c <> 24 \/ b = 3))).
  { destruct leap eqn:Hl; [|left; lia].
    destruct (Z.eq_dec n 365) as [E|E]; [right|left; lia].
    split; [assumption|].
    subst leap. apply andb_true_iff in Hl. destruct Hl as [H1 H2].
    apply Z.eqb_eq in H1. split; [assumption|].
    apply orb_true_iff in H2. destruct H2 as [H2|H2].
    - left. apply negb_true_iff, Z.eqb_neq in H2. assumption.
    - right. apply Z.eqb_eq in H2. assumption. }
  unfold _ord2ymd, _DI400Y, _DI100Y, _DI4Y. cbv zeta.
  replace (146097 * a + 36524 * b + 1461 * c + 365 * e + days_before_month leap m + d - 1)
    with (146097 * a + (36524 * b + (1461 * c + (365 * e + n)))) by (subst n; lia).
  assert (E1 : (146097 * a + (36524 * b + (1461 * c + (365 * e + n)))) / 146097 = a) by zdiv.
  assert (E2 : (146097 * a + (36524 * b + (1461 * c + (365 * e + n)))) mod 146097
               = 36524 * b + (1461 * c + (365 * e + n))) by zdiv.
  rewrite E1, E2. clear E1 E2.
  destruct Hn' as [Hlt | (E365 & He3 & Hcb)].
  - assert (E3 : (36524 * b + (1461 * c + (365 * e + n))) / 36524 = b) by zdiv.
    assert (E4 : (36524 * b + (1461 * c + (365 * e + n))) mod 36524
                 = 1461 * c + (365 * e + n)) by zdiv.
    rewrite E3, E4.
    assert (E5 : (1461 * c + (365 * e + n)) / 1461 = c) by zdiv.
    assert (E6 : (1461 * c + (365 * e + n)) mod 1461 = 365 * e + n) by zdiv.
    rewrite E5, E6.
    assert (E7 : (365 * e + n) / 365 = e) by zdiv.
    assert (E8 : (365 * e + n) mod 365 = n) by zdiv.
    rewrite E7, E8.
    replace ((e =? 4) || (b =? 4)) with false
      by (symmetry; apply orb_false_iff; split; apply Z.eqb_neq; lia).
    fold leap. rewrite Hmd. f_equal. f_equal. lia.
  - destruct (Hlast E365) as [-> ->]. rewrite E365. subst e.
    destruct (Z.eq_dec c 24) as [Ec|Ec].
    + assert (b = 3) by lia. subst b c. 
      replace (36524 * 3 + (1461 * 24 + (365 * 3 + 365))) with (4 * 36524) by lia.
      rewrite Z.div_mul, Z.mod_mul by lia.
      change (0 / 1461) with 0. change (0 mod 1461) with 0.
      change (0 / 365) with 0. change (0 mod 365) with 0.
      cbn [Z.eqb orb Pos.eqb]. f_equal. f_equal. lia.
    + assert (E3 : (36524 * b + (1461 * c + (365 * 3 + 365))) / 36524 = b) by zdiv.
      assert (E4 : (36524 * b + (1461 * c + (365 * 3 + 365))) mod 36524
                   = 1461 * c + 1460) by zdiv.
      rewrite E3, E4.
      assert (E5 : (1461 * c + 1460) / 1461 = c) by zdiv.
      assert (E6 : (1461 * c + 1460) mod 1461 = 1460) by zdiv.
      rewrite E5, E6.
      change (1460 / 365) with 4. cbn [Z.eqb orb Pos.eqb]. f_equal. f_equal. lia.
Qed.

Ltac month_cases m :=
  let Hc := fresh "Hc" in
  assert (m = 1 \/ m = 2 \/ m = 3 \/ m = 4 \/ m = 5 \/ m = 6 \/ m = 7 \/ m = 8 \/
          m = 9 \/ m = 10 \/ m = 11 \/ m = 12) as Hc by lia;
  repeat (destruct Hc as [-> | Hc]); try subst m.

Lemma days_before_year_succ y :
  _days_before_year (y + 1) = _days_before_year y + year_length y.
Proof.
  unfold _days_before_year, year_length, _is_leap.
  destruct (y mod 4 =? 0) eqn:H4; destruct (y mod 100 =? 0) eqn:H100;
    destruct (y mod 400 =? 0) eqn:H400; cbn [andb orb negb];
    rewrite ?Z.eqb_eq, ?Z.eqb_neq in *; zdiv.
Qed.

Lemma days_before_month_succ leap m :
  1 <= m < 12 ->
  days_before_month leap (m + 1) = days_before_month leap m + month_length leap m.
Proof.
  intros Hm. month_cases m; destruct leap; try reflexivity; lia.
Qed.

Lemma days_before_month_last leap :
  days_before_month leap 12 + 31 = if leap then 366 else 365.
Proof. destruct leap; reflexivity. Qed.

Lemma month_length_pos leap m : 28 <= month_length leap m <= 31.
Proof.
  unfold month_length. destruct (m =? 2); [destruct leap; lia|].
  destruct (_ || _); lia.
Qed.

Lemma ymd2ord_next_day y m d :
  1 <= m <= 12 -> 1 <= d <= _days_in_month y m ->
  let '(y', m', d') := next_day y m d in
  _ymd2ord y' m' d' = _ymd2ord y m d + 1 /\
  1 <= m' <= 12 /\ 1 <= d' <= _days_in_month y' m' /\ y <= y' <= y + 1.
Proof.
  intros Hm Hd. unfold next_day.
  destruct (d <? _days_in_month y m) eqn:E1.
  - apply Z.ltb_lt in E1. unfold _ymd2ord. repeat split; lia.
  - apply Z.ltb_ge in E1. assert (d = _days_in_month y m) by lia. subst d.
    destruct (m <? 12) eqn:E2.
    + apply Z.ltb_lt in E2. unfold _ymd2ord, _days_before_month, _days_in_month.
      rewrite days_before_month_succ by lia.
      pose proof (month_length_pos (_is_leap y) (m + 1)).
      repeat split; lia.
    + apply Z.ltb_ge in E2. assert (m = 12) by lia. subst m.
      unfold _ymd2ord, _days_before_month, _days_in_month in *.
      rewrite days_before_year_succ.
      change (month_length (_is_leap y) 12) with 31.
      pose proof (days_before_month_last (_is_leap y)) as Hl.
      unfold year_length.
      change (days_before_month (_is_leap (y + 1)) 1) with 0.
      change (month_length (_is_leap (y + 1)) 1) with 31.
      repeat split; try lia; destruct (_is_leap y); lia.
Qed.

Lemma ymd2ord_prev_day y m d :
  1 <= m <= 12 -> 1 <= d <= _days_in_month y m ->
  let '(y', m', d') := prev_day y m d in
  _ymd2ord y' m' d' = _ymd2ord y m d - 1 /\
  1 <= m' <= 12 /\ 1 <= d' <= _days_in_month y' m' /\ y - 1 <= y' <= y.
Proof.
  intros Hm Hd. unfold prev_day.
  destruct (1 <? d) eqn:E1.
  - apply Z.ltb_lt in E1. unfold _ymd2ord. repeat split; lia.
  - apply Z.ltb_ge in E1. assert (d = 1) by lia. subst d.
    destruct (1 <? m) eqn:E2.
    + apply Z.ltb_lt in E2. unfold _ymd2ord, _days_before_month, _days_in_month.
      pose proof (days_before_month_succ (_is_leap y) (m - 1) ltac:(lia)) as Hs.
      replace (m - 1 + 1) with m in Hs by lia.
      pose proof (month_length_pos (_is_leap y) (m - 1)).
      repeat split; lia.
    + apply Z.ltb_ge in E2. assert (m = 1) by lia. subst m.
      unfold _ymd2ord, _days_before_month, _days_in_month in *.
      pose proof (days_before_year_succ (y - 1)) as Hs.
      replace (y - 1 + 1) with y in Hs by lia.
      pose proof (days_before_month_last (_is_leap (y - 1))) as Hl.
      unfold year_length in Hs.
      change (days_before_month (_is_leap y) 1) with 0.
      change (month_length (_is_leap (y - 1)) 12) with 31.
      repeat split; try lia; destruct (_is_leap (y - 1)); lia.
Qed.

End CalendarFacts.

(** ** Moving an instant by whole days *)

Module AddDaysFacts.
Import Calendar CalendarFacts.

Lemma days_before_year_mono y y' :
  y <= y' -> _days_before_year y <= _days_before_year y'.
Proof. intros. unfold _days_before_year. zdiv. Qed.

Lemma ymd2ord_range y m d :
  1 <= m <= 12 -> 1 <= d <= _days_in_month y m ->
  _days_before_year y < _ymd2ord y m d <= _days_before_year (y + 1).
Proof.
  intros Hm Hd. unfold _ymd2ord, _days_before_month, _days_in_month in *.
  rewrite days_before_year_succ. unfold year_length.
  pose proof (days_before_month_bound (_is_leap y) m d Hm Hd).
  destruct (_is_leap y); lia.
Qed.

Lemma ymd2ord_bounds y m d :
  valid_date y m d -> 1 <= _ymd2ord y m d <= _MAXORDINAL.
Proof.
  intros (Hy & Hm & Hd). unfold MINYEAR, MAXYEAR in Hy.
  pose proof (ymd2ord_range y m d Hm Hd).
  pose proof (days_before_year_mono 1 y ltac:(lia)).
  pose proof (days_before_year_mono (y + 1) 10000 ltac:(lia)).
  change (_days_before_year 1) with 0 in *.
  change (_days_before_year 10000) with 3652059 in *.
  unfold _MAXORDINAL. lia.
Qed.

(** One day later is the next day of the calendar, as long as that day
    is not past year 9999. *)
Lemma add_days_next dt :
  valid_date (year dt) (month dt) (day dt) ->
  forall y' m' d', next_day (year dt) (month dt) (day dt) = (y', m', d') ->
  y' <= MAXYEAR ->
  add_days dt 1 =
  Ok (mk_datetime y' m' d' (hour dt) (minute dt) (second dt) (microsecond dt)
        (tzinfo dt)) /\ valid_date y' m' d'.
Proof.
  intros (Hy & Hm & Hd) y' m' d' Hn Hy'.
  pose proof (ymd2ord_next_day _ _ _ Hm Hd) as H. rewrite Hn in H.
  destruct H as (Ho & Hm' & Hd' & Hyy).
  assert (Hv : valid_date y' m' d') by (unfold valid_date, MINYEAR in *; lia).
  pose proof (ymd2ord_bounds _ _ _ Hv) as Hb.
  unfold add_days, toordinal. rewrite <- Ho.
  replace ((0 <? _ymd2ord y' m' d') && (_ymd2ord y' m' d' <=? _MAXORDINAL)) with true
    by (symmetry; apply andb_true_iff; split; [apply Z.ltb_lt | apply Z.leb_le]; lia).
  rewrite ord2ymd_ymd2ord by (unfold MINYEAR in *; lia).
  split; [reflexivity | assumption].
Qed.

(** One day earlier is the previous day of the calendar, as long as
    there is one. *)
Lemma add_days_prev dt :
  valid_date (year dt) (month dt) (day dt) ->
  forall y' m' d', prev_day (year dt) (month dt) (day dt) = (y', m', d') ->
  MINYEAR <= y' ->
  add_days dt (-1) =
  Ok (mk_datetime y' m' d' (hour dt) (minute dt) (second dt) (microsecond dt)
        (tzinfo dt)) /\ valid_date y' m' d'.
Proof.
  intros (Hy & Hm & Hd) y' m' d' Hn Hy'.
  pose proof (ymd2ord_prev_day _ _ _ Hm Hd) as H. rewrite Hn in H.
  destruct H as (Ho & Hm' & Hd' & Hyy).
  assert (Hv : valid_date y' m' d') by (unfold valid_date, MAXYEAR in *; lia).
  pose proof (ymd2ord_bounds _ _ _ Hv) as Hb.
  unfold add_days, toordinal.
  replace (_ymd2ord (year dt) (month dt) (day dt) + -1) with (_ymd2ord y' m' d') by lia.
  replace ((0 <? _ymd2ord y' m' d') && (_ymd2ord y' m' d' <=? _MAXORDINAL)) with true
    by (symmetry; apply andb_true_iff; split; [apply Z.ltb_lt | apply Z.leb_le]; lia).
  rewrite ord2ymd_ymd2ord by (unfold MINYEAR in *; lia).
  split; [reflexivity | assumption].
Qed.

(** Past the last day and before the first one there is no date. *)
Lemma add_days_overflow dt k :
  ~ (1 <= toordinal dt + k <= _MAXORDINAL) ->
  add_days dt k = Raise (OverflowError overflow_msg).
Proof.
  intros H. unfold add_days.
  destruct ((0 <? toordinal dt + k) && (toordinal dt + k <=? _MAXORDINAL)) eqn:E;
    [|reflexivity].
  apply andb_true_iff in E. destruct E as [E1 E2].
  apply Z.ltb_lt in E1. apply Z.leb_le in E2. lia.
Qed.

Lemma next_day_year y m d : fst (fst (next_day y m d)) = y \/ next_day y m d = (y + 1, 1, 1).
Proof.
  unfold next_day. destruct (d <? _); [now left|]. destruct (m <? 12); [now left| now right].
Qed.

(** Lexicographic comparison of the fields. *)
Lemma dt_ltb_year a b : year a < year b -> dt_ltb a b = true.
Proof.
  intros H. unfold dt_ltb, dt_compare, fields. cbn [lex_compare].
  apply Z.compare_lt_iff in H. now rewrite H.
Qed.

Lemma dt_ltb_month a b :
  year a = year b -> month a < month b -> dt_ltb a b = true.
Proof.
  intros E H. unfold dt_ltb, dt_compare, fields. cbn [lex_compare].
  rewrite E, Z.compare_refl. apply Z.compare_lt_iff in H. now rewrite H.
Qed.

Lemma dt_ltb_day a b :
  year a = year b -> month a = month b -> day a < day b -> dt_ltb a b = true.
Proof.
  intros E1 E2 H. unfold dt_ltb, dt_compare, fields. cbn [lex_compare].
  rewrite E1, E2, !Z.compare_refl. apply Z.compare_lt_iff in H. now rewrite H.
Qed.

Lemma midnight_lt_next y m d :
  1 <= m <= 12 -> 1 <= d <= _days_in_month y m ->
  forall y' m' d', next_day y m d = (y', m', d') ->
  dt_ltb (BanbData.midnight y m d) (BanbData.midnight y' m' d') = true.
Proof.
  intros Hm Hd y' m' d'. unfold next_day.
  destruct (d <? _) eqn:E1; [|destruct (m <? 12) eqn:E2]; intros [= <- <- <-].
  - apply Z.ltb_lt in E1. apply dt_ltb_day; cbn; lia.
  - apply Z.ltb_lt in E2. apply dt_ltb_month; cbn; lia.
  - apply dt_ltb_year; cbn; lia.
Qed.

End AddDaysFacts.

(** ** Strings of decimal digits *)

Module PyStrFacts.
Import PyStr.

Lemma forall_chars_substring p s : forall i n,
  forall_chars p s = true -> forall_chars p (String.substring i n s) = true.
Proof.
  induction s as [|c s IH]; intros i n H.
  - destruct i, n; reflexivity.
  - cbn in H. apply andb_true_iff in H. destruct H as [Hc Hs].
    destruct i as [|i]; destruct n as [|n]; cbn; auto.
    rewrite Hc. cbn. apply IH. assumption.
Qed.

Lemma length_substring s : forall i n,
  (i + n <= String.length s)%nat -> String.length (String.substring i n s) = n.
Proof.
  induction s as [|c s IH]; intros i n H; cbn in H.
  - destruct i, n; cbn; lia.
  - destruct i as [|i]; destruct n as [|n]; cbn; try reflexivity.
    + f_equal. apply IH. lia.
    + apply IH. lia.
    + apply IH. lia.
Qed.

Lemma substring_all s : String.substring 0 (String.length s) s = s.
Proof. induction s as [|c s IH]; cbn; [reflexivity | now rewrite IH]. Qed.

Lemma is_decimal_isdigit c : is_decimal c = true -> isdigit_char c = true.
Proof. intros H. unfold isdigit_char. now rewrite H. Qed.

Lemma forall_chars_impl (p q : ascii -> bool) s :
  (forall c, p c = true -> q c = true) ->
  forall_chars p s = true -> forall_chars q s = true.
Proof.
  intros Hpq. induction s as [|c s IH]; cbn; [reflexivity|].
  intros H. apply andb_true_iff in H. destruct H as [H1 H2].
  rewrite (Hpq _ H1). cbn. auto.
Qed.

Lemma decimal_isdigit s :
  s <> EmptyString -> forall_chars is_decimal s = true -> isdigit s = true.
Proof.
  intros Hne H. destruct s; [congruence|]. unfold isdigit.
  apply forall_chars_impl with (p := is_decimal); auto using is_decimal_isdigit.
Qed.

Lemma int_decimal s :
  s <> EmptyString -> forall_chars is_decimal s = true ->
  int s = Ok (digits_val 0 s).
Proof.
  intros Hne H. destruct s; [congruence|]. unfold int. now rewrite H.
Qed.

Lemma nonempty_length s : (0 < String.length s)%nat -> s <> EmptyString.
Proof. destruct s; cbn; [lia | congruence]. Qed.

(** [int] of a slice of a string of decimal digits. *)
Lemma int_slice s i j :
  forall_chars is_decimal s = true -> (i < j)%nat -> (j <= String.length s)%nat ->
  int (slice i j s) = Ok (digits_val 0 (slice i j s)).
Proof.
  intros H Hij Hj. apply int_decimal.
  - apply nonempty_length. unfold slice. rewrite length_substring; lia.
  - unfold slice. now apply forall_chars_substring.
Qed.

End PyStrFacts.

(** ** The date-key resolver of [banb_data.py] and [rtf_data.py] *)

Module BanbDataFacts.
Import PyStr Calendar BanbData DateKeySpec CalendarFacts AddDaysFacts PyStrFacts.

Lemma datetime_ymd_ok y m d :
  valid_date y m d -> datetime_ymd y m d = Ok (midnight y m d).
Proof.
  intros (Hy & Hm & Hd). unfold datetime_ymd, new_datetime, check_date_fields.
  replace ((MINYEAR <=? y) && (y <=? MAXYEAR)) with true
    by (symmetry; apply andb_true_iff; split; apply Z.leb_le; lia).
  replace ((1 <=? m) && (m <=? 12)) with true
    by (symmetry; apply andb_true_iff; split; apply Z.leb_le; lia).
  replace ((1 <=? d) && (d <=? _days_in_month y m)) with true
    by (symmetry; apply andb_true_iff; split; apply Z.leb_le; lia).
  reflexivity.
Qed.

Lemma datetime_ymd_inv y m d dt :
  datetime_ymd y m d = Ok dt -> dt = midnight y m d /\ valid_date y m d.
Proof.
  unfold datetime_ymd, new_datetime, check_date_fields.
  destruct ((MINYEAR <=? y) && (y <=? MAXYEAR)) eqn:E1; cbn; [|discriminate].
  destruct ((1 <=? m) && (m <=? 12)) eqn:E2; cbn; [|discriminate].
  destruct ((1 <=? d) && (d <=? _days_in_month y m)) eqn:E3; cbn; [|discriminate].
  intros [= <-]. split; [reflexivity|].
  apply andb_true_iff in E1, E2, E3.
  rewrite !Z.leb_le in E1, E2, E3. unfold valid_date. lia.
Qed.

Lemma valid_first_of_year y : MINYEAR <= y <= MAXYEAR -> valid_date y 1 1.
Proof. intros H. unfold valid_date. cbn. lia. Qed.

Lemma valid_first_of_month y m :
  MINYEAR <= y <= MAXYEAR -> 1 <= m <= 12 -> valid_date y m 1.
Proof.
  intros Hy Hm. unfold valid_date, _days_in_month.
  pose proof (month_length_pos (_is_leap y) m). lia.
Qed.

(** The resolver on a key of decimal digits, with the conversions
    done. *)
Lemma resolve_year key :
  forall_chars is_decimal key = true -> String.length key = 4%nat ->
  _resolve_date_key key =
  (let year := digits_val 0 key in
   let* start := datetime_ymd year 1 1 in
   let* end_ := datetime_ymd (year + 1) 1 1 in
   Ok (start, end_)).
Proof.
  intros Hd Hl. unfold _resolve_date_key, len. rewrite Hl.
  rewrite decimal_isdigit by (auto; apply nonempty_length; lia).
  cbn [Z.of_nat Pos.of_succ_nat Pos.succ Z.eqb Pos.eqb orb negb].
  rewrite int_slice by (auto; lia).
  unfold slice. cbn [Nat.sub]. rewrite <- Hl at 1. rewrite substring_all.
  reflexivity.
Qed.

Lemma resolve_month key :
  forall_chars is_decimal key = true -> String.length key = 6%nat ->
  _resolve_date_key key =
  (let year := digits_val 0 (slice 0 4 key) in
   let month := digits_val 0 (slice 4 6 key) in
   let* start := datetime_ymd year month 1 in
   let* end_ := (if month =? 12 then datetime_ymd (year + 1) 1 1
                 else datetime_ymd year (month + 1) 1) in
   Ok (start, end_)).
Proof.
  intros Hd Hl. unfold _resolve_date_key, len. rewrite Hl.
  rewrite decimal_isdigit by (auto; apply nonempty_length; lia).
  cbn [Z.of_nat Pos.of_succ_nat Pos.succ Z.eqb Pos.eqb orb negb].
  rewrite !int_slice by (auto; lia). reflexivity.
Qed.

Lemma resolve_day key :
  forall_chars is_decimal key = true -> String.length key = 8%nat ->
  _resolve_date_key key =
  (let year := digits_val 0 (slice 0 4 key) in
   let month := digits_val 0 (slice 4 6 key) in
   let day := digits_val 0 (slice 6 8 key) in
   let* start := datetime_ymd year month day in
   let* end_ := add_days start 1 in
   Ok (start, end_)).
Proof.
  intros Hd Hl. unfold _resolve_date_key, len. rewrite Hl.
  rewrite decimal_isdigit by (auto; apply nonempty_length; lia).
  cbn [Z.of_nat Pos.of_succ_nat Pos.succ Z.eqb Pos.eqb orb negb].
  rewrite !int_slice by (auto; lia). reflexivity.
Qed.

End BanbDataFacts.

(** ** Periods of date keys *)

Module DateKeyPeriods.
Import PyStr Calendar BanbData DateKeySpec.
Import CalendarFacts AddDaysFacts PyStrFacts BanbDataFacts.

Lemma bind_ok_inv {A B} (r : result A) (k : A -> result B) b :
  bind r k = Ok b -> exists a, r = Ok a /\ k a = Ok b.
Proof. destruct r as [a|e]; cbn; [eauto | discriminate]. Qed.

(** Whatever the key, a range the resolver returns starts before it
    ends. *)
Lemma resolve_date_key_ordered key s e :
  _resolve_date_key key = Ok (s, e) -> dt_ltb s e = true.
Proof.
  unfold _resolve_date_key.
  destruct (negb _ || negb _); [discriminate|].
  intros H. apply bind_ok_inv in H. destruct H as (y & _ & H).
  destruct (len key =? 4).
  { apply bind_ok_inv in H. destruct H as (s0 & Hs & H).
    apply bind_ok_inv in H. destruct H as (e0 & He & H).
    injection H as <- <-.
    apply datetime_ymd_inv in Hs, He. destruct Hs as [-> _], He as [-> _].
    apply dt_ltb_year. cbn. lia. }
  destruct (len key =? 6).
  { apply bind_ok_inv in H. destruct H as (m & _ & H).
    apply bind_ok_inv in H. destruct H as (s0 & Hs & H).
    apply bind_ok_inv in H. destruct H as (e0 & He & H).
    injection H as <- <-.
    apply datetime_ymd_inv in Hs. destruct Hs as [-> _].
    destruct (m =? 12) eqn:Em; apply datetime_ymd_inv in He; destruct He as [-> _].
    - apply dt_ltb_year. cbn. lia.
    - apply dt_ltb_month; cbn; lia. }
  apply bind_ok_inv in H. destruct H as (m & _ & H).
  apply bind_ok_inv in H. destruct H as (d & _ & H).
  apply bind_ok_inv in H. destruct H as (s0 & Hs & H).
  apply bind_ok_inv in H. destruct H as (e0 & He & H).
  injection H as <- <-.
  apply datetime_ymd_inv in Hs. destruct Hs as [-> Hv].
  destruct (next_day y m d) as [[y' m'] d'] eqn:En.
  destruct (Z_le_gt_dec y' MAXYEAR) as [Hy'|Hy'].
  - destruct (add_days_next (midnight y m d) Hv y' m' d' En Hy') as [Ha _].
    rewrite Ha in He. injection He as <-.
    destruct Hv as (_ & Hm & Hd).
    apply (midnight_lt_next y m d Hm Hd y' m' d' En).
  - exfalso. destruct Hv as (Hy & Hm & Hd).
    pose proof (ymd2ord_next_day y m d Hm Hd) as Hn. rewrite En in Hn.
    destruct Hn as (Ho & Hm' & Hd' & Hyy).
    assert (y' = 10000) by (unfold MAXYEAR in *; lia). subst y'.
    pose proof (ymd2ord_range 10000 m' d' Hm' Hd') as Hr.
    change (_days_before_year 10000) with 3652059 in Hr.
    rewrite add_days_overflow in He; [discriminate|].
    unfold toordinal, midnight, _MAXORDINAL. cbn [year month day]. lia.
Qed.

(** The length in days of each period. *)
Lemma period_length g y m d :
  valid_date y m d -> (g = Year -> m = 1 /\ d = 1) -> (g = Month -> d = 1) ->
  toordinal (midnight3 (period_end g y m d)) - toordinal (midnight y m d)
  = period_days g y m.
Proof.
  intros (Hy & Hm & Hd) HY HM. unfold toordinal.
  destruct g; cbn [period_end period_days].
  - destruct (HY eq_refl) as [-> ->]. cbn [midnight3 midnight year month day].
    unfold _ymd2ord, _days_before_month. rewrite days_before_year_succ.
    change (days_before_month _ 1) with 0. lia.
  - rewrite (HM eq_refl) in *.
    destruct (m =? 12) eqn:Em; cbn [midnight3 midnight year month day].
    + apply Z.eqb_eq in Em. subst m.
      unfold _ymd2ord, _days_before_month, _days_in_month.
      rewrite days_before_year_succ. unfold year_length.
      pose proof (days_before_month_last (_is_leap y)).
      change (days_before_month _ 1) with 0.
      change (month_length (_is_leap y) 12) with 31.
      destruct (_is_leap y); lia.
    + apply Z.eqb_neq in Em.
      unfold _ymd2ord, _days_before_month, _days_in_month.
      rewrite days_before_month_succ by lia. lia.
  - pose proof (ymd2ord_next_day y m d Hm Hd) as Hn.
    destruct (next_day y m d) as [[y' m'] d'].
    cbn [midnight3 midnight year month day]. lia.
Qed.

(** C1, amended. A digits-only key of 4, 6 or 8 digits that writes a date
    of the calendar, and whose following period still begins by year
    9999, resolves to the range from the first instant of its period to
    the first instant of the next period of the same granularity: the
    next year, the next month (January of the next year after December),
    the next day of the calendar (across the ends of months and years,
    and across 29 February in leap years only). The range is not empty
    and is as many days long as the calendar gives the period. *)
Theorem resolve_date_key_period key g y m d :
  key_denotes key g y m d ->
  valid_date y m d ->
  fst3 (period_end g y m d) <= MAXYEAR ->
  _resolve_date_key key =
    Ok (midnight y m d, midnight3 (period_end g y m d)) /\
  dt_ltb (midnight y m d) (midnight3 (period_end g y m d)) = true /\
  toordinal (midnight3 (period_end g y m d)) - toordinal (midnight y m d)
    = period_days g y m.
Proof.
  intros [Hdec Hk] Hv Hmax.
  assert (Hres : _resolve_date_key key =
                 Ok (midnight y m d, midnight3 (period_end g y m d))).
  { destruct g; cbn [period_end fst3 midnight3] in *.
    - destruct Hk as (Hl & Ey & -> & ->).
      rewrite (resolve_year key Hdec Hl). cbv zeta. rewrite <- Ey.
      rewrite (datetime_ymd_ok y 1 1 Hv). cbn [bind].
      rewrite datetime_ymd_ok; [reflexivity|].
      apply valid_first_of_year. destruct Hv as (? & _). unfold MINYEAR in *. lia.
    - destruct Hk as (Hl & Ey & Em & ->).
      rewrite (resolve_month key Hdec Hl). cbv zeta. rewrite <- Ey, <- Em.
      rewrite (datetime_ymd_ok y m 1 Hv). cbn [bind].
      destruct Hv as (Hy & Hm & _).
      destruct (m =? 12) eqn:E12; cbn [fst3 midnight3] in *.
      + rewrite datetime_ymd_ok; [reflexivity|].
        apply valid_first_of_year. unfold MINYEAR in *. lia.
      + apply Z.eqb_neq in E12.
        rewrite datetime_ymd_ok; [reflexivity|].
        apply valid_first_of_month; lia.
    - destruct Hk as (Hl & Ey & Em & Ed).
      rewrite (resolve_day key Hdec Hl). cbv zeta. rewrite <- Ey, <- Em, <- Ed.
      rewrite (datetime_ymd_ok y m d Hv). cbn [bind].
      destruct (next_day y m d) as [[y' m'] d'] eqn:En. cbn [fst3] in Hmax.
      destruct (add_days_next (midnight y m d) Hv y' m' d' En Hmax) as [Ha _].
      rewrite Ha. reflexivity. }
  split; [assumption|]. split.
  - apply (resolve_date_key_ordered key). assumption.
  - apply period_length; [assumption| |]; intros ->; cbn in Hk; tauto.
Qed.

(** A key of each granularity, with the rollovers the claim names. *)
Lemma resolve_date_key_period_witness :
  _resolve_date_key "20240228" =
    Ok (midnight 2024 2 28, midnight 2024 2 29) /\
  dt_ltb (midnight 2024 2 28) (midnight 2024 2 29) = true /\
  toordinal (midnight 2024 2 29) - toordinal (midnight 2024 2 28) = 1.
Proof.
  apply (resolve_date_key_period "20240228" Day 2024 2 28).
  - cbv. repeat split; reflexivity.
  - cbv. repeat split; discriminate.
  - cbv. discriminate.
Defined.

(** C1 as stated fails on the last periods of the calendar: year 9999 is
    a year of [datetime], the key is valid, and no range is returned. *)
Lemma resolve_date_key_last_year :
  key_denotes "9999" Year 9999 1 1 /\ valid_date 9999 1 1 /\
  _resolve_date_key "9999" = Raise (ValueError year_msg).
Proof.
  split; [|split].
  - cbv. repeat split; reflexivity.
  - cbv. repeat split; discriminate.
  - reflexivity.
Qed.

Example resolve_year_2024 :
  _resolve_date_key "2024" = Ok (midnight 2024 1 1, midnight 2025 1 1).
Proof. reflexivity. Qed.

Example resolve_month_202412 :
  _resolve_date_key "202412" = Ok (midnight 2024 12 1, midnight 2025 1 1).
Proof. reflexivity. Qed.

Example resolve_day_20241205 :
  _resolve_date_key "20241205" = Ok (midnight 2024 12 5, midnight 2024 12 6).
Proof. reflexivity. Qed.

Example resolve_day_20230228 :
  _resolve_date_key "20230228" = Ok (midnight 2023 2 28, midnight 2023 3 1).
Proof. reflexivity. Qed.

Example resolve_day_20241231 :
  _resolve_date_key "20241231" = Ok (midnight 2024 12 31, midnight 2025 1 1).
Proof. reflexivity. Qed.

Example resolve_last_month :
  _resolve_date_key "999912" = Raise (ValueError year_msg).
Proof. reflexivity. Qed.

Example resolve_last_day :
  _resolve_date_key "99991231" = Raise (OverflowError overflow_msg).
Proof. reflexivity. Qed.

End DateKeyPeriods.

(** ** Ranges from two optional keys *)

Module RangeFacts.
Import PyStr Calendar BanbData DateKeySpec DateKeyPeriods.

Lemma truthy_some k : k <> EmptyString -> truthy (Some k) = true.
Proof. destruct k; [congruence | reflexivity]. Qed.

Lemma range_bounds_start_only k other :
  k <> EmptyString -> truthy other = false ->
  range_bounds (Some k) other =
  (let* (s, e) := _resolve_date_key k in Ok (Some s, Some e)).
Proof.
  intros Hk Ho. unfold range_bounds. rewrite (truthy_some k Hk), Ho.
  cbn [key_of negb].
  destruct (_resolve_date_key k) as [[s e]|x] eqn:E; cbn [bind]; [|reflexivity].
  pose proof (resolve_date_key_ordered k s e E) as Hlt.
  unfold dt_geb. rewrite Hlt. reflexivity.
Qed.

Lemma range_bounds_end_only k other :
  k <> EmptyString -> truthy other = false ->
  range_bounds other (Some k) =
  (let* (s, e) := _resolve_date_key k in Ok (Some s, Some e)).
Proof.
  intros Hk Ho. unfold range_bounds. rewrite (truthy_some k Hk), Ho.
  cbn [key_of negb bind].
  destruct (_resolve_date_key k) as [[s e]|x] eqn:E; cbn [bind]; [|reflexivity].
  pose proof (resolve_date_key_ordered k s e E) as Hlt.
  unfold dt_geb. rewrite Hlt. reflexivity.
Qed.

Lemma range_bounds_both a b sa ea sb eb :
  a <> EmptyString -> b <> EmptyString ->
  _resolve_date_key a = Ok (sa, ea) -> _resolve_date_key b = Ok (sb, eb) ->
  range_bounds (Some a) (Some b) =
  if dt_ltb sa eb then Ok (Some sa, Some eb) else Raise InvalidRange.
Proof.
  intros Ha Hb Ea Eb. unfold range_bounds.
  rewrite (truthy_some a Ha), (truthy_some b Hb). cbn [key_of negb].
  rewrite Ea. cbn [bind]. rewrite Eb. cbn [bind].
  unfold dt_geb. destruct (dt_ltb sa eb); reflexivity.
Qed.

Section Fetch.
Variable R : Type.
Variable fetch :
  Z -> Z -> option string -> option datetime -> option datetime -> result R.
Variables (pid limit : Z) (db_alias : option string).

Local Abbreviation by_range := (fetch_banb_data_by_pid_and_range R fetch pid limit).

(** C2. With one key supplied (the other absent or empty), the query
    runs over exactly the period of that key, both bounds taken from
    it, and fails as the resolver fails on the key; with two keys that
    resolve and put the start before the end, it runs from the start of
    the first key's period to the end of the second key's, whatever
    their granularities. *)
Theorem fetch_by_range_bounds :
  (forall k other, k <> EmptyString -> truthy other = false ->
     by_range (Some k) other db_alias =
     (let* (s, e) := _resolve_date_key k in
      fetch pid limit db_alias (Some s) (Some e))) /\
  (forall k other, k <> EmptyString -> truthy other = false ->
     by_range other (Some k) db_alias =
     (let* (s, e) := _resolve_date_key k in
      fetch pid limit db_alias (Some s) (Some e))) /\
  (forall a b sa ea sb eb, a <> EmptyString -> b <> EmptyString ->
     _resolve_date_key a = Ok (sa, ea) -> _resolve_date_key b = Ok (sb, eb) ->
     dt_ltb sa eb = true ->
     by_range (Some a) (Some b) db_alias =
     fetch pid limit db_alias (Some sa) (Some eb)) /\
  by_range (Some "202412") None db_alias =
    fetch pid limit db_alias (Some (midnight 2024 12 1)) (Some (midnight 2025 1 1)) /\
  by_range (Some "2024") (Some "20241205") db_alias =
    fetch pid limit db_alias (Some (midnight 2024 1 1)) (Some (midnight 2024 12 6)).
Proof.
  unfold fetch_banb_data_by_pid_and_range.
  split; [|split; [|split; [|split]]].
  - intros k other Hk Ho. rewrite range_bounds_start_only by assumption.
    destruct (_resolve_date_key k) as [[s e]|x]; reflexivity.
  - intros k other Hk Ho. rewrite range_bounds_end_only by assumption.
    destruct (_resolve_date_key k) as [[s e]|x]; reflexivity.
  - intros a b sa ea sb eb Ha Hb Ea Eb Hlt.
    rewrite (range_bounds_both a b sa ea sb eb) by assumption.
    rewrite Hlt. reflexivity.
  - reflexivity.
  - reflexivity.
Qed.

(** C3, amended. Two supplied digits-only keys whose bounds are not in
    order (the start of the first key's period not before the end of
    the second key's) make the range query fail with [InvalidRange],
    before any query runs; so do the keys 20241205 and 20241204. The
    keys 2024-12-05 and 2024-12-04 are refused earlier, as date keys,
    with [InvalidDateKey]. *)
Theorem fetch_by_range_invalid :
  (forall a b sa ea sb eb, a <> EmptyString -> b <> EmptyString ->
     _resolve_date_key a = Ok (sa, ea) -> _resolve_date_key b = Ok (sb, eb) ->
     dt_ltb sa eb = false ->
     by_range (Some a) (Some b) db_alias = Raise InvalidRange) /\
  by_range (Some "20241205") (Some "20241204") db_alias = Raise InvalidRange /\
  by_range (Some "2024-12-05") (Some "2024-12-04") db_alias = Raise InvalidDateKey.
Proof.
  unfold fetch_banb_data_by_pid_and_range.
  split; [|split].
  - intros a b sa ea sb eb Ha Hb Ea Eb Hlt.
    rewrite (range_bounds_both a b sa ea sb eb) by assumption.
    rewrite Hlt. reflexivity.
  - reflexivity.
  - reflexivity.
Qed.
End Fetch.

Lemma fetch_by_range_bounds_witness :
  fetch_banb_data_by_pid_and_range unit fetch_none 7 100 (Some "202412") (Some "") None
  = Ok tt.
Proof.
  pose proof (fetch_by_range_bounds unit fetch_none 7 100 None) as (H & _).
  rewrite (H "202412" (Some "")); [reflexivity | discriminate | reflexivity].
Defined.

Lemma fetch_by_range_invalid_witness :
  fetch_banb_data_by_pid_and_range unit fetch_none 7 100
    (Some "2025") (Some "2024") None = Raise InvalidRange.
Proof.
  pose proof (fetch_by_range_invalid unit fetch_none 7 100 None) as (H & _).
  apply (H "2025" "2024" (midnight 2025 1 1) (midnight 2026 1 1)
           (midnight 2024 1 1) (midnight 2025 1 1));
    try discriminate; reflexivity.
Defined.

(** C3 as stated fails on its own example: the two keys are refused as
    date keys, and the error is not the one of an invalid range. *)
Lemma range_dashed_keys_not_invalid_range :
  range_bounds (Some "2024-12-05") (Some "2024-12-04") = Raise InvalidDateKey /\
  fetch_banb_data_by_pid_and_range unit fetch_none 7 100
    (Some "2024-12-05") (Some "2024-12-04") None <> Raise InvalidRange.
Proof. split; [reflexivity | discriminate]. Qed.

End RangeFacts.

(** ** The shift calendar *)

Module ShiftFacts.
Import Calendar ProductivityShift CalendarFacts AddDaysFacts.

Lemma ltb_combine now t :
  0 <= second now -> 0 <= microsecond now ->
  dt_ltb now (combine now t None) =
  (hour now <? t_hour t) || ((hour now =? t_hour t) && (minute now <? t_minute t)).
Proof.
  intros Hs Hu. unfold dt_ltb, dt_compare, fields, combine.
  cbn [lex_compare year month day hour minute second microsecond].
  rewrite !Z.compare_refl.
  destruct (Z.compare_spec (hour now) (t_hour t)) as [E|E|E].
  - rewrite E, Z.ltb_irrefl, Z.eqb_refl. cbn [orb andb].
    destruct (Z.compare_spec (minute now) (t_minute t)) as [F|F|F].
    + rewrite F, Z.ltb_irrefl.
      destruct (Z.compare_spec (second now) 0) as [G|G|G]; try reflexivity; try lia.
      destruct (Z.compare_spec (microsecond now) 0); try reflexivity; lia.
    + symmetry. apply Z.ltb_lt. assumption.
    + symmetry. apply Z.ltb_ge. lia.
  - replace (hour now <? t_hour t) with true by (symmetry; apply Z.ltb_lt; lia).
    reflexivity.
  - replace (hour now <? t_hour t) with false by (symmetry; apply Z.ltb_ge; lia).
    replace (hour now =? t_hour t) with false by (symmetry; apply Z.eqb_neq; lia).
    reflexivity.
Qed.

(** An instant of an earlier date is not later. *)
Lemma not_ltb_earlier_date a b :
  lex_compare [year b; month b; day b] [year a; month a; day a] = Lt ->
  dt_ltb a b = false.
Proof.
  unfold dt_ltb, dt_compare, fields. cbn [lex_compare].
  destruct (Z.compare_spec (year b) (year a)) as [E|E|E]; try discriminate.
  2:{ intros _. apply Z.compare_gt_iff in E. now rewrite E. }
  rewrite E, Z.compare_refl.
  destruct (Z.compare_spec (month b) (month a)) as [F|F|F]; try discriminate.
  2:{ intros _. apply Z.compare_gt_iff in F. now rewrite F. }
  rewrite F, Z.compare_refl.
  destruct (Z.compare_spec (day b) (day a)) as [G|G|G]; try discriminate.
  intros _. apply Z.compare_gt_iff in G. now rewrite G.
Qed.

Lemma prev_day_earlier y m d :
  1 <= m <= 12 -> 1 <= d <= _days_in_month y m ->
  forall y' m' d', prev_day y m d = (y', m', d') ->
  lex_compare [y'; m'; d'] [y; m; d] = Lt.
Proof.
  intros Hm Hd y' m' d'. unfold prev_day.
  destruct (1 <? d) eqn:E1; [|destruct (1 <? m) eqn:E2]; intros [= <- <- <-];
    cbn [lex_compare].
  - apply Z.ltb_lt in E1. rewrite !Z.compare_refl.
    replace (d - 1 ?= d) with Lt by (symmetry; apply Z.compare_lt_iff; lia).
    reflexivity.
  - apply Z.ltb_lt in E2. rewrite Z.compare_refl.
    replace (m - 1 ?= m) with Lt by (symmetry; apply Z.compare_lt_iff; lia).
    reflexivity.
  - replace (y - 1 ?= y) with Lt by (symmetry; apply Z.compare_lt_iff; lia).
    reflexivity.
Qed.

Lemma prev_day_year y m d :
  (y, m, d) <> (1, 1, 1) -> MINYEAR <= y -> 1 <= m -> 1 <= d ->
  MINYEAR <= DateKeySpec.fst3 (prev_day y m d).
Proof.
  intros Hne Hy Hm Hd. unfold prev_day, MINYEAR in *.
  destruct (1 <? d) eqn:E1; [cbn; lia|].
  destruct (1 <? m) eqn:E2; [cbn; lia|].
  apply Z.ltb_ge in E1, E2. cbn.
  assert (d = 1) by lia. assert (m = 1) by lia. subst.
  assert (y <> 1) by congruence. lia.
Qed.

(** The start of the window on a day with an early branch that looks at
    the day before (Monday to Friday). *)
Lemma shift_start_early now_jkt :
  wf_datetime now_jkt -> 0 <= weekday now_jkt <= 4 ->
  before_first_shift now_jkt = true ->
  shift_start now_jkt =
  let* yesterday := add_days now_jkt (-1) in
  Ok (Some (combine now_jkt (mk_time 22 30) (Some yesterday))).
Proof.
  intros (Hv & Hh & Hmi & Hs & Hu) Hw Hb. unfold shift_start. cbv zeta.
  rewrite !ltb_combine by lia. cbn [t_hour t_minute].
  unfold before_first_shift in Hb. rewrite Hb.
  assert (weekday now_jkt = 0 \/ weekday now_jkt = 1 \/ weekday now_jkt = 2 \/
          weekday now_jkt = 3 \/ weekday now_jkt = 4) as Hc by lia.
  destruct Hc as [-> | [-> | [-> | [-> | ->]]]]; reflexivity.
Qed.

(** Past the first boundary, and on the days without an early branch,
    the start is today's or there is none. *)
Lemma shift_start_today now_jkt :
  wf_datetime now_jkt ->
  weekday now_jkt <= 4 /\ before_first_shift now_jkt = false \/ 5 <= weekday now_jkt ->
  exists r, shift_start now_jkt = Ok r /\
    match r with
    | Some s => date_of s = date_of now_jkt /\ dt_ltb now_jkt s = false /\
                weekday now_jkt <> 6
    | None => weekday now_jkt = 6 \/
              (weekday now_jkt = 5 /\ before_first_shift now_jkt = true)
    end.
Proof.
  intros (Hv & Hh & Hmi & Hs & Hu) Hc.
  assert (Hwr : 0 <= weekday now_jkt < 7) by (unfold weekday; zdiv).
  unfold shift_start. cbv zeta.
  pose proof (ltb_combine now_jkt (mk_time 6 30) (proj1 Hs) (proj1 Hu)) as H1.
  cbn [t_hour t_minute] in H1. fold (before_first_shift now_jkt) in H1.
  assert (weekday now_jkt = 0 \/ weekday now_jkt = 1 \/ weekday now_jkt = 2 \/
          weekday now_jkt = 3 \/ weekday now_jkt = 4 \/ weekday now_jkt = 5 \/
          weekday now_jkt = 6) as Hw by lia.
  destruct (before_first_shift now_jkt) eqn:Hb.
  - (* early: only Saturday and Sunday are left *)
    assert (weekday now_jkt = 5 \/ weekday now_jkt = 6) as [E|E]
      by (destruct Hc as [[_ Hc]|Hc]; [discriminate | lia]);
      rewrite E; cbn [Z.eqb Pos.eqb orb].
    + rewrite H1. eexists. split; [reflexivity|]. right. now split.
    + eexists. split; [reflexivity|]. now left.
  - destruct Hw as [E | [E | [E | [E | [E | [E | E]]]]]]; rewrite E;
      cbn [Z.eqb Pos.eqb orb]; rewrite ?H1;
      repeat match goal with
       | |- context [if dt_ltb ?a ?b then _ else _] => destruct (dt_ltb a b) eqn:?
       end;
      eexists; (split; [reflexivity|]);
      try (repeat split; try reflexivity; try assumption; lia).
    + repeat split; [|lia].
      rewrite ltb_combine in Heqb0 |- * by lia. cbn [t_hour t_minute] in *.
      destruct (Z.ltb_spec (hour now_jkt) 23); [discriminate|].
      replace (hour now_jkt <? 22) with false by (symmetry; apply Z.ltb_ge; lia).
      replace (hour now_jkt =? 22) with false by (symmetry; apply Z.eqb_neq; lia).
      reflexivity.
    + now left.
Qed.
End ShiftFacts.

(** ** Instants moved by seconds and between zones *)

Module ZoneFacts.
Import Calendar ProductivityShift CalendarFacts AddDaysFacts.

(** Every day from 0001-01-01 on is the ordinal of a date. *)
Lemma ordinal_of_date n :
  exists y m d,
    1 <= y /\ 1 <= m <= 12 /\ 1 <= d <= _days_in_month y m /\
    _ymd2ord y m d = 1 + Z.of_nat n.
Proof.
  induction n as [|n (y & m & d & Hy & Hm & Hd & Ho)].
  - exists 1, 1, 1. cbv. repeat split; discriminate.
  - pose proof (ymd2ord_next_day y m d Hm Hd) as H.
    destruct (next_day y m d) as [[y' m'] d']. destruct H as (H1 & H2 & H3 & H4).
    exists y', m', d'. repeat split; try lia.
Qed.

(** [_ord2ymd] gives the date of an ordinal of the calendar. *)
Lemma ord2ymd_valid o :
  1 <= o <= _MAXORDINAL ->
  exists y m d, _ord2ymd o = (y, m, d) /\ valid_date y m d /\ _ymd2ord y m d = o.
Proof.
  intros Ho. destruct (ordinal_of_date (Z.to_nat (o - 1))) as (y & m & d & Hy & Hm & Hd & E).
  rewrite Z2Nat.id in E by lia. replace (1 + (o - 1)) with o in E by lia.
  exists y, m, d. split; [|split].
  - rewrite <- E. now apply ord2ymd_ymd2ord.
  - split; [|split]; try assumption. unfold MINYEAR, MAXYEAR. split; [lia|].
    destruct (Z_le_gt_dec y 9999) as [|Hgt]; [assumption|exfalso].
    pose proof (ymd2ord_range y m d Hm Hd) as [Hlo _].
    pose proof (days_before_year_mono 10000 y ltac:(lia)) as Hmono.
    change (_days_before_year 10000) with 3652059 in Hmono.
    unfold _MAXORDINAL in Ho. lia.
  - assumption.
Qed.

Lemma add_seconds_wf dt k dt' :
  wf_datetime dt -> add_seconds dt k = Ok dt' ->
  wf_datetime dt' /\ tzinfo dt' = tzinfo dt.
Proof.
  intros (Hv & Hh & Hmi & Hs & Hus). unfold add_seconds. cbv zeta.
  set (t := hour dt * 3600 + minute dt * 60 + second dt + k).
  destruct ((0 <? toordinal dt + t / 86400) && (toordinal dt + t / 86400 <=? _MAXORDINAL))
    eqn:E; [|discriminate].
  apply andb_true_iff in E as [E1 E2]. apply Z.ltb_lt in E1. apply Z.leb_le in E2.
  destruct (ord2ymd_valid (toordinal dt + t / 86400) ltac:(lia)) as (y & m & d & -> & Hv' & _).
  intros [= <-]. split; [|reflexivity].
  unfold wf_datetime. cbn [year month day hour minute second microsecond].
  split; [assumption|].
  assert (0 <= t mod 86400 < 86400) by (apply Z.mod_pos_bound; lia).
  repeat split; try lia; zdiv.
Qed.

Lemma replace_tzinfo_wf dt z : wf_datetime dt -> wf_datetime (replace_tzinfo dt z).
Proof. intros H. exact H. Qed.

Section Zones.
Variable zone_utcoffset : string -> datetime -> Z.
Variable zone_fromutc : string -> datetime -> Z.
Variable clock : tz -> datetime.

Local Abbreviation in_jakarta := (_dt_in_jakarta zone_utcoffset zone_fromutc clock).

(** The instant in the zone is a [datetime] like the one given. *)
Lemma dt_in_jakarta_wf now now_jkt :
  wf_input clock now -> in_jakarta now = Ok now_jkt -> wf_datetime now_jkt.
Proof.
  destruct now as [dt|]; cbn [wf_input _dt_in_jakarta].
  - intros Hwf. destruct (tzinfo dt) as [mytz|].
    + unfold astimezone. destruct (same_zone mytz JAKARTA_TZ); [now intros [= <-]|].
      destruct (add_seconds dt _) as [utc|] eqn:E1; [|discriminate]. cbn [bind].
      destruct (add_seconds_wf _ _ _ Hwf E1) as [Hu _].
      unfold fromutc. intros E2.
      now destruct (add_seconds_wf _ _ _ (replace_tzinfo_wf utc _ Hu) E2).
    + intros [= <-]. exact Hwf.
  - intros Hwf [= <-]. exact Hwf.
Qed.

End Zones.
End ZoneFacts.

(** ** The business date *)

Module BusinessDate.
Import Calendar ProductivityShift CalendarFacts AddDaysFacts ShiftFacts ZoneFacts.

(** The business date from the instant in the zone. *)
Lemma business_date_at_spec now :
  wf_datetime now ->
  ~ (year now = 1 /\ month now = 1 /\ day now = 1 /\
     before_first_shift now = true) ->
  business_date_at now =
    Ok (if (weekday now <=? 4) && before_first_shift now
        then date3 (prev_day (year now) (month now) (day now))
        else date_of now) /\
  (forall s, shift_start now = Ok (Some s) ->
     dt_ltb now s = false /\ business_date_at now = Ok (date_of s)) /\
  (weekday now = 6 \/ (weekday now = 5 /\ before_first_shift now = true) ->
     shift_start now = Ok None /\ business_date_at now = Ok (date_of now)).
Proof.
  intros Hwf Hmin.
  assert (Hwr : 0 <= weekday now < 7) by (unfold weekday; zdiv).
  unfold business_date_at. cbv zeta.
  assert (Hcases :
    (weekday now <= 4 /\ before_first_shift now = true /\
     exists y' m' d', prev_day (year now) (month now) (day now) = (y', m', d') /\
       shift_start now =
       Ok (Some (combine now (mk_time 22 30)
                   (Some (mk_datetime y' m' d' (hour now) (minute now) (second now)
                            (microsecond now) (tzinfo now))))) /\
       lex_compare [y'; m'; d'] [year now; month now; day now] = Lt) \/
    ((weekday now <= 4 /\ before_first_shift now = false \/ 5 <= weekday now) /\
     exists r, shift_start now = Ok r /\
       match r with
       | Some s => date_of s = date_of now /\ dt_ltb now s = false /\ weekday now <> 6
       | None => weekday now = 6 \/ weekday now = 5 /\ before_first_shift now = true
       end)).
  { destruct (Z_le_gt_dec (weekday now) 4) as [Hw|Hw];
      [destruct (bool_dec (before_first_shift now) true) as [Hb|Hb%not_true_is_false]|].
    - left. split; [assumption|]. split; [assumption|].
      pose proof Hwf as ((Hy & Hm & Hd) & _).
      destruct (prev_day (year now) (month now) (day now)) as [[y' m'] d'] eqn:Ep.
      exists y', m', d'. split; [reflexivity|].
      assert (Hy' : MINYEAR <= y').
      { pose proof (prev_day_year (year now) (month now) (day now)) as Hp.
        rewrite Ep in Hp. cbn in Hp. apply Hp; try lia.
        intros [= E1 E2 E3]. apply Hmin. auto. }
      destruct (add_days_prev now (proj1 Hwf) y' m' d' Ep Hy') as [Ha _].
      rewrite shift_start_early; [| assumption | lia | assumption].
      rewrite Ha. split; [reflexivity|].
      apply (prev_day_earlier _ _ _ Hm Hd). assumption.
    - right. split; [left; now split|].
      apply shift_start_today; [assumption|]. left. now split.
    - right. split; [right; lia|].
      apply shift_start_today; [assumption|]. right. lia. }
  split; [|split].
  - destruct Hcases as [(Hw & Hb & y' & m' & d' & Ep & Es & _) | (Hc & r & Es & Hr)].
    + rewrite Es. cbn [bind]. rewrite Hb, Ep.
      replace (weekday now <=? 4) with true by (symmetry; apply Z.leb_le; lia).
      reflexivity.
    + rewrite Es. cbn [bind].
      replace ((weekday now <=? 4) && before_first_shift now) with false.
      2:{ symmetry. destruct Hc as [[_ ->] | Hc]; [apply andb_false_r|].
          replace (weekday now <=? 4) with false by (symmetry; apply Z.leb_gt; lia).
          reflexivity. }
      destruct r as [s|]; [|reflexivity]. destruct Hr as (-> & _). reflexivity.
  - intros s Hs. rewrite Hs. cbn [bind]. split; [|reflexivity].
    destruct Hcases as [(Hw & Hb & y' & m' & d' & Ep & Es & Hlt) | (Hc & r & Es & Hr)].
    + rewrite Es in Hs. injection Hs as <-.
      apply not_ltb_earlier_date. exact Hlt.
    + rewrite Es in Hs. injection Hs as ->. tauto.
  - intros Hsun.
    destruct Hcases as [(Hw & Hb & _) | (Hc & r & Es & Hr)]; [lia|].
    destruct r as [s|].
    + exfalso. destruct Hr as (_ & Hlt & Hne).
      destruct Hsun as [E | [E Hb]]; [contradiction|].
      (* Saturday before the first boundary: the code sets no start *)
      revert Es. unfold shift_start. cbv zeta. rewrite E.
      cbn [Z.eqb Pos.eqb orb].
      rewrite (ltb_combine now (mk_time 6 30)) by (destruct Hwf as (_ & _ & _ & ? & ?); lia).
      cbn [t_hour t_minute]. fold (before_first_shift now). rewrite Hb.
      discriminate.
    + rewrite Es. split; reflexivity.
Qed.

Section Zones.
Variable zone_utcoffset : string -> datetime -> Z.
Variable zone_fromutc : string -> datetime -> Z.
Variable clock : tz -> datetime.

Local Abbreviation in_jakarta := (_dt_in_jakarta zone_utcoffset zone_fromutc clock).
Local Abbreviation business_date :=
  (get_jakarta_shift_business_date zone_utcoffset zone_fromutc clock).

(** C5, amended. The instant the function works on is the one it is
    given, in the zone of the facility: a naive instant is taken as the
    wall clock of the zone, an instant of the zone is kept, an instant
    of another zone is converted, and the clock is read when none is
    given. For every input whose conversion succeeds, with [now_jkt] the
    instant in the zone, and other than those with [now_jkt] before
    06:30 on 0001-01-01, the business date is returned, without an
    exception: the previous calendar date for an instant before 06:30 on
    Monday to Friday, and the instant's own date otherwise. When the
    code finds a window start, the start is not after the instant and
    the business date is the date of the start; on Sunday and on
    Saturday before 06:30 it finds none and the date is the instant's
    own. A Monday instant at 06:30:00 has its own date, and one at
    06:29:59 the date of the Sunday before. *)
Theorem business_date_spec now now_jkt :
  wf_input clock now ->
  in_jakarta now = Ok now_jkt ->
  ~ (year now_jkt = 1 /\ month now_jkt = 1 /\ day now_jkt = 1 /\
     before_first_shift now_jkt = true) ->
  business_date now =
    Ok (if (weekday now_jkt <=? 4) && before_first_shift now_jkt
        then date3 (prev_day (year now_jkt) (month now_jkt) (day now_jkt))
        else date_of now_jkt) /\
  (forall s, shift_start now_jkt = Ok (Some s) ->
     dt_ltb now_jkt s = false /\ business_date now = Ok (date_of s)) /\
  (weekday now_jkt = 6 \/ (weekday now_jkt = 5 /\ before_first_shift now_jkt = true) ->
     shift_start now_jkt = Ok None /\ business_date now = Ok (date_of now_jkt)) /\
  (forall dt, tzinfo dt = None ->
     in_jakarta (Some dt) = Ok (replace_tzinfo dt (Some JAKARTA_TZ))) /\
  (forall dt, tzinfo dt = Some JAKARTA_TZ -> in_jakarta (Some dt) = Ok dt) /\
  in_jakarta None = Ok (clock JAKARTA_TZ) /\
  weekday (at_time 2024 12 2 6 30 0) = 0 /\
  business_date (Some (at_time 2024 12 2 6 30 0)) = Ok (mk_date 2024 12 2) /\
  business_date (Some (at_time 2024 12 2 6 29 59)) = Ok (mk_date 2024 12 1).
Proof.
  intros Hin Hconv Hmin.
  pose proof (dt_in_jakarta_wf _ _ _ now now_jkt Hin Hconv) as Hwf.
  destruct (business_date_at_spec now_jkt Hwf Hmin) as (H1 & H2 & H3).
  unfold get_jakarta_shift_business_date. rewrite Hconv. cbn [bind].
  split; [exact H1|]. split; [exact H2|]. split; [exact H3|].
  split; [|split; [|split; [|split; [|split]]]].
  - intros dt Hz. cbn [_dt_in_jakarta]. now rewrite Hz.
  - intros dt Hz. cbn [_dt_in_jakarta]. rewrite Hz. reflexivity.
  - reflexivity.
  - reflexivity.
  - reflexivity.
  - reflexivity.
Qed.

(** The function fails where the conversion fails, with the error of
    the conversion. *)
Lemma business_date_conversion_error now e :
  in_jakarta now = Raise e -> business_date now = Raise e.
Proof. intros H. unfold get_jakarta_shift_business_date. now rewrite H. Qed.

End Zones.

Lemma business_date_spec_witness :
  get_jakarta_shift_business_date seven_east seven_east clock_friday
    (Some (at_offset 2024 12 5 20 15 0 0))
  = Ok (mk_date 2024 12 5).
Proof.
  assert (Hwf : wf_input clock_friday (Some (at_offset 2024 12 5 20 15 0 0)))
    by (cbv; repeat split; discriminate).
  assert (Hconv : _dt_in_jakarta seven_east seven_east clock_friday
                    (Some (at_offset 2024 12 5 20 15 0 0))
                  = Ok (mk_datetime 2024 12 6 3 15 0 0 (Some JAKARTA_TZ)))
    by reflexivity.
  assert (Hmin : ~ (year (mk_datetime 2024 12 6 3 15 0 0 (Some JAKARTA_TZ)) = 1 /\
                    month (mk_datetime 2024 12 6 3 15 0 0 (Some JAKARTA_TZ)) = 1 /\
                    day (mk_datetime 2024 12 6 3 15 0 0 (Some JAKARTA_TZ)) = 1 /\
                    before_first_shift (mk_datetime 2024 12 6 3 15 0 0 (Some JAKARTA_TZ))
                    = true))
    by (cbn; intros (H & _); discriminate).
  exact (proj1 (business_date_spec seven_east seven_east clock_friday _ _ Hwf Hconv Hmin)).
Defined.

(** C5 as stated fails at the ends of the calendar. 0001-01-01 is a
    Monday, and before 06:30 the code steps to the day before, which no
    [datetime] holds; and an instant of another zone whose conversion
    passes over the last day of the calendar has no conversion. *)
Lemma business_date_raises_on_first_day :
  wf_input clock_friday (Some (at_time 1 1 1 0 0 0)) /\
  weekday (at_time 1 1 1 0 0 0) = 0 /\
  get_jakarta_shift_business_date seven_east seven_east clock_friday
    (Some (at_time 1 1 1 0 0 0))
  = Raise (OverflowError overflow_msg) /\
  wf_input clock_friday (Some (at_offset 9999 12 31 23 0 0 (-3600))) /\
  get_jakarta_shift_business_date seven_east seven_east clock_friday
    (Some (at_offset 9999 12 31 23 0 0 (-3600)))
  = Raise (OverflowError overflow_msg).
Proof.
  split; [|split; [|split; [|split]]];
    [cbv; repeat split; discriminate | reflexivity | reflexivity
    | cbv; repeat split; discriminate | reflexivity].
Qed.

(** An instant of another zone is attributed by its wall clock in the
    zone of the facility: Sunday 23:30 in UTC is Monday 06:30 there. The
    clock is read when no instant is given. *)
Example business_date_from_utc :
  get_jakarta_shift_business_date seven_east seven_east clock_friday
    (Some (at_offset 2024 12 1 23 30 0 0))
  = Ok (mk_date 2024 12 2) /\
  get_jakarta_shift_business_date seven_east seven_east clock_friday None
  = Ok (mk_date 2024 12 6).
Proof. split; reflexivity. Qed.

Example business_date_friday_overlap :
  shift_start (at_time 2024 12 6 22 45 0)
    = Ok (Some (combine (at_time 2024 12 6 22 45 0) (mk_time 15 0) None)) /\
  shift_start (at_time 2024 12 6 23 15 0)
    = Ok (Some (combine (at_time 2024 12 6 23 15 0) (mk_time 22 30) None)).
Proof. split; reflexivity. Qed.

Example business_date_saturday_early :
  get_jakarta_shift_business_date seven_east seven_east clock_friday
    (Some (at_time 2024 12 7 3 0 0)) = Ok (mk_date 2024 12 7).
Proof. reflexivity. Qed.

Example business_date_new_year :
  get_jakarta_shift_business_date seven_east seven_east clock_friday
    (Some (at_time 2025 1 1 5 0 0)) = Ok (mk_date 2024 12 31).
Proof. reflexivity. Qed.

End BusinessDate.

(** ** Dictionaries *)

Module DictFacts.
Import Config.

Section Dict.
Context {V : Type}.
Implicit Types (d : dict V) (k : string) (v : V).

Lemma dict_get_set_same d k v : dict_get (dict_set d k v) k = Some v.
Proof.
  induction d as [|[k' v'] d IH]; cbn.
  - now rewrite String.eqb_refl.
  - destruct (String.eqb k' k) eqn:E; cbn; rewrite E; [reflexivity | exact IH].
Qed.

Lemma dict_get_set_other d k k' v :
  k <> k' -> dict_get (dict_set d k v) k' = dict_get d k'.
Proof.
  intros Hne. induction d as [|[k0 v0] d IH]; cbn.
  - destruct (String.eqb_spec k k'); [contradiction | reflexivity].
  - destruct (String.eqb_spec k0 k) as [->|Hk]; cbn.
    + destruct (String.eqb_spec k k'); [contradiction | reflexivity].
    + destruct (String.eqb_spec k0 k'); [reflexivity | exact IH].
Qed.

Lemma dict_mem_In k d : dict_mem k d = true <-> In k (keys d).
Proof.
  unfold dict_mem. rewrite existsb_exists. split.
  - intros (x & Hx & E). apply String.eqb_eq in E. now subst.
  - intros H. exists k. split; [assumption | apply String.eqb_refl].
Qed.

Lemma dict_get_None k d : ~ In k (keys d) -> dict_get d k = None.
Proof.
  induction d as [|[k' v'] d IH]; cbn; [reflexivity|].
  intros H. destruct (String.eqb_spec k' k); [tauto|]. apply IH. tauto.
Qed.

Lemma dict_get_In k v d : NoDup (keys d) -> In (k, v) d -> dict_get d k = Some v.
Proof.
  induction d as [|[k' v'] d IH]; cbn; [tauto|].
  intros Hnd [H|H].
  - injection H as -> ->. now rewrite String.eqb_refl.
  - inversion Hnd as [|? ? Hk Hd]; subst.
    destruct (String.eqb_spec k' k) as [->|_].
    + exfalso. apply Hk. change k with (fst (k, v)). now apply in_map.
    + now apply IH.
Qed.

(** Setting a new key appends it; setting an old one keeps the keys. *)
Lemma dict_set_new d k v : ~ In k (keys d) -> dict_set d k v = (d ++ [(k, v)])%list.
Proof.
  induction d as [|[k' v'] d IH]; cbn; [reflexivity|].
  intros H. destruct (String.eqb_spec k' k); [tauto|]. rewrite IH by tauto. reflexivity.
Qed.

Lemma keys_dict_set_old d k v : In k (keys d) -> keys (dict_set d k v) = keys d.
Proof.
  induction d as [|[k' v'] d IH]; cbn; [tauto|].
  intros H. destruct (String.eqb_spec k' k) as [->|Hne]; cbn; [reflexivity|].
  f_equal. apply IH. destruct H; [contradiction | assumption].
Qed.

Lemma keys_app d1 d2 : keys (d1 ++ d2)%list = (keys d1 ++ keys d2)%list.
Proof. apply map_app. Qed.

End Dict.
End DictFacts.

(** ** Provisioning of the engines *)

Module ProvisionFacts.
Import PyStr Config Database DictFacts.

Lemma provision_spec items : forall async sync,
  NoDup (keys items) ->
  forall alias,
    (forall url, In (alias, url) items ->
       let '(a', s') := provision items async sync in
       if is_sync alias url
       then dict_get s' alias = Some (SyncEngine url) /\
            dict_get a' alias = dict_get async alias
       else dict_get a' alias = Some (AsyncEngine url) /\
            dict_get s' alias = dict_get sync alias) /\
    (~ In alias (keys items) ->
       let '(a', s') := provision items async sync in
       dict_get a' alias = dict_get async alias /\
       dict_get s' alias = dict_get sync alias).
Proof.
  induction items as [|[k u] items IH]; intros async sync Hnd alias.
  - cbn. split; [tauto | auto].
  - inversion Hnd as [|? ? Hk Hnd']; subst. cbn [provision].

    destruct (String.eqb_spec k alias) as [->|Hne].
    + (* the entry of [alias]: nothing after it touches the alias *)
      assert (Hone : forall url, In (alias, url) ((alias, u) :: items) -> url = u).
      { intros url [H|H]; [congruence|]. exfalso. apply Hk.
        change alias with (fst (alias, url)). now apply in_map. }
      split.
      * intros url Hin. rewrite (Hone url Hin).
        destruct (is_sync alias u) eqn:Es.
        -- destruct (IH async (dict_set sync alias (SyncEngine u)) Hnd' alias) as [_ H2].
           specialize (H2 Hk). destruct (provision items _ _) as [a' s'].
           destruct H2 as [H2 H3]. rewrite H2, H3, dict_get_set_same. auto.
        -- destruct (IH (dict_set async alias (AsyncEngine u)) sync Hnd' alias) as [_ H2].
           specialize (H2 Hk). destruct (provision items _ _) as [a' s'].
           destruct H2 as [H2 H3]. rewrite H2, H3, dict_get_set_same. auto.
      * intros Hn. exfalso. apply Hn. cbn. now left.
    + split.
      * intros url [H|Hin]; [congruence|].
        destruct (is_sync k u).
        -- destruct (IH async (dict_set sync k (SyncEngine u)) Hnd' alias) as [H1 _].
           specialize (H1 url Hin). destruct (provision items _ _) as [a' s'].
           destruct (is_sync alias url); [assumption|].
           rewrite dict_get_set_other in H1 by assumption. assumption.
        -- destruct (IH (dict_set async k (AsyncEngine u)) sync Hnd' alias) as [H1 _].
           specialize (H1 url Hin). destruct (provision items _ _) as [a' s'].
           destruct (is_sync alias url); [|assumption].
           rewrite dict_get_set_other in H1 by assumption. assumption.
      * intros Hn. assert (Hn' : ~ In alias (keys items)) by (cbn in Hn; tauto).
        destruct (is_sync k u).
        -- destruct (IH async (dict_set sync k (SyncEngine u)) Hnd' alias) as [_ H2].
           specialize (H2 Hn'). destruct (provision items _ _) as [a' s'].
           rewrite dict_get_set_other in H2 by assumption. assumption.
        -- destruct (IH (dict_set async k (AsyncEngine u)) sync Hnd' alias) as [_ H2].
           specialize (H2 Hn'). destruct (provision items _ _) as [a' s'].
           rewrite dict_get_set_other in H2 by assumption. assumption.
Qed.

Lemma provision_strategy_core urls alias url :
  NoDup (keys urls) -> In (alias, url) urls ->
  let '(async, sync) := provision urls [] [] in
  (dict_get sync alias = Some (SyncEngine url) <->
     alias = "cmms" /\ startswith "oracle+oracledb" (lower url) = true) /\
  (dict_get async alias = Some (AsyncEngine url) <->
     ~ (alias = "cmms" /\ startswith "oracle+oracledb" (lower url) = true)) /\
  (dict_get sync alias = None \/ dict_get async alias = None).
Proof.
  intros Hnd Hin.
  destruct (provision_spec urls [] [] Hnd alias) as [H _].
  specialize (H url Hin). destruct (provision urls [] []) as [async sync].
  assert (Hs : is_sync alias url = true <->
               alias = "cmms" /\ startswith "oracle+oracledb" (lower url) = true).
  { unfold is_sync. rewrite andb_true_iff, String.eqb_eq. reflexivity. }
  destruct (is_sync alias url); cbn [dict_get] in H; destruct H as [H1 H2];
    rewrite H1, H2.
  - repeat split; auto; try (intros; discriminate); tauto.
  - repeat split; auto; try (intros; discriminate);
      repeat intro;
      match goal with X : _ = _ /\ _ |- _ => apply Hs in X; discriminate X end.
Qed.

(** C7. For every entry (alias, url) of the registry, the module gives
    the alias the synchronous engine exactly when the alias is [cmms]
    and its URL, in lower case, starts with the thick-mode driver scheme
    [oracle+oracledb]; every other entry gets an asynchronous engine,
    whatever its alias and its URL; and an alias never gets both. *)
Theorem provision_strategy urls alias url :
  NoDup (keys urls) -> In (alias, url) urls ->
  exists r, load urls = Ok r /\
  (dict_get (SYNC_ENGINES r) alias = Some (SyncEngine url) <->
     alias = "cmms" /\ startswith "oracle+oracledb" (lower url) = true) /\
  (dict_get (ASYNC_ENGINES r) alias = Some (AsyncEngine url) <->
     ~ (alias = "cmms" /\ startswith "oracle+oracledb" (lower url) = true)) /\
  (dict_get (SYNC_ENGINES r) alias = None \/
   dict_get (ASYNC_ENGINES r) alias = None).
Proof.
  intros Hnd Hin.
  pose proof (provision_strategy_core urls alias url Hnd Hin) as H.
  unfold load. destruct urls as [|[first u0] rest]; [destruct Hin|].
  destruct (provision ((first, u0) :: rest) [] []) as [async sync].
  eexists. split; [reflexivity|]. exact H.
Qed.

Lemma provision_strategy_witness :
  exists r,
  load [("ip04", "mysql+aiomysql://h/a"); ("cmms", "Oracle+OracleDB://h/x")] = Ok r /\
  (dict_get (SYNC_ENGINES r) "cmms" = Some (SyncEngine "Oracle+OracleDB://h/x") <->
     "cmms" = "cmms" /\
     startswith "oracle+oracledb" (lower "Oracle+OracleDB://h/x") = true) /\
  (dict_get (ASYNC_ENGINES r) "cmms" = Some (AsyncEngine "Oracle+OracleDB://h/x") <->
     ~ ("cmms" = "cmms" /\
        startswith "oracle+oracledb" (lower "Oracle+OracleDB://h/x") = true)) /\
  (dict_get (SYNC_ENGINES r) "cmms" = None \/
   dict_get (ASYNC_ENGINES r) "cmms" = None).
Proof.
  apply (provision_strategy
           [("ip04", "mysql+aiomysql://h/a"); ("cmms", "Oracle+OracleDB://h/x")]
           "cmms" "Oracle+OracleDB://h/x").
  - repeat constructor; cbn; intuition discriminate.
  - cbn. auto.
Defined.

Example provision_cmms_not_oracle :
  provision [("cmms", "postgresql+asyncpg://h/x"); ("ip99", "oracle+oracledb://h/y")]
    [] []
  = ([("cmms", AsyncEngine "postgresql+asyncpg://h/x");
      ("ip99", AsyncEngine "oracle+oracledb://h/y")], []).
Proof. reflexivity. Qed.

End ProvisionFacts.

(** ** Resolution of aliases *)

Module AliasFacts.
Import PyStr Config Database DictFacts.

(** The default alias is the first one of the configuration. *)
Lemma default_alias_first urls r :
  load urls = Ok r ->
  database_urls r = urls /\ Some (DEFAULT_DB_ALIAS r) = hd_error (keys urls).
Proof.
  unfold load. destruct urls as [|[first u] rest]; [discriminate|].
  destruct (provision _ _ _) as [async sync]. intros [= <-]. split; reflexivity.
Qed.

(** No alias, or an empty one, resolves as the default alias does. *)
Lemma resolve_none_default r :
  resolve_db_alias r None = resolve_db_alias r (Some (DEFAULT_DB_ALIAS r)) /\
  resolve_db_alias r (Some "") = resolve_db_alias r (Some (DEFAULT_DB_ALIAS r)).
Proof.
  unfold resolve_db_alias. destruct (DEFAULT_DB_ALIAS r); split; reflexivity.
Qed.

Lemma resolve_known r alias :
  alias <> "" -> In alias (keys (database_urls r)) ->
  resolve_db_alias r (Some alias) = Ok alias.
Proof.
  intros Hne Hin. unfold resolve_db_alias.
  destruct alias as [|c a]; [congruence|].
  apply dict_mem_In in Hin. rewrite Hin. reflexivity.
Qed.

(** An alias that is not configured is never replaced by the default:
    the error names it, with the list [available_databases()] gives. *)
Lemma resolve_unknown r alias :
  alias <> "" -> ~ In alias (keys (database_urls r)) ->
  resolve_db_alias r (Some alias) =
  Raise (UnknownAlias alias (available_databases r)).
Proof.
  intros Hne Hin. unfold resolve_db_alias.
  destruct alias as [|c a]; [congruence|].
  destruct (dict_mem (String c a) (database_urls r)) eqn:E; [|reflexivity].
  apply dict_mem_In in E. contradiction.
Qed.

(** C9, at the input where the code departs from it. With an
    asynchronous backend and the CMMS backend configured, [cmms] is a
    registered alias and resolves; the error for an unknown alias lists
    [ip04] alone: the list is the one of the session factories, which
    the synchronous backend has not. *)
Theorem resolve_unknown_lists_session_factories :
  exists r, load two_backends = Ok r /\
    keys (database_urls r) = ["ip04"; "cmms"] /\
    resolve_db_alias r (Some "cmms") = Ok "cmms" /\
    resolve_db_alias r None = Ok "ip04" /\
    available_databases r = ["ip04"] /\
    resolve_db_alias r (Some "doesnotexist") =
      Raise (ValueError
        "Unknown database alias 'doesnotexist'. Available: ['ip04']").
Proof. eexists. split; [reflexivity|]. repeat split. Qed.

End AliasFacts.

(** ** The session scope *)

Module SessionFacts.
Import PyStr Config Database DictFacts.

Section Library.
Variable world : Type.
Variable session : Type.
Variable session_factory : string -> world -> session * world.
Variable close : session -> world -> outcome unit * world.
Variable aexit : session -> world -> outcome unit * world.
Variable borrowed : world -> string -> Z.
Variable held : session -> world -> string -> Z.

Local Abbreviation inv := (scope_inv world session borrowed held).
Local Abbreviation nothing := (holds_nothing world session held).
Local Abbreviation the_scope := (scope world session session_factory close aexit).
Local Abbreviation the_session := (get_session world session session_factory close aexit).

Hypothesis contract :
  library_contract world session session_factory close aexit borrowed held.



End Library.

(** The pool of the examples keeps the contract, with a [close] that
    completes and with one that is cancelled. *)
Lemma pool_release_inv base s w :
  scope_inv pool_state string checked_out pool_held base s w ->
  scope_inv pool_state string checked_out pool_held base s (pool_release s w) /\
  holds_nothing pool_state string pool_held s (pool_release s w).
Proof.
  intros H. unfold pool_release. destruct (connected w) eqn:Ec.
  - split; intros a; unfold pool_held; cbn; [|reflexivity].
    specialize (H a). unfold pool_held in H. rewrite Ec in H. cbn in H.
    destruct (String.eqb a s); lia.
  - split; [assumption|]. intros a. unfold pool_held. now rewrite Ec.
Qed.

Lemma pool_factory_inv alias w s w' :
  pool_factory alias w = (s, w') ->
  scope_inv pool_state string checked_out pool_held (checked_out w) s w' /\
  holds_nothing pool_state string pool_held s w'.
Proof.
  unfold pool_factory. intros [= <- <-]. split; intros a; unfold pool_held; cbn; lia.
Qed.

Lemma pool_contract :
  library_contract pool_state string pool_factory pool_close pool_close
    checked_out pool_held.
Proof.
  split; [|split].
  - apply pool_factory_inv.
  - intros base s w o w' H [= <- <-].
    destruct (pool_release_inv base s w H). auto.
  - intros base s w o w' H [= <- <-]. now apply pool_release_inv.
Qed.





(** The three ways out on the pool of the examples: inside the body one
    connection of the pool is checked out, after the scope none, and the
    way out of the body is the way out of the scope. With a [close] that
    is cancelled in the [finally] clause the connection comes back
    through the [__aexit__] of the session. *)
Example session_three_ways_out :
  let r := mk_registry two_backends [("ip04", AsyncEngine "mysql+aiomysql://h/a")]
             [("cmms", SyncEngine "oracle+oracledb://h/x")]
             [("ip04", AsyncEngine "mysql+aiomysql://h/a")] "ip04" in
  let run := get_session pool_state string pool_factory pool_close pool_close r
               (Some "ip04") in
  checked_out (pool_execute "ip04" idle) "ip04" = 1 /\
  fst (run body_returns idle) = Completes tt /\
  checked_out (snd (run body_returns idle)) "ip04" = 0 /\
  fst (run (body_raises (RuntimeError "boom")) idle) = Raises (RuntimeError "boom") /\
  checked_out (snd (run (body_raises (RuntimeError "boom")) idle)) "ip04" = 0 /\
  fst (run body_cancelled idle) = Cancelled /\
  checked_out (snd (run body_cancelled idle)) "ip04" = 0 /\
  checked_out
    (snd (get_session pool_state string pool_factory pool_close_cancelled pool_close r
            (Some "ip04") body_returns idle)) "ip04" = 0 /\
  fst (get_session pool_state string pool_factory pool_close_cancelled pool_close r
         (Some "ip04") body_returns idle) = Cancelled.
Proof. repeat split. Qed.

(** The scope is refused for the synchronous backend. *)
Example session_refused_for_cmms :
  exists r, load two_backends = Ok r /\
    fst (get_session pool_state string pool_factory pool_close pool_close r
           (Some "cmms") body_returns idle)
    = Raises (ValueError "Asynchronous session is not configured for alias 'cmms'").
Proof. eexists. split; reflexivity. Qed.

End SessionFacts.

(** ** Case folding and matching *)

Module CaseFacts.
Import PyStr Config.

(** A statement about every character, by running through them. *)
Ltac each_char c := destruct c as [[] [] [] [] [] [] [] []].

Lemma lower_char_idem c : lower_char (lower_char c) = lower_char c.
Proof. each_char c; reflexivity. Qed.

Lemma lower_idem s : lower (lower s) = lower s.
Proof.
  induction s as [|c s IH]; cbn; [reflexivity|]. now rewrite lower_char_idem, IH.
Qed.

Lemma lower_app a b : lower (a ++ b) = lower a ++ lower b.
Proof. induction a as [|c a IH]; cbn; [reflexivity | now rewrite IH]. Qed.

Lemma lower_decimal_char c : is_decimal c = true -> lower_char c = c.
Proof. each_char c; cbn; intros H; try discriminate H; reflexivity. Qed.

Lemma lower_decimal s : forall_chars is_decimal s = true -> lower s = s.
Proof.
  induction s as [|c s IH]; cbn; [reflexivity|].
  intros H. apply andb_true_iff in H. destruct H as [H1 H2].
  now rewrite (lower_decimal_char c H1), IH.
Qed.

Lemma underscore_only c : lower_char c = "_"%char -> c = "_"%char.
Proof. each_char c; cbn; intros H; try discriminate H; reflexivity. Qed.

Lemma append_nil s : s ++ "" = s.
Proof. induction s as [|c s IH]; cbn; [reflexivity | now rewrite IH]. Qed.

Lemma append_assoc a b c : (a ++ b) ++ c = a ++ (b ++ c).
Proof. induction a as [|x a IH]; cbn; [reflexivity | now rewrite IH]. Qed.

Lemma length_app a b : String.length (a ++ b) = (String.length a + String.length b)%nat.
Proof. induction a as [|x a IH]; cbn; [reflexivity | now rewrite IH]. Qed.

Lemma lower_length s : String.length (lower s) = String.length s.
Proof. induction s as [|c s IH]; cbn; [reflexivity | now rewrite IH]. Qed.

(** A literal matches a head that folds to the same letters. *)
Lemma match_literal_ci_app p : forall s rest,
  lower s = lower p -> match_literal_ci p (s ++ rest) = Some rest.
Proof.
  induction p as [|a p IH]; intros s rest H.
  - destruct s; [reflexivity | discriminate].
  - destruct s as [|c s]; [discriminate|]. cbn in H. injection H as Hc Hs.
    cbn. rewrite Hc, Ascii.eqb_refl. now apply IH.
Qed.

Lemma match_literal_ci_head_ne a p c s :
  lower_char a <> lower_char c -> match_literal_ci (String a p) (String c s) = None.
Proof.
  intros H. cbn. destruct (Ascii.eqb_spec (lower_char a) (lower_char c)); [contradiction|].
  reflexivity.
Qed.

Lemma span_decimal_app ds rest :
  forall_chars is_decimal ds = true ->
  (forall c r, rest = String c r -> is_decimal c = false) ->
  span_decimal (ds ++ rest) = (ds, rest).
Proof.
  intros Hd Hr. induction ds as [|c ds IH]; cbn.
  - destruct rest as [|c r]; [reflexivity|]. cbn. now rewrite (Hr c r eq_refl).
  - cbn in Hd. apply andb_true_iff in Hd. destruct Hd as [H1 H2].
    rewrite H1, (IH H2). reflexivity.
Qed.

(** A key of a numbered series, in any case, gives its digits. *)
Lemma match_numbered_shape prefix pre ds suf :
  lower pre = lower prefix -> ds <> "" -> forall_chars is_decimal ds = true ->
  lower suf = "_database_url" ->
  match_numbered prefix (pre ++ ds ++ suf) = Some ds.
Proof.
  intros Hp Hne Hd Hs. unfold match_numbered.
  rewrite (match_literal_ci_app prefix pre _ Hp).
  rewrite span_decimal_app; [|assumption|].
  - destruct ds as [|c ds]; [congruence|].
    rewrite <- (append_nil suf) at 1.
    rewrite (match_literal_ci_app "_DATABASE_URL" suf "" Hs). reflexivity.
  - intros c r ->. cbn in Hs. injection Hs as Hc _.
    apply underscore_only in Hc. subst c. reflexivity.
Qed.

(** [upper] and the head of a string. *)
Lemma upper_app a b : upper (a ++ b) = upper a ++ upper b.
Proof.
  induction a as [|c a IH]; cbn; [reflexivity|].
  destruct (is_ascii_lower c); [now rewrite IH|].
  destruct (_ && _ && _); [now rewrite IH|].
  destruct (code c =? 223); now rewrite IH.
Qed.

Lemma upper_head_c c s :
  lower_char c = "c"%char -> upper (String c s) = String "C" (upper s).
Proof. each_char c; cbn; intros H; try discriminate H; reflexivity. Qed.

Lemma upper_head_k c s :
  lower_char c = "k"%char -> upper (String c s) = String "K" (upper s).
Proof. each_char c; cbn; intros H; try discriminate H; reflexivity. Qed.

Lemma upper_head_p c s :
  lower_char c = "p"%char -> upper (String c s) = String "P" (upper s).
Proof. each_char c; cbn; intros H; try discriminate H; reflexivity. Qed.

Lemma head_of_upper_c c s p :
  String.prefix (String "C" p) (upper (String c s)) = true ->
  lower_char c = "c"%char /\ String.prefix p (upper s) = true.
Proof. each_char c; cbn; intros H; try discriminate H; split; auto. Qed.

Lemma head_of_upper_k c s p :
  String.prefix (String "K" p) (upper (String c s)) = true ->
  lower_char c = "k"%char /\ String.prefix p (upper s) = true.
Proof. each_char c; cbn; intros H; try discriminate H; split; auto. Qed.

End CaseFacts.

(** ** The alias of a configuration key *)

Module EntryAliasFacts.
Import PyStr Config DictFacts CaseFacts.

(** Strings of a known length, character by character. *)
Ltac chars_of s H :=
  repeat (let c := fresh "c" in destruct s as [|c s]; [try discriminate H|]);
  try discriminate H.

Lemma entry_alias_ip pre ds suf :
  lower pre = "ip" -> ds <> "" -> forall_chars is_decimal ds = true ->
  lower suf = "_database_url" ->
  entry_alias (pre ++ ds ++ suf) = Some ("ip" ++ ds).
Proof.
  intros Hp Hne Hd Hs. unfold entry_alias.
  rewrite (match_numbered_shape "IP" pre ds suf) by assumption.
  now rewrite lower_decimal.
Qed.

Lemma entry_alias_banb pre ds suf :
  lower pre = "banb" -> ds <> "" -> forall_chars is_decimal ds = true ->
  lower suf = "_database_url" ->
  entry_alias (pre ++ ds ++ suf) = Some ("banb" ++ ds).
Proof.
  intros Hp Hne Hd Hs. unfold entry_alias.
  replace (match_numbered "IP" (pre ++ ds ++ suf)) with (@None string).
  - rewrite (match_numbered_shape "BANB" pre ds suf) by assumption.
    now rewrite lower_decimal.
  - destruct pre as [|c pre]; [discriminate|]. cbn in Hp. injection Hp as Hc _.
    unfold match_numbered. cbn [append].
    rewrite match_literal_ci_head_ne; [reflexivity|]. rewrite Hc. discriminate.
Qed.

Lemma entry_alias_ctm pre ds suf :
  lower pre = "ctm" -> ds <> "" -> forall_chars is_decimal ds = true ->
  lower suf = "_database_url" ->
  entry_alias (pre ++ ds ++ suf) = Some ("ctm" ++ ds).
Proof.
  intros Hp Hne Hd Hs. unfold entry_alias.
  destruct pre as [|c pre]; [discriminate|]. cbn in Hp. injection Hp as Hc Hp.
  replace (match_numbered "IP" (String c pre ++ ds ++ suf)) with (@None string).
  2:{ unfold match_numbered. cbn [append].
      rewrite match_literal_ci_head_ne; [reflexivity|]. rewrite Hc. discriminate. }
  replace (match_numbered "BANB" (String c pre ++ ds ++ suf)) with (@None string).
  2:{ unfold match_numbered. cbn [append].
      rewrite match_literal_ci_head_ne; [reflexivity|]. rewrite Hc. discriminate. }
  rewrite (match_numbered_shape "CTM" (String c pre) ds suf); try assumption.
  - now rewrite lower_decimal.
  - cbn. now rewrite Hc, Hp.
Qed.

(** Removing a suffix that occurs nowhere else. *)
Lemma substring_none s : forall n, String.substring n 0 s = "".
Proof. induction s as [|c s IH]; intros [|n]; cbn; auto. Qed.

Lemma remove_all_nil old fuel : remove_all old "" fuel = "".
Proof. destruct fuel; reflexivity. Qed.

Lemma prefix_nil s : String.prefix "" s = true.
Proof. destruct s; reflexivity. Qed.

Lemma prefix_head_ne a p c s :
  a <> c -> String.prefix (String a p) (String c s) = false.
Proof.
  intros H.
  change (String.prefix (String a p) (String c s))
    with (if ascii_dec a c then String.prefix p s else false).
  destruct (ascii_dec a c); [contradiction | reflexivity].
Qed.

Lemma prefix_refl s : String.prefix s s = true.
Proof.
  induction s as [|c s IH]; cbn; [reflexivity|].
  destruct (ascii_dec c c); [assumption | contradiction].
Qed.

Lemma remove_all_suffix old pre : forall fuel,
  old <> "" -> only_at_end old pre -> (String.length pre < fuel)%nat ->
  remove_all old (pre ++ old) fuel = pre.
Proof.
  induction pre as [|c pre IH]; intros fuel Hold Hend Hf.
  - destruct fuel as [|fuel]; [lia|]. cbn [append remove_all].
    destruct old as [|o old]; [congruence|].
    rewrite prefix_refl, Nat.sub_diag, substring_none. apply remove_all_nil.
  - destruct fuel as [|fuel]; [cbn in Hf; lia|]. cbn [append remove_all].
    change (String c (pre ++ old)) with (String c pre ++ old).
    rewrite (Hend "" (String c pre) eq_refl) by discriminate.
    f_equal. apply IH; [assumption | | cbn in Hf; lia].
    intros t1 t2 E Hne. apply (Hend (String c t1) t2); [cbn; now rewrite E | assumption].
Qed.

Lemma replace_suffix old pre :
  old <> "" -> only_at_end old pre -> replace_with_empty old (pre ++ old) = pre.
Proof.
  intros Hold Hend. unfold replace_with_empty.
  apply remove_all_suffix; [assumption | assumption |].
  rewrite length_app. lia.
Qed.

Lemma substring_skip a : forall b n,
  String.substring (String.length a) n (a ++ b) = String.substring 0 n b.
Proof. induction a as [|c a IH]; intros b n; cbn; [reflexivity | apply IH]. Qed.

Lemma endswith_app p s : endswith p (s ++ p) = true.
Proof.
  unfold endswith. rewrite length_app.
  replace (String.length p <=? String.length s + String.length p)%nat with true
    by (symmetry; apply Nat.leb_le; lia).
  replace (String.length s + String.length p - String.length p)%nat
    with (String.length s) by lia.
  rewrite substring_skip, PyStrFacts.substring_all. cbn. apply String.eqb_refl.
Qed.

(** A key of the named series, its prefix in any case and its suffix in
    capitals, gives the name in lower case. *)
Lemma entry_alias_ckp pre name :
  lower pre = "ckp_" -> only_at_end "_DATABASE_URL" (pre ++ name) ->
  entry_alias (pre ++ name ++ "_DATABASE_URL") = Some ("ckp_" ++ lower name).
Proof.
  intros Hp Hend. unfold entry_alias.
  assert (Hpre : exists c1 c2 c3 c4, pre = String c1 (String c2 (String c3 (String c4 ""))) /\
            lower_char c1 = "c"%char /\ lower_char c2 = "k"%char /\
            lower_char c3 = "p"%char /\ c4 = "_"%char).
  { destruct pre as [|c1 [|c2 [|c3 [|c4 [|c5 pre]]]]]; try discriminate Hp.
    cbn in Hp. injection Hp as H1 H2 H3 H4.
    exists c1, c2, c3, c4. repeat split; auto using underscore_only. }
  destruct Hpre as (c1 & c2 & c3 & c4 & -> & H1 & H2 & H3 & ->).
  cbn [append].
  replace (match_numbered "IP" _) with (@None string)
    by (unfold match_numbered; rewrite match_literal_ci_head_ne;
        [reflexivity | rewrite H1; discriminate]).
  replace (match_numbered "BANB" _) with (@None string)
    by (unfold match_numbered; rewrite match_literal_ci_head_ne;
        [reflexivity | rewrite H1; discriminate]).
  replace (match_numbered "CTM" _) with (@None string).
  2:{ unfold match_numbered. cbn [match_literal_ci]. rewrite H1, H2. reflexivity. }
  rewrite (upper_head_c c1 _ H1), (upper_head_k c2 _ H2), (upper_head_p c3 _ H3).
  assert (Hu : upper (String "_" (name ++ "_DATABASE_URL"))
               = String "_" (upper name ++ "_DATABASE_URL")).
  { change (String "_" (name ++ "_DATABASE_URL")) with (("_" ++ name) ++ "_DATABASE_URL").
    rewrite upper_app, upper_app. reflexivity. }
  rewrite Hu.
  replace (startswith "CKP_" _) with true
    by (unfold startswith; cbn; now rewrite prefix_nil).
  change (String "C" (String "K" (String "P" (String "_" (upper name ++ "_DATABASE_URL")))))
    with (("CKP_" ++ upper name) ++ "_DATABASE_URL").
  rewrite endswith_app. cbn [andb].
  change (String c1 (String c2 (String c3 (String "_" (name ++ "_DATABASE_URL")))))
    with ((String c1 (String c2 (String c3 (String "_" name)))) ++ "_DATABASE_URL").
  rewrite replace_suffix; [| discriminate | exact Hend].
  cbn [lower]. rewrite H1, H2, H3. reflexivity.
Qed.

(** Every alias is in lower case, and none is one of the two fixed
    names. *)
Lemma entry_alias_lower key alias :
  entry_alias key = Some alias -> lower alias = alias.
Proof.
  unfold entry_alias.
  destruct (match_numbered "IP" key); [intros [= <-]; cbn; now rewrite lower_idem|].
  destruct (match_numbered "BANB" key); [intros [= <-]; cbn; now rewrite lower_idem|].
  destruct (match_numbered "CTM" key); [intros [= <-]; cbn; now rewrite lower_idem|].
  destruct (_ && _); [|discriminate]. intros [= <-]. apply lower_idem.
Qed.

Lemma entry_alias_not_fixed key alias :
  entry_alias key = Some alias -> alias <> "montrg" /\ alias <> "cmms".
Proof.
  unfold entry_alias.
  destruct (match_numbered "IP" key); [intros [= <-]; split; discriminate|].
  destruct (match_numbered "BANB" key); [intros [= <-]; split; discriminate|].
  destruct (match_numbered "CTM" key); [intros [= <-]; split; discriminate|].
  destruct (startswith "CKP_" (upper key)) eqn:Es; [|discriminate].
  destruct (endswith _ _); [|discriminate]. intros [= <-].
  unfold startswith in Es.
  destruct key as [|c1 key]; [discriminate Es|].
  apply head_of_upper_c in Es. destruct Es as [H1 Es].
  destruct key as [|c2 key]; [discriminate Es|].
  apply head_of_upper_k in Es. destruct Es as [H2 _].
  unfold replace_with_empty. cbn [String.length remove_all].
  replace (String.prefix "_DATABASE_URL" (String c1 (String c2 key))) with false.
  2:{ symmetry. apply prefix_head_ne. intros <-. discriminate H1. }
  replace (String.prefix "_DATABASE_URL" (String c2 key)) with false.
  2:{ symmetry. apply prefix_head_ne. intros <-. discriminate H2. }
  cbn [lower]. rewrite H1, H2. split; discriminate.
Qed.

End EntryAliasFacts.

(** ** Discovery of the aliases *)

Module DiscoveryFacts.
Import PyStr Config DictFacts CaseFacts EntryAliasFacts.

Lemma existsb_eqb_In a l : existsb (String.eqb a) l = true <-> In a l.
Proof.
  rewrite existsb_exists. split.
  - intros (x & Hx & E). apply String.eqb_eq in E. now subst.
  - intros H. exists a. split; [assumption | apply String.eqb_refl].
Qed.

Lemma existsb_eqb_not_In a l : existsb (String.eqb a) l = false <-> ~ In a l.
Proof.
  rewrite <- existsb_eqb_In. destruct (existsb _ l); split; intros; congruence.
Qed.

(** The keys after the loop: those before it, then the new aliases in
    the order of their first entries. *)
Lemma scan_keys items : forall acc,
  keys (scan_environ items acc)
  = (keys acc ++ first_occurrences (keys acc) (aliases items))%list.
Proof.
  induction items as [|[key value] items IH]; intros acc; cbn [scan_environ aliases].
  - cbn. now rewrite app_nil_r.
  - destruct value as [|c v]; [apply IH|].
    destruct (entry_alias key) as [alias|]; [|apply IH].
    rewrite IH. cbn [first_occurrences].
    destruct (existsb (String.eqb alias) (keys acc)) eqn:E.
    + apply existsb_eqb_In in E. now rewrite keys_dict_set_old.
    + apply existsb_eqb_not_In in E. rewrite dict_set_new by assumption.
      rewrite keys_app. cbn [keys map fst]. now rewrite <- app_assoc.
Qed.

Lemma first_occurrences_In a l : forall seen,
  In a l -> In a seen \/ In a (first_occurrences seen l).
Proof.
  induction l as [|b l IH]; intros seen H; [destruct H|]. cbn.
  destruct (existsb (String.eqb b) seen) eqn:E.
  - destruct H as [->|H]; [left; now apply existsb_eqb_In | now apply IH].
  - destruct H as [->|H]; [right; now left|].
    destruct (IH (seen ++ [b])%list H) as [H1|H1]; [|right; now right].
    apply in_app_or in H1. destruct H1 as [H1|[->|[]]]; [now left | right; now left].
Qed.

Lemma first_occurrences_incl a l : forall seen,
  In a (first_occurrences seen l) -> In a l.
Proof.
  induction l as [|b l IH]; intros seen; cbn; [tauto|].
  destruct (existsb _ seen); [intros H; right; eapply IH; eassumption|].
  intros [->|H]; [now left | right; eapply IH; eassumption].
Qed.

Lemma aliases_In items key value alias :
  In (key, value) items -> value <> "" -> entry_alias key = Some alias ->
  In alias (aliases items).
Proof.
  induction items as [|[k v] items IH]; intros Hin Hv Ha; [destruct Hin|].
  cbn [aliases]. destruct Hin as [[= -> ->]|Hin].
  - destruct value; [congruence|]. rewrite Ha. now left.
  - destruct v; [now apply IH|]. destruct (entry_alias k); [right|]; now apply IH.
Qed.

Lemma aliases_origin items alias :
  In alias (aliases items) -> exists key, entry_alias key = Some alias.
Proof.
  induction items as [|[k v] items IH]; cbn [aliases]; [intros []|].
  destruct v; [assumption|]. destruct (entry_alias k) as [a0|] eqn:E; [|assumption].
  intros [<-|H]; [now exists k | now apply IH].
Qed.

Lemma scan_skip_empty e1 e2 key : forall acc,
  scan_environ (e1 ++ (key, "") :: e2) acc = scan_environ (e1 ++ e2) acc.
Proof.
  induction e1 as [|[k v] e1 IH]; intros acc; cbn [app scan_environ]; [reflexivity|].
  destruct v; [apply IH|]. destruct (entry_alias k); apply IH.
Qed.

(** The two fixed names come after everything the loop found. *)
Lemma database_urls_fixed_last environ self :
  database_urls environ self = (scan_environ environ [] ++ fixed_entries self)%list.
Proof.
  unfold database_urls, fixed_entries.
  assert (Hscan : forall a, In a (keys (scan_environ environ [])) ->
                    a <> "montrg" /\ a <> "cmms").
  { intros a Ha. rewrite scan_keys in Ha. cbn in Ha.
    apply first_occurrences_incl, aliases_origin in Ha. destruct Ha as [key Hk].
    now apply (entry_alias_not_fixed key). }
  assert (Hm : ~ In "montrg" (keys (scan_environ environ [])))
    by (intros H; apply Hscan in H; tauto).
  assert (Hc : ~ In "cmms" (keys (scan_environ environ [])))
    by (intros H; apply Hscan in H; tauto).
  destruct (montrg_database_url self) as [[|c u]|];
    destruct (cmms_database_url self) as [[|c' u']|];
    cbn [app]; rewrite ?app_nil_r; try reflexivity;
    try (now rewrite dict_set_new by assumption).
  rewrite (dict_set_new (scan_environ environ []) "montrg") by assumption.
  rewrite dict_set_new.
  - now rewrite <- app_assoc.
  - rewrite keys_app. intros H. apply in_app_or in H.
    destruct H as [H|[H|[]]]; [contradiction | discriminate].
Qed.

(** C8, amended. Discovery matches the keys of the configuration in any
    case and every alias it produces is in lower case. A key
    IP<digits>_DATABASE_URL, BANB<digits>_DATABASE_URL or
    CTM<digits>_DATABASE_URL, in any case, gives ip<digits>,
    banb<digits> or ctm<digits>; a key CKP_<NAME>_DATABASE_URL whose
    suffix is in capitals and occurs at its end only gives ckp_<name>,
    whatever the case of [CKP_] and of the name. Every entry with such
    an alias and a value that is not empty is registered; an entry with
    an empty value changes nothing; the aliases stand in the order of
    their first entries, and the two fixed names, where configured,
    come last, the warehouse before the CMMS backend. *)
Theorem database_urls_discovery environ self :
  (forall alias, In alias (keys (database_urls environ self)) ->
     lower alias = alias) /\
  (forall pre ds suf,
     ds <> "" -> forall_chars is_decimal ds = true ->
     lower suf = "_database_url" ->
     (lower pre = "ip" -> entry_alias (pre ++ ds ++ suf) = Some ("ip" ++ ds)) /\
     (lower pre = "banb" -> entry_alias (pre ++ ds ++ suf) = Some ("banb" ++ ds)) /\
     (lower pre = "ctm" -> entry_alias (pre ++ ds ++ suf) = Some ("ctm" ++ ds))) /\
  (forall pre name,
     lower pre = "ckp_" -> only_at_end "_DATABASE_URL" (pre ++ name) ->
     entry_alias (pre ++ name ++ "_DATABASE_URL") = Some ("ckp_" ++ lower name)) /\
  (forall key value alias,
     In (key, value) environ -> value <> "" -> entry_alias key = Some alias ->
     In alias (keys (database_urls environ self))) /\
  (forall e1 e2 key,
     environ = (e1 ++ (key, "") :: e2)%list ->
     database_urls environ self = database_urls (e1 ++ e2) self) /\
  database_urls environ self
    = (scan_environ environ [] ++ fixed_entries self)%list /\
  keys (scan_environ environ []) = first_occurrences [] (aliases environ).
Proof.
  pose proof (database_urls_fixed_last environ self) as Hfix.
  pose proof (scan_keys environ []) as Hkeys. cbn [keys map app] in Hkeys.
  change (map fst (scan_environ environ [])) with (keys (scan_environ environ [])) in Hkeys.
  split; [|split; [|split; [|split; [|split; [|split]]]]].
  - intros alias Hin. rewrite Hfix, keys_app in Hin. apply in_app_or in Hin.
    destruct Hin as [Hin|Hin].
    + rewrite Hkeys in Hin. apply first_occurrences_incl, aliases_origin in Hin.
      destruct Hin as [key Hk]. now apply (entry_alias_lower key).
    + unfold fixed_entries in Hin.
      destruct (montrg_database_url self) as [[|c u]|];
        destruct (cmms_database_url self) as [[|c' u']|]; cbn in Hin;
        intuition (subst; reflexivity).
  - intros pre ds suf Hne Hd Hs. repeat split; intros Hp.
    + now apply entry_alias_ip.
    + now apply entry_alias_banb.
    + now apply entry_alias_ctm.
  - intros pre name Hp Hend. now apply entry_alias_ckp.
  - intros key value alias Hin Hv Ha. rewrite Hfix, keys_app. apply in_or_app. left.
    rewrite Hkeys.
    destruct (first_occurrences_In alias (aliases environ) []
                (aliases_In environ key value alias Hin Hv Ha)) as [[]|H].
    exact H.
  - intros e1 e2 key ->. unfold database_urls. now rewrite scan_skip_empty.
  - exact Hfix.
  - exact Hkeys.
Qed.

Lemma database_urls_discovery_witness :
  In "ckp_chiller"
    (keys (database_urls
             [("PATH", "/bin"); ("ip04_Database_Url", "mysql+aiomysql://h/a");
              ("Ckp_Chiller_DATABASE_URL", "postgresql+asyncpg://h/c")]
             (mk_settings (Some "postgresql+asyncpg://h/m") None))).
Proof.
  pose proof (database_urls_discovery
                [("PATH", "/bin"); ("ip04_Database_Url", "mysql+aiomysql://h/a");
                 ("Ckp_Chiller_DATABASE_URL", "postgresql+asyncpg://h/c")]
                (mk_settings (Some "postgresql+asyncpg://h/m") None))
    as (_ & _ & _ & H & _).
  apply (H "Ckp_Chiller_DATABASE_URL" "postgresql+asyncpg://h/c" "ckp_chiller").
  - cbn. auto.
  - discriminate.
  - reflexivity.
Defined.

(** C8 as stated fails on a value of white space only: it is not empty,
    and its entry is registered. *)
Lemma database_urls_keeps_blank_value :
  blank " " = true /\
  database_urls [("IP04_DATABASE_URL", " ")] (mk_settings None None)
  = [("ip04", " ")].
Proof. split; reflexivity. Qed.

Example discovery_order :
  database_urls
    [("IP12_DATABASE_URL", "u12"); ("CTM01_DATABASE_URL", ""); ("banb02_database_url", "b2");
     ("IP04_DATABASE_URL", "u4"); ("ip12_database_url", "again");
     ("CKP_CHILLER_DATABASE_URL", "c")]
    (mk_settings (Some "m") (Some "o"))
  = [("ip12", "again"); ("banb02", "b2"); ("ip04", "u4"); ("ckp_chiller", "c");
     ("montrg", "m"); ("cmms", "o")].
Proof. reflexivity. Qed.

(** The suffix is matched in any case and removed in capitals only. *)
Example discovery_ckp_lower_case_key :
  entry_alias "ckp_chiller_database_url" = Some "ckp_chiller_database_url".
Proof. reflexivity. Qed.

End DiscoveryFacts.

(** ** Digits and tokens *)

Module TokenFacts.
Import PyStr Calendar Strptime CaseFacts.

Lemma digit_char_facts k :
  0 <= k <= 9 ->
  is_decimal (digit_char k) = true /\ digit_val (digit_char k) = k /\
  isspace_char (digit_char k) = false /\
  (forall c, is_decimal c = false -> Ascii.eqb c (digit_char k) = false).
Proof.
  intros [Hl Hu].
  assert (Hc : k = 0 \/ k = 1 \/ k = 2 \/ k = 3 \/ k = 4 \/ k = 5 \/ k = 6 \/
               k = 7 \/ k = 8 \/ k = 9) by lia.
  assert (Hne : forall c d, is_decimal d = true -> is_decimal c = false ->
                  Ascii.eqb c d = false).
  { intros c d Hd Hcd. destruct (Ascii.eqb_spec c d); [congruence | reflexivity]. }
  repeat (destruct Hc as [-> | Hc]); try subst k;
    (split; [reflexivity | split; [reflexivity | split; [reflexivity |]]]);
    intros c; apply Hne; reflexivity.
Qed.

Lemma pad2_digits n :
  0 <= n <= 99 -> 0 <= n / 10 <= 9 /\ 0 <= n mod 10 <= 9.
Proof. intros. zdiv. Qed.

Lemma pad4_digits n :
  0 <= n <= 9999 ->
  0 <= n / 1000 <= 9 /\ 0 <= n / 100 mod 10 <= 9 /\
  0 <= n / 10 mod 10 <= 9 /\ 0 <= n mod 10 <= 9.
Proof. intros. zdiv. Qed.

Lemma forall_chars_app p a b :
  forall_chars p (a ++ b) = forall_chars p a && forall_chars p b.
Proof.
  induction a as [|c a IH]; cbn; [reflexivity|]. now rewrite IH, andb_assoc.
Qed.

Lemma contains_char_app c a b :
  contains_char c (a ++ b) = contains_char c a || contains_char c b.
Proof.
  induction a as [|x a IH]; cbn; [reflexivity|]. now rewrite IH, orb_assoc.
Qed.

Lemma count_char_app c a b :
  count_char c (a ++ b) = count_char c a + count_char c b.
Proof. induction a as [|x a IH]; cbn; [reflexivity|]. rewrite IH. lia. Qed.

Lemma pad2_decimal n : 0 <= n <= 99 -> forall_chars is_decimal (pad2 n) = true.
Proof.
  intros H. destruct (pad2_digits n H) as [H1 H2].
  destruct (digit_char_facts _ H1) as (E1 & _), (digit_char_facts _ H2) as (E2 & _).
  unfold pad2. cbn. now rewrite E1, E2.
Qed.

Lemma pad4_decimal n : 0 <= n <= 9999 -> forall_chars is_decimal (pad4 n) = true.
Proof.
  intros H. destruct (pad4_digits n H) as (H1 & H2 & H3 & H4).
  destruct (digit_char_facts _ H1) as (E1 & _), (digit_char_facts _ H2) as (E2 & _),
    (digit_char_facts _ H3) as (E3 & _), (digit_char_facts _ H4) as (E4 & _).
  unfold pad4. cbn. now rewrite E1, E2, E3, E4.
Qed.

(** A string of decimal digits has no other character. *)
Lemma decimal_contains c s :
  is_decimal c = false -> forall_chars is_decimal s = true -> contains_char c s = false.
Proof.
  intros Hc. induction s as [|d s IH]; cbn; [reflexivity|].
  intros H. apply andb_true_iff in H. destruct H as [H1 H2].
  rewrite (IH H2), orb_false_r.
  destruct (Ascii.eqb_spec c d); [congruence | reflexivity].
Qed.

Lemma not_contains_count c s : contains_char c s = false -> count_char c s = 0.
Proof.
  induction s as [|d s IH]; cbn; [reflexivity|].
  intros H. apply orb_false_iff in H. destruct H as [H1 H2].
  rewrite H1, (IH H2). reflexivity.
Qed.

Lemma not_contains_replace c new s :
  contains_char c s = false -> replace_char c new s = s.
Proof.
  induction s as [|d s IH]; cbn; [reflexivity|].
  intros H. apply orb_false_iff in H. destruct H as [H1 H2].
  now rewrite H1, (IH H2).
Qed.




(** The year of four digits is read back. *)
Lemma four_pad4 y rest :
  0 <= y <= 9999 -> four (pad4 y ++ rest) = [(y, rest)].
Proof.
  intros H. destruct (pad4_digits y H) as (H1 & H2 & H3 & H4).
  destruct (digit_char_facts _ H1) as (E1 & V1 & _),
    (digit_char_facts _ H2) as (E2 & V2 & _),
    (digit_char_facts _ H3) as (E3 & V3 & _),
    (digit_char_facts _ H4) as (E4 & V4 & _).
  unfold pad4. cbn [append four]. rewrite E1, E2, E3, E4, V1, V2, V3, V4.
  cbn [andb]. f_equal. f_equal. zdiv.
Qed.

End TokenFacts.

(** ** Matching the formats *)

Module StrptimeFacts.
Import PyStr Calendar Strptime CaseFacts TokenFacts CalendarFacts.

(** A property of every number of a range, from the list of the
    range. *)
Lemma range_Forall (P : Z -> Prop) lo n :
  Forall P (zrange lo n) -> forall k, lo <= k < lo + Z.of_nat n -> P k.
Proof.
  intros H k Hk. rewrite Forall_forall in H. apply H. now apply in_zrange.
Qed.

Ltac by_range lo n :=
  intros;
  match goal with
  | |- ?G =>
      match G with
      | context [pad2 ?k] =>
          pattern k;
          apply (range_Forall _ lo n); [|lia];
          let l := eval vm_compute in (zrange lo n) in
          change (zrange lo n) with l;
          repeat (constructor; [eexists; reflexivity|]); constructor
      end
  end.

(** The first way each directive matches two digits of a value it
    admits. *)
Lemma directive_m m rest :
  1 <= m <= 12 ->
  exists tl, directive "m" (pad2 m ++ rest) = Some ((m, rest) :: tl).
Proof. by_range 1 12%nat. Qed.

Lemma directive_d d rest :
  1 <= d <= 31 ->
  exists tl, directive "d" (pad2 d ++ rest) = Some ((d, rest) :: tl).
Proof. by_range 1 31%nat. Qed.

Lemma directive_H h rest :
  0 <= h <= 23 ->
  exists tl, directive "H" (pad2 h ++ rest) = Some ((h, rest) :: tl).
Proof. by_range 0 24%nat. Qed.

Lemma directive_M mi rest :
  0 <= mi <= 59 ->
  exists tl, directive "M" (pad2 mi ++ rest) = Some ((mi, rest) :: tl).
Proof. by_range 0 60%nat. Qed.

Lemma directive_S s rest :
  0 <= s <= 59 ->
  exists tl, directive "S" (pad2 s ++ rest) = Some ((s, rest) :: tl).
Proof. by_range 0 60%nat. Qed.

Lemma first_is_app {A : Type} (l l' : list A) a : first_is l a -> first_is (l ++ l') a.
Proof. intros [tl ->]. now exists (tl ++ l')%list. Qed.

Lemma re_match_nil s f : first_is (re_match [] s f) (f, s).
Proof. now exists []. Qed.

Lemma re_match_lit c its rest f a :
  first_is (re_match its rest f) a ->
  first_is (re_match (Lit c :: its) (String c rest) f) a.
Proof. intros H. cbn [re_match]. now rewrite Ascii.eqb_refl. Qed.

Lemma re_match_dir x its s f v r tl a :
  directive x s = Some ((v, r) :: tl) ->
  first_is (re_match its r (set_field x v f)) a ->
  first_is (re_match (Dir x :: its) s f) a.
Proof.
  intros Hd H. cbn [re_match]. rewrite Hd. cbn [flat_map fst snd].
  now apply first_is_app.
Qed.

Lemma re_match_Y its y rest f a :
  0 <= y <= 9999 ->
  first_is (re_match its rest (set_field "Y" y f)) a ->
  first_is (re_match (Dir "Y" :: its) (pad4 y ++ rest) f) a.
Proof.
  intros Hy H. apply (re_match_dir "Y" its _ f y rest []); [|assumption].
  unfold directive. cbn [Ascii.eqb Bool.eqb]. now rewrite four_pad4.
Qed.

Lemma re_match_space its c rest f a :
  isspace_char c = false ->
  first_is (re_match its (String c rest) f) a ->
  first_is (re_match (Spaces :: its) (String " " (String c rest)) f) a.
Proof.
  intros Hc H. cbn [re_match space_splits]. rewrite Hc.
  replace (isspace_char " ") with true by reflexivity.
  cbn [app flat_map]. now apply first_is_app.
Qed.

End StrptimeFacts.

(** ** [strptime] on the tokens *)

Module StrptimeTokens.
Import PyStr Calendar Strptime BanburyAnomalyDetection.
Import CaseFacts TokenFacts CalendarFacts StrptimeFacts.

Lemma new_datetime_value_error y m d h mi s us z e :
  new_datetime y m d h mi s us z = Raise e -> exists msg, e = ValueError msg.
Proof.
  unfold new_datetime, check_date_fields, check_time_fields.
  destruct (negb _); [cbn; intros [= <-]; eauto|].
  destruct (negb _); [cbn; intros [= <-]; eauto|].
  destruct (negb _); [cbn; intros [= <-]; eauto|].
  cbn [bind]. destruct (_ && _); cbn; [discriminate | intros [= <-]; eauto].
Qed.

(** Every failure of [strptime] is a [ValueError]. *)
Lemma strptime_value_error s fmt e :
  strptime s fmt = Raise e -> exists msg, e = ValueError msg.
Proof.
  unfold strptime. destruct (re_match _ _ _) as [|[f rest] tl]; [intros [= <-]; eauto|].
  destruct rest; [|intros [= <-]; eauto]. apply new_datetime_value_error.
Qed.

Lemma attempt_strptime s fmt :
  attempt (strptime s fmt) = Ok (match strptime s fmt with Ok d => Some d | Raise _ => None end).
Proof.
  destruct (strptime s fmt) as [d|e] eqn:E; [reflexivity|].
  destruct (strptime_value_error s fmt e E) as [msg ->]. reflexivity.
Qed.

Lemma strptime_first s fmt y m d h mi sec :
  first_is (re_match (items_of false fmt) s no_fields)
    (mk_fields (Some y) m d h mi sec, "") ->
  strptime s fmt = new_datetime y m d h mi sec 0 None.
Proof. intros [tl H]. unfold strptime. rewrite H. reflexivity. Qed.

Lemma re_match_space_pad its h rest f a :
  0 <= h <= 99 ->
  first_is (re_match its (pad2 h ++ rest) f) a ->
  first_is (re_match (Spaces :: its) (String " " (pad2 h ++ rest)) f) a.
Proof.
  intros Hh. destruct (pad2_digits h Hh) as [H1 _].
  destruct (digit_char_facts _ H1) as (_ & _ & Hs & _).
  unfold pad2. cbn [append]. now apply re_match_space.
Qed.

(** One step of a match along a token. *)
Ltac step :=
  match goal with
  | |- first_is (re_match [] _ _) _ => exact (re_match_nil _ _)
  | |- first_is (re_match (Lit _ :: _) _ _) _ => apply re_match_lit
  | |- first_is (re_match (Spaces :: _) _ _) _ => apply re_match_space_pad; [lia|]
  | |- first_is (re_match (Dir "Y" :: _) _ _) _ => apply re_match_Y; [lia|]
  | |- first_is (re_match (Dir "m" :: _) (pad2 ?v ++ ?r) _) _ =>
      let tl := fresh "tl" in let Hd := fresh "Hd" in
      destruct (directive_m v r ltac:(lia)) as [tl Hd];
      eapply re_match_dir; [exact Hd|]
  | |- first_is (re_match (Dir "d" :: _) (pad2 ?v ++ ?r) _) _ =>
      let tl := fresh "tl" in let Hd := fresh "Hd" in
      destruct (directive_d v r ltac:(lia)) as [tl Hd];
      eapply re_match_dir; [exact Hd|]
  | |- first_is (re_match (Dir "H" :: _) (pad2 ?v ++ ?r) _) _ =>
      let tl := fresh "tl" in let Hd := fresh "Hd" in
      destruct (directive_H v r ltac:(lia)) as [tl Hd];
      eapply re_match_dir; [exact Hd|]
  | |- first_is (re_match (Dir "M" :: _) (pad2 ?v ++ ?r) _) _ =>
      let tl := fresh "tl" in let Hd := fresh "Hd" in
      destruct (directive_M v r ltac:(lia)) as [tl Hd];
      eapply re_match_dir; [exact Hd|]
  | |- first_is (re_match (Dir "S" :: _) (pad2 ?v ++ ?r) _) _ =>
      let tl := fresh "tl" in let Hd := fresh "Hd" in
      destruct (directive_S v r ltac:(lia)) as [tl Hd];
      eapply re_match_dir; [exact Hd|]
  end.

(** The items of a format. *)
Ltac items :=
  match goal with
  | |- context [items_of false ?fmt] =>
      let l := eval vm_compute in (items_of false fmt) in
      change (items_of false fmt) with l
  end.

(** The tokens as chains of their pieces, the last piece followed by the
    empty string. *)
Ltac chain :=
  unfold key_second, key_minute, key_y_m_d, key_ymd, key_y_m, key_ym;
  rewrite ?append_assoc; cbn [append];
  match goal with
  | |- context [pad2 ?v] =>
      match goal with
      | |- context [pad2 v ++ _] => fail 1
      | _ => rewrite <- (append_nil (pad2 v))
      end
  | _ => idtac
  end.


Lemma strptime_ymd y m d :
  0 <= y <= 9999 -> 1 <= m <= 12 -> 1 <= d <= 31 ->
  strptime (key_ymd y m d) "%Y%m%d" = new_datetime y m d 0 0 0 0 None.
Proof. intros. apply strptime_first. chain. items. repeat step. Qed.



Lemma strptime_minute y m d h mi :
  0 <= y <= 9999 -> 1 <= m <= 12 -> 1 <= d <= 31 -> 0 <= h <= 23 -> 0 <= mi <= 59 ->
  strptime (key_minute y m d h mi) "%Y-%m-%d %H:%M" = new_datetime y m d h mi 0 0 None.
Proof. intros. apply strptime_first. chain. items. repeat step. Qed.

Lemma strptime_second y m d h mi s :
  0 <= y <= 9999 -> 1 <= m <= 12 -> 1 <= d <= 31 -> 0 <= h <= 23 -> 0 <= mi <= 59 ->
  0 <= s <= 59 ->
  strptime (key_second y m d h mi s) "%Y-%m-%d %H:%M:%S"
  = new_datetime y m d h mi s 0 None.
Proof. intros. apply strptime_first. chain. items. repeat step. Qed.

(** The compact format does not match a token with dashes. *)
Lemma strptime_second_compact y m d h mi s :
  0 <= y <= 9999 ->
  strptime (key_second y m d h mi s) "%Y%m%d %H:%M:%S" = Raise (ValueError no_match_msg).
Proof.
  intros Hy. unfold strptime.
  replace (re_match _ _ _) with (@nil (fields * string)); [reflexivity|].
  chain. symmetry.
  items.
  cbn [re_match]. unfold directive at 1. cbn [Ascii.eqb Bool.eqb].
  rewrite four_pad4 by assumption. cbn [flat_map fst snd]. rewrite app_nil_r.
  unfold pad2 at 1. cbn [append re_match]. reflexivity.
Qed.

End StrptimeTokens.

(** ** What the parser sees of a token *)

Module TokenShape.
Import PyStr Calendar Strptime BanburyAnomalyDetection.
Import CaseFacts TokenFacts StrptimeFacts StrptimeTokens.

Lemma pad2_count c n :
  is_decimal c = false -> 0 <= n <= 99 ->
  count_char c (pad2 n) = 0 /\ contains_char c (pad2 n) = false.
Proof.
  intros Hc Hn. pose proof (decimal_contains c _ Hc (pad2_decimal n Hn)) as H.
  split; [now apply not_contains_count | assumption].
Qed.

Lemma pad4_count c n :
  is_decimal c = false -> 0 <= n <= 9999 ->
  count_char c (pad4 n) = 0 /\ contains_char c (pad4 n) = false.
Proof.
  intros Hc Hn. pose proof (decimal_contains c _ Hc (pad4_decimal n Hn)) as H.
  split; [now apply not_contains_count | assumption].
Qed.

Lemma rstrip_app a b : b <> "" -> rstrip b = b -> rstrip (a ++ b) = a ++ b.
Proof.
  intros Hne Hb. induction a as [|c a IH]; cbn; [assumption|].
  rewrite IH. destruct (a ++ b) eqn:E; [|reflexivity].
  destruct a; cbn in E; [congruence | discriminate].
Qed.

Lemma rstrip_cons c b : b <> "" -> rstrip b = b -> rstrip (String c b) = String c b.
Proof. intros Hne Hb. apply (rstrip_app (String c "") b Hne Hb). Qed.

Lemma rstrip_pad2 n : 0 <= n <= 99 -> pad2 n ++ "" <> "" /\ rstrip (pad2 n ++ "") = pad2 n ++ "".
Proof.
  intros Hn. destruct (pad2_digits n Hn) as [_ H2].
  destruct (digit_char_facts _ H2) as (_ & _ & Hs & _).
  unfold pad2. cbn [append rstrip]. rewrite Hs. split; [discriminate | reflexivity].
Qed.

Lemma app_not_nil a b : b <> "" -> a ++ b <> "".
Proof. intros H. destruct a; cbn; [assumption | discriminate]. Qed.

Lemma lstrip_pad4 y rest :
  0 <= y <= 9999 -> lstrip (pad4 y ++ rest) = pad4 y ++ rest.
Proof.
  intros Hy. destruct (pad4_digits y Hy) as (H1 & _).
  destruct (digit_char_facts _ H1) as (_ & _ & Hs & _).
  unfold pad4. cbn [append lstrip]. now rewrite Hs.
Qed.

(** A token is its own stripped form. *)
Ltac nonnil :=
  first [ discriminate
        | apply rstrip_pad2; lia
        | apply app_not_nil; nonnil ].

Ltac tight :=
  unfold strip; chain; rewrite lstrip_pad4 by lia;
  repeat first
    [ apply rstrip_pad2; lia
    | apply rstrip_app; [nonnil|]
    | apply rstrip_cons; [nonnil|] ].

(** The counts of a character that is no digit, piece by piece. *)
Ltac pieces :=
  chain;
  repeat (rewrite ?count_char_app, ?contains_char_app, ?forall_chars_app;
          cbn [count_char contains_char forall_chars Ascii.eqb Bool.eqb]);
  repeat match goal with
         | |- context [count_char ?c (pad2 ?n)] =>
             rewrite (proj1 (pad2_count c n eq_refl ltac:(lia)))
         | |- context [count_char ?c (pad4 ?n)] =>
             rewrite (proj1 (pad4_count c n eq_refl ltac:(lia)))
         | |- context [contains_char ?c (pad2 ?n)] =>
             rewrite (proj2 (pad2_count c n eq_refl ltac:(lia)))
         | |- context [contains_char ?c (pad4 ?n)] =>
             rewrite (proj2 (pad4_count c n eq_refl ltac:(lia)))
         | |- context [forall_chars is_decimal (pad2 ?n)] =>
             rewrite (pad2_decimal n ltac:(lia))
         | |- context [forall_chars is_decimal (pad4 ?n)] =>
             rewrite (pad4_decimal n ltac:(lia))
         end;
  try reflexivity.

Section Tokens.
Variables y m d h mi s : Z.
Hypothesis Hy : 0 <= y <= 9999.
Hypothesis Hm : 0 <= m <= 99.
Hypothesis Hd : 0 <= d <= 99.
Hypothesis Hh : 0 <= h <= 99.
Hypothesis Hmi : 0 <= mi <= 99.
Hypothesis Hs : 0 <= s <= 99.

Lemma strip_ymd : strip (key_ymd y m d) = key_ymd y m d.
Proof. tight. Qed.
Lemma strip_minute : strip (key_minute y m d h mi) = key_minute y m d h mi.
Proof. tight. Qed.
Lemma strip_second : strip (key_second y m d h mi s) = key_second y m d h mi s.
Proof. tight. Qed.

Lemma no_Z_minute : contains_char "Z" (key_minute y m d h mi) = false.
Proof. pieces. Qed.
Lemma no_Z_second : contains_char "Z" (key_second y m d h mi s) = false.
Proof. pieces. Qed.

Lemma isdigit_ymd : isdigit (key_ymd y m d) = true.
Proof. apply PyStrFacts.decimal_isdigit; [discriminate | pieces]. Qed.


Lemma shape_minute :
  contains_char " " (key_minute y m d h mi) = true /\
  contains_char ":" (key_minute y m d h mi) = true /\
  contains_char "-" (slice 0 10 (key_minute y m d h mi)) = true /\
  count_char "-" (key_minute y m d h mi) = 2 /\
  count_char ":" (key_minute y m d h mi) = 1.
Proof.
  change (slice 0 10 (key_minute y m d h mi)) with (key_y_m_d y m d).
  repeat split; pieces.
Qed.

Lemma shape_second :
  contains_char " " (key_second y m d h mi s) = true /\
  contains_char ":" (key_second y m d h mi s) = true /\
  count_char "-" (key_second y m d h mi s) = 2 /\
  count_char ":" (key_second y m d h mi s) = 2.
Proof. repeat split; pieces. Qed.

End Tokens.
End TokenShape.

(** ** The parser of cycle-start dates *)

Module CycleStartFacts.
Import PyStr Calendar Strptime BanburyAnomalyDetection.
Import CaseFacts TokenFacts CalendarFacts StrptimeFacts StrptimeTokens TokenShape.

Lemma new_datetime_ok y m d h mi s z :
  valid_date y m d -> 0 <= h <= 23 -> 0 <= mi <= 59 -> 0 <= s <= 59 ->
  new_datetime y m d h mi s 0 z = Ok (mk_datetime y m d h mi s 0 z).
Proof.
  intros (Hy & Hm & Hd) Hh Hmi Hs. unfold new_datetime, check_date_fields, check_time_fields.
  replace ((MINYEAR <=? y) && (y <=? MAXYEAR)) with true
    by (symmetry; apply andb_true_iff; split; apply Z.leb_le; lia).
  replace ((1 <=? m) && (m <=? 12)) with true
    by (symmetry; apply andb_true_iff; split; apply Z.leb_le; lia).
  replace ((1 <=? d) && (d <=? _days_in_month y m)) with true
    by (symmetry; apply andb_true_iff; split; apply Z.leb_le; lia).
  cbn [negb bind].
  replace (0 <=? h) with true by (symmetry; apply Z.leb_le; lia).
  replace (h <=? 23) with true by (symmetry; apply Z.leb_le; lia).
  replace (0 <=? mi) with true by (symmetry; apply Z.leb_le; lia).
  replace (mi <=? 59) with true by (symmetry; apply Z.leb_le; lia).
  replace (0 <=? s) with true by (symmetry; apply Z.leb_le; lia).
  replace (s <=? 59) with true by (symmetry; apply Z.leb_le; lia).
  reflexivity.
Qed.

Lemma new_datetime_tz y m d h mi s us z dt :
  new_datetime y m d h mi s us z = Ok dt -> tzinfo dt = z.
Proof.
  unfold new_datetime. destruct (check_date_fields y m d); [|discriminate].
  cbn [bind]. destruct (check_time_fields h mi s us); [|discriminate].
  cbn [bind]. now intros [= <-].
Qed.

Lemma valid_date_bounds y m d :
  valid_date y m d -> 0 <= y <= 9999 /\ 1 <= m <= 12 /\ 1 <= d <= 31.
Proof.
  intros (Hy & Hm & Hd). unfold MINYEAR, MAXYEAR, _days_in_month in *.
  pose proof (month_length_pos (_is_leap y) m). lia.
Qed.

(** One branch of the parser: a guard, an attempt under [try], what is
    returned on success and what follows otherwise. *)
Lemma branch_ok {A} (g : bool) (a : result A) (k : A -> result datetime)
    (rest : result datetime) dt :
  (let* r := (if g then attempt a else Ok None) in
   match r with Some d => k d | None => rest end) = Ok dt ->
  (exists d, a = Ok d /\ k d = Ok dt) \/ rest = Ok dt.
Proof.
  destruct g; cbn [bind]; [|now right].
  destruct a as [d|[msg|msg|msg]]; cbn [attempt bind]; try discriminate; eauto.
Qed.


Section Iso.
Variable fromisoformat : string -> option datetime.
Local Abbreviation parse := (_parse_cycle_start_date fromisoformat).

(** What ISO-8601 reads is returned, in its own zone if it has one. *)
Lemma parse_iso s iso :
  fromisoformat (iso_arg s) = Some iso ->
  parse s = Ok (match tzinfo iso with
                | None => in_default_tz iso
                | Some _ => iso
                end).
Proof. intros H. unfold _parse_cycle_start_date. fold (iso_arg s). now rewrite H. Qed.

(** The zone of every instant the parser returns. *)
Lemma parse_zone s dt :
  parse s = Ok dt ->
  tzinfo dt = Some DEFAULT_TZ \/
  exists iso z, fromisoformat (iso_arg s) = Some iso /\ tzinfo iso = Some z /\ dt = iso.
Proof.
  unfold _parse_cycle_start_date. fold (iso_arg s).
  destruct (fromisoformat (iso_arg s)) as [iso|].
  - intros [= <-]. destruct (tzinfo iso) as [z|] eqn:Ez; [right; eauto | now left].
  - intros H. left.
    repeat (apply branch_ok in H;
            destruct H as [(d & _ & H)|H]; [injection H as <-; reflexivity|]).
    repeat (apply branch_ok in H; destruct H as [(d & Ha & H)|H];
            [injection H as <-;
             match type of Ha with
             | bind ?r _ = _ => destruct r; [cbn [bind] in Ha|discriminate]
             end;
             now apply new_datetime_tz in Ha|]).
    discriminate.
Qed.


End Iso.
End CycleStartFacts.

(** ** The parser on the tokens *)

Module CycleStartTokens.
Import PyStr Calendar Strptime BanburyAnomalyDetection.
Import CaseFacts TokenFacts CalendarFacts StrptimeFacts StrptimeTokens TokenShape.
Import CycleStartFacts.

Section Iso.
Variable fromisoformat : string -> option datetime.
Local Abbreviation parse := (_parse_cycle_start_date fromisoformat).





Lemma parse_minute y m d h mi :
  valid_date y m d -> 0 <= h <= 23 -> 0 <= mi <= 59 ->
  reads_as fromisoformat (key_minute y m d h mi) (naive y m d h mi 0) ->
  parse (key_minute y m d h mi) = Ok (local y m d h mi 0).
Proof.
  intros Hv Hh Hmi Hread. destruct (valid_date_bounds y m d Hv) as (Hy & Hm & Hd).
  unfold _parse_cycle_start_date.
  rewrite strip_minute by lia.
  rewrite (not_contains_replace "Z" "+00:00" _
             (no_Z_minute y m d h mi ltac:(lia) ltac:(lia) ltac:(lia) ltac:(lia) ltac:(lia))).
  destruct Hread as [Hread|Hread]; rewrite Hread; [|reflexivity].
  destruct (shape_minute y m d h mi ltac:(lia) ltac:(lia) ltac:(lia) ltac:(lia) ltac:(lia))
    as (S1 & S2 & S3 & S4 & S5).
  change (len (key_minute y m d h mi)) with 16.
  rewrite S1, S2, S3, S4, S5.
  cbn [Z.eqb Pos.eqb andb negb bind].
  rewrite strptime_minute by lia.
  rewrite (new_datetime_ok y m d h mi 0 None) by (assumption || lia).
  reflexivity.
Qed.

Lemma parse_second y m d h mi s :
  valid_date y m d -> 0 <= h <= 23 -> 0 <= mi <= 59 -> 0 <= s <= 59 ->
  reads_as fromisoformat (key_second y m d h mi s) (naive y m d h mi s) ->
  parse (key_second y m d h mi s) = Ok (local y m d h mi s).
Proof.
  intros Hv Hh Hmi Hs Hread. destruct (valid_date_bounds y m d Hv) as (Hy & Hm & Hd).
  unfold _parse_cycle_start_date.
  rewrite strip_second by lia.
  rewrite (not_contains_replace "Z" "+00:00" _
             (no_Z_second y m d h mi s ltac:(lia) ltac:(lia) ltac:(lia) ltac:(lia)
                ltac:(lia) ltac:(lia))).
  destruct Hread as [Hread|Hread]; rewrite Hread; [|reflexivity].
  destruct (shape_second y m d h mi s ltac:(lia) ltac:(lia) ltac:(lia) ltac:(lia)
              ltac:(lia) ltac:(lia)) as (S1 & S2 & S3 & S4).
  change (len (key_second y m d h mi s)) with 19.
  rewrite S1, S2, S3, S4.
  cbn [Z.eqb Pos.eqb andb negb bind].
  rewrite strptime_second_compact by lia. cbn [attempt bind].
  rewrite strptime_second by lia.
  rewrite (new_datetime_ok y m d h mi s None) by (assumption || lia).
  reflexivity.
Qed.

End Iso.
End CycleStartTokens.

(** ** Timestamps and their zone *)

Module TimestampZone.
Import PyStr Calendar Strptime BanburyAnomalyDetection.
Import CycleStartFacts CycleStartTokens.

(** C10. The parser of human-entered timestamps returns what ISO-8601
    reads of the token, with the offset the token carries; it accepts
    the tokens with an HH:MM and with an HH:MM:SS suffix; and every
    instant it returns without an offset of its own from the token,
    whatever its granularity, is in the fixed local zone Asia/Seoul:
    none is naive and none is in UTC by default. *)
Theorem parse_cycle_start_zone (fromisoformat : string -> option datetime) :
  (forall s iso, fromisoformat (iso_arg s) = Some iso ->
     _parse_cycle_start_date fromisoformat s =
     Ok (match tzinfo iso with None => in_default_tz iso | Some _ => iso end)) /\
  (forall s dt, _parse_cycle_start_date fromisoformat s = Ok dt ->
     tzinfo dt = Some DEFAULT_TZ \/
     exists iso z, fromisoformat (iso_arg s) = Some iso /\
                   tzinfo iso = Some z /\ dt = iso) /\
  (forall y m d h mi,
     valid_date y m d -> 0 <= h <= 23 -> 0 <= mi <= 59 ->
     reads_as fromisoformat (key_minute y m d h mi) (naive y m d h mi 0) ->
     _parse_cycle_start_date fromisoformat (key_minute y m d h mi)
     = Ok (local y m d h mi 0)) /\
  (forall y m d h mi s,
     valid_date y m d -> 0 <= h <= 23 -> 0 <= mi <= 59 -> 0 <= s <= 59 ->
     reads_as fromisoformat (key_second y m d h mi s) (naive y m d h mi s) ->
     _parse_cycle_start_date fromisoformat (key_second y m d h mi s)
     = Ok (local y m d h mi s)) /\
  DEFAULT_TZ = ZoneInfo "Asia/Seoul".
Proof.
  split; [|split; [|split; [|split]]].
  - apply parse_iso.
  - apply parse_zone.
  - apply parse_minute.
  - apply parse_second.
  - reflexivity.
Qed.

Lemma parse_cycle_start_zone_witness :
  _parse_cycle_start_date fromisoformat_common "2024-12-05 14:30:00"
  = Ok (local 2024 12 5 14 30 0).
Proof.
  pose proof (parse_cycle_start_zone fromisoformat_common) as (_ & _ & _ & H & _).
  apply (H 2024 12 5 14 30 0).
  - cbv. repeat split; discriminate.
  - lia.
  - lia.
  - lia.
  - right. reflexivity.
Defined.

Example parse_with_offset :
  _parse_cycle_start_date fromisoformat_common "2024-12-05T14:30:00+09:00"
  = Ok (mk_datetime 2024 12 5 14 30 0 0 (Some (FixedOffset 32400))).
Proof. reflexivity. Qed.

Example parse_with_Z :
  _parse_cycle_start_date fromisoformat_common "2024-12-05T05:30:00Z"
  = Ok (mk_datetime 2024 12 5 5 30 0 0 (Some (FixedOffset 0))).
Proof. reflexivity. Qed.

Example parse_minute_without_iso :
  _parse_cycle_start_date (fun _ => None) " 2024-12-05 14:30 "
  = Ok (local 2024 12 5 14 30 0).
Proof. reflexivity. Qed.

(** The range of the cycle-start module makes no check of its
    bounds. *)
Example cycle_start_range_unchecked :
  _resolve_cycle_start_range fromisoformat_common (Some "2024-12-05") (Some "2024-12-04")
  = Ok (Some (local 2024 12 5 0 0 0), Some (local 2024 12 5 0 0 0)).
Proof. reflexivity. Qed.

(** The parser of device histories returns naive instants, and its
    guards on the length leave out the timestamp of its own
    documentation. *)
Example chiller_parse_naive :
  ChillerStatus._parse_date_string "20241205" = Ok (naive 2024 12 5 0 0 0) /\
  ChillerStatus._parse_date_string "20241205 14:30:00"
  = Raise (ValueError (ChillerStatus.invalid_format_msg "20241205 14:30:00")).
Proof. split; reflexivity. Qed.

End TimestampZone.

(** ** The shapes of date keys *)

Module DateKeyShapes.
Import PyStr Calendar Strptime BanbData BanburyAnomalyDetection.
Import PyStrFacts TokenFacts StrptimeTokens BanbDataFacts CycleStartFacts CycleStartTokens.








Section Iso.
Variable fromisoformat : string -> option datetime.
Local Abbreviation parse := (_parse_cycle_start_date fromisoformat).
Local Abbreviation range := (_resolve_cycle_start_range fromisoformat).




End Iso.



Example resolve_range_cycle_start_month :
  _resolve_cycle_start_range fromisoformat_common (Some "2024-12") (Some "2024-12")
  = Ok (Some (local 2024 12 1 0 0 0), Some (local 2025 1 1 0 0 0)).
Proof. reflexivity. Qed.

(** An admitted shape can still fail, with the error of the value. *)
Example resolve_month_13 :
  _resolve_date_key "202413" = Raise (ValueError month_msg).
Proof. reflexivity. Qed.

End DateKeyShapes.

(** ** White space at the ends of a string *)

Module StripFacts.
Import PyStr.

Lemma lstrip_tight s : tight_head (lstrip s).
Proof.
  induction s as [|c s IH]; cbn; [exact I|].
  destruct (isspace_char c) eqn:E; [assumption | exact E].
Qed.

Lemma lstrip_of_tight s : tight_head s -> lstrip s = s.
Proof. destruct s as [|c s]; cbn; [reflexivity|]. now intros ->. Qed.

Lemma rstrip_tight s : tight_head s -> tight_head (rstrip s).
Proof.
  destruct s as [|c s]; cbn; [auto|]. intros Hc.
  destruct (rstrip s); [rewrite Hc|]; exact Hc.
Qed.

Lemma rstrip_idem s : rstrip (rstrip s) = rstrip s.
Proof.
  induction s as [|c s IH]; [reflexivity|]. cbn [rstrip].
  destruct (rstrip s) as [|a r] eqn:E.
  - destruct (isspace_char c) eqn:Ec; [reflexivity|]. cbn. now rewrite Ec.
  - change (rstrip (String c (String a r))) with
      (match rstrip (String a r) with
       | EmptyString => if isspace_char c then EmptyString else String c EmptyString
       | r' => String c r'
       end).
    now rewrite IH.
Qed.

(** [strip] is idempotent. *)
Lemma strip_idem s : strip (strip s) = strip s.
Proof.
  unfold strip.
  rewrite (lstrip_of_tight (rstrip (lstrip s))) by (apply rstrip_tight, lstrip_tight).
  apply rstrip_idem.
Qed.

Lemma rstrip_nil_inv s : rstrip s = "" -> forall_chars isspace_char s = true.
Proof.
  induction s as [|c s IH]; [reflexivity|]. cbn.
  destruct (rstrip s); [|discriminate].
  destruct (isspace_char c); [intros _; now apply IH | discriminate].
Qed.

Lemma length_rstrip s : (String.length (rstrip s) <= String.length s)%nat.
Proof.
  induction s as [|c s IH]; cbn; [lia|].
  destruct (rstrip s); [destruct (isspace_char c)|]; cbn in *; lia.
Qed.

Lemma length_lstrip s : (String.length (lstrip s) <= String.length s)%nat.
Proof.
  induction s as [|c s IH]; cbn; [lia|].
  destruct (isspace_char c); cbn; lia.
Qed.

(** Stripping never makes a string longer. *)
Lemma length_strip s : (String.length (strip s) <= String.length s)%nat.
Proof.
  unfold strip. pose proof (length_rstrip (lstrip s)). pose proof (length_lstrip s). lia.
Qed.

Lemma strip_nonempty s : strip s <> "" -> s <> "".
Proof. intros H ->. now apply H. Qed.

End StripFacts.

(** ** The parser of device histories on the keys of periods *)

Module ChillerParse.
Import PyStr Calendar Strptime BanbData DateKeySpec BanburyAnomalyDetection ChillerStatus.
Import CaseFacts TokenFacts CalendarFacts AddDaysFacts StrptimeFacts StrptimeTokens TokenShape.
Import BanbDataFacts CycleStartFacts StripFacts.




(** The parser and the classifier read the stripped key. *)
Lemma parse_stripped s : _parse_date_string (strip s) = _parse_date_string s.
Proof. unfold _parse_date_string. now rewrite strip_idem. Qed.

Lemma format_stripped s : _get_date_format_type (strip s) = _get_date_format_type s.
Proof. unfold _get_date_format_type. now rewrite strip_idem. Qed.



Lemma chiller_parse_day y m d :
  valid_date y m d -> _parse_date_string (key_ymd y m d) = Ok (midnight y m d).
Proof.
  intros Hv. destruct (valid_date_bounds y m d Hv) as (Hy & Hm & Hd).
  unfold _parse_date_string. rewrite strip_ymd by lia.
  change (len (key_ymd y m d)) with 8. rewrite (isdigit_ymd y m d) by lia.
  cbn [Z.eqb Pos.eqb andb bind].
  rewrite strptime_ymd by lia.
  now rewrite (new_datetime_ok y m d 0 0 0 None) by (assumption || lia).
Qed.










End ChillerParse.

(** ** The date range of device histories *)

Module ChillerRange.
Import PyStr Calendar Strptime BanbData DateKeySpec BanburyAnomalyDetection ChillerStatus.
Import CaseFacts TokenFacts CalendarFacts AddDaysFacts StrptimeFacts StrptimeTokens TokenShape.
Import BanbDataFacts CycleStartFacts StripFacts ChillerParse.

(** A key the classifier does not know is refused by the parser. *)
Lemma unknown_refused s :
  _get_date_format_type s = "unknown" ->
  _parse_date_string s = Raise (ValueError (invalid_format_msg (strip s))).
Proof.
  unfold _get_date_format_type, _parse_date_string.
  destruct ((len (strip s) =? 19) && _ && _); [discriminate|].
  destruct ((len (strip s) =? 16) && _ && _); [discriminate|].
  destruct ((len (strip s) =? 8) && _); [discriminate|].
  destruct ((len (strip s) =? 6) && _); [discriminate|].
  destruct ((len (strip s) =? 4) && _); [discriminate|].
  reflexivity.
Qed.

Lemma parsed_known s dt :
  _parse_date_string s = Ok dt -> _get_date_format_type s <> "unknown".
Proof. intros H U. rewrite (unknown_refused s U) in H. discriminate. Qed.

(** X1. The parser of device histories reads no key that the classifier
    of formats calls unknown: such a key fails with the error that lists
    the supported formats, so every key that is read has one of the five
    known formats. *)
Theorem chiller_parse_known_format s :
  (_get_date_format_type s = "unknown" ->
   _parse_date_string s = Raise (ValueError (invalid_format_msg (strip s)))) /\
  (forall dt, _parse_date_string s = Ok dt -> _get_date_format_type s <> "unknown").
Proof. split; [apply unknown_refused | intros dt; apply parsed_known]. Qed.

Lemma chiller_parse_known_format_witness :
  _parse_date_string " 2024-12 "
  = Raise (ValueError (invalid_format_msg "2024-12")) /\
  _get_date_format_type "202412" <> "unknown".
Proof.
  split.
  - apply (proj1 (chiller_parse_known_format " 2024-12 ")). reflexivity.
  - apply (proj2 (chiller_parse_known_format "202412") (midnight 2024 12 1)). reflexivity.
Defined.

Lemma resolve_both s e :
  s <> "" -> e <> "" ->
  resolve_date_range (Some s) (Some e) =
  if String.eqb (_get_date_format_type s) (_get_date_format_type e)
  then (let* start_dt := _parse_date_string s in
        let* start_dt := range_start s start_dt in
        let* end_dt := _parse_date_string e in
        let* end_dt := range_end e end_dt in
        Ok (Some start_dt, Some end_dt))
  else Raise (ValueError (format_mismatch_msg (_get_date_format_type s)
                            (_get_date_format_type e))).
Proof.
  intros Hs He. unfold resolve_date_range.
  rewrite (RangeFacts.truthy_some s Hs), (RangeFacts.truthy_some e He).
  cbn [andb key_of].
  destruct (String.eqb _ _); cbn [negb bind]; [|reflexivity].
  destruct (_parse_date_string s) as [sd|]; cbn [bind]; [|reflexivity].
  destruct (range_start s sd) as [sd'|]; cbn [bind]; [|reflexivity].
  destruct (_parse_date_string e) as [ed|]; cbn [bind]; [|reflexivity].
  destruct (range_end e ed) as [ed'|]; reflexivity.
Qed.

Lemma resolve_start_only s :
  s <> "" ->
  resolve_date_range (Some s) None =
  (let* start_dt := _parse_date_string s in
   let* start_dt := range_start s start_dt in
   Ok (Some start_dt, None)).
Proof.
  intros Hs. unfold resolve_date_range. rewrite (RangeFacts.truthy_some s Hs).
  cbn [andb truthy key_of bind].
  destruct (_parse_date_string s) as [sd|]; cbn [bind]; [|reflexivity].
  destruct (range_start s sd) as [sd'|]; reflexivity.
Qed.

Lemma resolve_end_only e :
  e <> "" ->
  resolve_date_range None (Some e) =
  (let* end_dt := _parse_date_string e in
   let* end_dt := range_end e end_dt in
   Ok (None, Some end_dt)).
Proof.
  intros He. unfold resolve_date_range. rewrite (RangeFacts.truthy_some e He).
  cbn [andb truthy key_of bind].
  destruct (_parse_date_string e) as [ed|]; cbn [bind]; [|reflexivity].
  destruct (range_end e ed) as [ed'|]; reflexivity.
Qed.



(** X3. With both keys given, the range of device histories is resolved
    only when the two keys have one and the same known format: keys of
    different formats fail with the error that names both formats,
    before either key is parsed, and two keys of unknown format fail
    with the parser's error for the start key. *)
Theorem chiller_range_same_format s e :
  s <> "" -> e <> "" ->
  (_get_date_format_type s <> _get_date_format_type e ->
   resolve_date_range (Some s) (Some e)
   = Raise (ValueError (format_mismatch_msg (_get_date_format_type s)
                          (_get_date_format_type e)))) /\
  (_get_date_format_type s = "unknown" -> _get_date_format_type e = "unknown" ->
   resolve_date_range (Some s) (Some e)
   = Raise (ValueError (invalid_format_msg (strip s)))) /\
  (forall r, resolve_date_range (Some s) (Some e) = Ok r ->
   _get_date_format_type s = _get_date_format_type e /\
   _get_date_format_type s <> "unknown").
Proof.
  intros Hs He. rewrite (resolve_both s e Hs He). split; [|split].
  - intros Hne. apply String.eqb_neq in Hne. now rewrite Hne.
  - intros Us Ue. rewrite Us, Ue. cbn [String.eqb Ascii.eqb Bool.eqb].
    change (String.eqb "unknown" "unknown") with true. cbn iota.
    rewrite (unknown_refused s Us). reflexivity.
  - intros r. destruct (String.eqb _ _) eqn:E; [|discriminate].
    apply String.eqb_eq in E. intros H. split; [assumption|].
    destruct (_parse_date_string s) as [sd|] eqn:P; [|discriminate].
    now apply (parsed_known s sd).
Qed.

Lemma chiller_range_same_format_witness :
  resolve_date_range (Some "2024") (Some "20241205")
  = Raise (ValueError
      "start_dt and end_dt formats must be the same. start_dt format: yyyy, end_dt format: yyyyMMdd").
Proof.
  apply (proj1 (chiller_range_same_format "2024" "20241205" ltac:(discriminate)
                  ltac:(discriminate))).
  discriminate.
Defined.

(** The parser on a key with white space around it. *)
Lemma parse_padded s k dt :
  strip s = k -> _parse_date_string k = Ok dt -> _parse_date_string s = Ok dt.
Proof. intros <- H. now rewrite parse_stripped in H. Qed.

(** X4. A day key with a blank before or after it is read as the day it
    writes, but as an end key it is not widened to the next day: the
    test that widens looks for a blank in the key as it was given. The
    end bound is then the first instant of the day itself, and the range
    of the key taken as start and as end is empty. *)
Theorem chiller_padded_day_key s y m d :
  valid_date y m d -> strip s = key_ymd y m d -> contains_char " " s = true ->
  resolve_date_range None (Some s) = Ok (None, Some (midnight y m d)) /\
  resolve_date_range (Some s) None = Ok (Some (midnight y m d), None) /\
  resolve_date_range (Some s) (Some s)
  = Ok (Some (midnight y m d), Some (midnight y m d)).
Proof.
  intros Hv Hs Hsp.
  assert (Hne : s <> "") by (apply strip_nonempty; rewrite Hs; discriminate).
  pose proof (parse_padded s _ _ Hs (chiller_parse_day y m d Hv)) as Hp.
  assert (Hstart : range_start s (midnight y m d) = Ok (midnight y m d)).
  { unfold range_start. rewrite Hs. change (len (key_ymd y m d)) with 8.
    now rewrite Hsp. }
  assert (Hend : range_end s (midnight y m d) = Ok (midnight y m d)).
  { unfold range_end. rewrite Hs. change (len (key_ymd y m d)) with 8.
    now rewrite Hsp. }
  split; [|split].
  - rewrite (resolve_end_only s Hne), Hp. cbn [bind]. now rewrite Hend.
  - rewrite (resolve_start_only s Hne), Hp. cbn [bind]. now rewrite Hstart.
  - rewrite (resolve_both s s Hne Hne), String.eqb_refl, Hp. cbn [bind].
    rewrite Hstart. cbn [bind]. now rewrite Hend.
Qed.

Lemma chiller_padded_day_key_witness :
  resolve_date_range None (Some "20241205 ") = Ok (None, Some (midnight 2024 12 5)) /\
  resolve_date_range (Some "20241205 ") None = Ok (Some (midnight 2024 12 5), None) /\
  resolve_date_range (Some "20241205 ") (Some "20241205 ")
  = Ok (Some (midnight 2024 12 5), Some (midnight 2024 12 5)).
Proof.
  apply (chiller_padded_day_key "20241205 " 2024 12 5).
  - cbv. repeat split; discriminate.
  - reflexivity.
  - reflexivity.
Defined.

Example chiller_day_key_not_padded :
  resolve_date_range None (Some "20241205") = Ok (None, Some (midnight 2024 12 6)).
Proof. reflexivity. Qed.

(** A run of white space before a character that is none. *)
Lemma space_splits_gap gap c rest :
  gap <> "" -> forall_chars isspace_char gap = true -> isspace_char c = false ->
  exists tl, space_splits (gap ++ String c rest) = String c rest :: tl.
Proof.
  intros Hne Hsp Hc. induction gap as [|g gap IH]; [congruence|].
  cbn in Hsp. apply andb_true_iff in Hsp as [Hg Hsp].
  cbn [append space_splits]. rewrite Hg.
  destruct gap as [|g' gap'].
  - cbn [append space_splits]. rewrite Hc. cbn. eauto.
  - destruct (IH ltac:(discriminate) Hsp) as [tl ->]. cbn. eauto.
Qed.

Lemma re_match_gap its gap c rest f a :
  gap <> "" -> forall_chars isspace_char gap = true -> isspace_char c = false ->
  first_is (re_match its (String c rest) f) a ->
  first_is (re_match (Spaces :: its) (gap ++ String c rest) f) a.
Proof.
  intros Hne Hsp Hc H. destruct (space_splits_gap gap c rest Hne Hsp Hc) as [tl E].
  cbn [re_match]. rewrite E. cbn [flat_map]. now apply first_is_app.
Qed.

Lemma re_match_gap_pad its gap h rest f a :
  gap <> "" -> forall_chars isspace_char gap = true -> 0 <= h <= 99 ->
  first_is (re_match its (pad2 h ++ rest) f) a ->
  first_is (re_match (Spaces :: its) (gap ++ pad2 h ++ rest) f) a.
Proof.
  intros Hne Hsp Hh. destruct (pad2_digits h Hh) as [H1 _].
  destruct (digit_char_facts _ H1) as (_ & _ & Hs & _).
  unfold pad2. cbn [append]. now apply re_match_gap.
Qed.

Section TimeKeys.
Variables y m d h mi s : Z.
Variable gap : string.
Hypothesis Hv : valid_date y m d.
Hypothesis Hh : 0 <= h <= 23.
Hypothesis Hmi : 0 <= mi <= 59.
Hypothesis Hs : 0 <= s <= 59.
Hypothesis Hlen : String.length gap = 3%nat.
Hypothesis Hgap : forall_chars isspace_char gap = true.
Hypothesis Hblank : contains_char " " gap = true.

Lemma gap_nonempty : gap <> "".
Proof. intros E. rewrite E in Hlen. discriminate. Qed.

Lemma strip_compact_minute :
  strip (key_compact_minute y m d h mi) = key_compact_minute y m d h mi.
Proof.
  destruct (valid_date_bounds y m d Hv) as (Hy & Hm & Hd).
  unfold key_compact_minute. tight.
Qed.

Lemma strip_compact_second :
  strip (key_compact_second y m d h mi s) = key_compact_second y m d h mi s.
Proof.
  destruct (valid_date_bounds y m d Hv) as (Hy & Hm & Hd).
  unfold key_compact_second, key_compact_minute. tight.
Qed.

Lemma strip_spaced_minute :
  strip (key_spaced_minute gap y m d h mi) = key_spaced_minute gap y m d h mi.
Proof.
  destruct (valid_date_bounds y m d Hv) as (Hy & Hm & Hd).
  unfold key_spaced_minute. tight.
Qed.

Lemma strip_spaced_second :
  strip (key_spaced_second gap y m d h mi s) = key_spaced_second gap y m d h mi s.
Proof.
  destruct (valid_date_bounds y m d Hv) as (Hy & Hm & Hd).
  unfold key_spaced_second, key_spaced_minute. tight.
Qed.

Lemma len_spaced_minute : len (key_spaced_minute gap y m d h mi) = 16.
Proof.
  unfold len, key_spaced_minute. rewrite !length_app, Hlen. reflexivity.
Qed.

Lemma len_spaced_second : len (key_spaced_second gap y m d h mi s) = 19.
Proof.
  unfold len, key_spaced_second, key_spaced_minute. rewrite !length_app, Hlen. reflexivity.
Qed.

Lemma strptime_spaced_minute :
  strptime (key_spaced_minute gap y m d h mi) "%Y%m%d %H:%M"
  = new_datetime y m d h mi 0 0 None.
Proof.
  destruct (valid_date_bounds y m d Hv) as (Hy & Hm & Hd).
  apply strptime_first. unfold key_spaced_minute.
  rewrite <- (append_nil (pad2 mi)). items. repeat step.
  apply re_match_gap_pad; [apply gap_nonempty | assumption | lia |].
  repeat step.
Qed.

Lemma strptime_spaced_second :
  strptime (key_spaced_second gap y m d h mi s) "%Y%m%d %H:%M:%S"
  = new_datetime y m d h mi s 0 None.
Proof.
  destruct (valid_date_bounds y m d Hv) as (Hy & Hm & Hd).
  apply strptime_first. unfold key_spaced_second, key_spaced_minute.
  rewrite ?append_assoc. rewrite <- (append_nil (pad2 s)). items. repeat step.
  apply re_match_gap_pad; [apply gap_nonempty | assumption | lia |].
  repeat step.
Qed.

(** X5. The parser of device histories refuses the two forms with a time
    of day as its documentation writes them, [yyyyMMdd HH:MM] and
    [yyyyMMdd HH:MM:SS]: they have 14 and 17 characters, and the parser
    tries its formats with a time on keys of 16 and of 19 characters
    only. It reads them when three characters of white space, one of
    them a blank, stand between the date and the time, and returns the
    naive instant. *)
Theorem chiller_time_keys :
  _parse_date_string (key_compact_minute y m d h mi)
  = Raise (ValueError (invalid_format_msg (key_compact_minute y m d h mi))) /\
  _parse_date_string (key_compact_second y m d h mi s)
  = Raise (ValueError (invalid_format_msg (key_compact_second y m d h mi s))) /\
  _parse_date_string (key_spaced_minute gap y m d h mi) = Ok (naive y m d h mi 0) /\
  _parse_date_string (key_spaced_second gap y m d h mi s) = Ok (naive y m d h mi s).
Proof.
  destruct (valid_date_bounds y m d Hv) as (Hy & Hm & Hd).
  split; [|split; [|split]].
  - unfold _parse_date_string. rewrite strip_compact_minute. reflexivity.
  - unfold _parse_date_string. rewrite strip_compact_second. reflexivity.
  - unfold _parse_date_string. rewrite strip_spaced_minute, len_spaced_minute.
    cbn [Z.eqb Pos.eqb andb bind].
    assert (contains_char " " (key_spaced_minute gap y m d h mi) = true) as ->.
    { unfold key_spaced_minute. rewrite !contains_char_app, Hblank.
      now rewrite !orb_true_r. }
    assert (contains_char ":" (key_spaced_minute gap y m d h mi) = true) as ->.
    { unfold key_spaced_minute. rewrite !contains_char_app. cbn [contains_char].
      change (Ascii.eqb ":" ":") with true. now rewrite !orb_true_r. }
    cbn [andb]. rewrite strptime_spaced_minute.
    now rewrite (new_datetime_ok y m d h mi 0 None) by (assumption || lia).
  - unfold _parse_date_string. rewrite strip_spaced_second, len_spaced_second.
    cbn [Z.eqb Pos.eqb andb bind].
    assert (contains_char " " (key_spaced_second gap y m d h mi s) = true) as ->.
    { unfold key_spaced_second, key_spaced_minute. rewrite !contains_char_app, Hblank.
      now rewrite !orb_true_r. }
    assert (contains_char ":" (key_spaced_second gap y m d h mi s) = true) as ->.
    { unfold key_spaced_second, key_spaced_minute. rewrite !contains_char_app.
      cbn [contains_char]. change (Ascii.eqb ":" ":") with true.
      now rewrite !orb_true_r. }
    cbn [andb]. rewrite strptime_spaced_second.
    now rewrite (new_datetime_ok y m d h mi s None) by (assumption || lia).
Qed.

End TimeKeys.

Lemma chiller_time_keys_witness :
  _parse_date_string "20241205 14:30"
  = Raise (ValueError (invalid_format_msg "20241205 14:30")) /\
  _parse_date_string "20241205 14:30:59"
  = Raise (ValueError (invalid_format_msg "20241205 14:30:59")) /\
  _parse_date_string "20241205   14:30" = Ok (naive 2024 12 5 14 30 0) /\
  _parse_date_string "20241205   14:30:59" = Ok (naive 2024 12 5 14 30 59).
Proof.
  apply (chiller_time_keys 2024 12 5 14 30 59 "   ").
  - cbv. repeat split; discriminate.
  - lia.
  - lia.
  - lia.
  - reflexivity.
  - reflexivity.
  - reflexivity.
Defined.

End ChillerRange.

(** ** A date key and the range of one key *)

Module DateKeyFetch.
Import PyStr Calendar BanbData.
Import RangeFacts.

Section Fetch.
Variable R : Type.
Variable fetch :
  Z -> Z -> option string -> option datetime -> option datetime -> result R.
Variables (pid limit : Z) (db_alias : option string).

(** X6. The query by one date key is the query by the range whose start
    key and end key are both that key: the same bounds reach the
    database, and a key that is refused is refused with the same
    error. *)
Theorem fetch_by_date_key_as_range k :
  k <> "" ->
  fetch_banb_data_by_pid_and_date_key R fetch pid limit k db_alias
  = fetch_banb_data_by_pid_and_range R fetch pid limit (Some k) (Some k) db_alias.
Proof.
  intros Hk. unfold fetch_banb_data_by_pid_and_date_key, fetch_banb_data_by_pid_and_range.
  destruct (_resolve_date_key k) as [[s e]|err] eqn:E.
  - rewrite (range_bounds_both k k s e s e Hk Hk E E).
    now rewrite (DateKeyPeriods.resolve_date_key_ordered k s e E).
  - unfold range_bounds. rewrite (truthy_some k Hk). cbn [key_of bind].
    now rewrite E.
Qed.

End Fetch.

Lemma fetch_by_date_key_as_range_witness :
  fetch_banb_data_by_pid_and_date_key unit fetch_none 7 100 "202412" None
  = fetch_banb_data_by_pid_and_range unit fetch_none 7 100 (Some "202412") (Some "202412")
      None.
Proof. apply fetch_by_date_key_as_range. discriminate. Defined.

(** The empty key is the one exception: as a date key it is refused, as
    the two keys of a range it stands for no bound at all. *)
Example fetch_by_empty_key :
  fetch_banb_data_by_pid_and_date_key unit fetch_none 7 100 "" None = Raise InvalidDateKey /\
  fetch_banb_data_by_pid_and_range unit fetch_none 7 100 (Some "") (Some "") None = Ok tt.
Proof. split; reflexivity. Qed.

End DateKeyFetch.

(** ** From the configuration to engines and sessions *)

Module AccessPaths.
Import PyStr Config Database.
Import DictFacts ProvisionFacts AliasFacts EntryAliasFacts DiscoveryFacts CaseFacts.

Lemma dict_get_mem {V} (d : dict V) k v : dict_get d k = Some v -> dict_mem k d = true.
Proof.
  unfold dict_mem, keys. induction d as [|[k' v'] d IH]; cbn; [discriminate|].
  rewrite (String.eqb_sym k k'). destruct (String.eqb k' k); [reflexivity|]. exact IH.
Qed.

Lemma dict_get_not_mem {V} (d : dict V) k : dict_get d k = None -> dict_mem k d = false.
Proof.
  unfold dict_mem, keys. induction d as [|[k' v'] d IH]; cbn; [reflexivity|].
  rewrite (String.eqb_sym k k'). destruct (String.eqb k' k); [discriminate|]. exact IH.
Qed.

Lemma load_inv urls r :
  load urls = Ok r ->
  urls <> [] /\ database_urls r = urls /\
  provision urls [] [] = (ASYNC_ENGINES r, SYNC_ENGINES r) /\
  SESSION_FACTORIES r = ASYNC_ENGINES r.
Proof.
  unfold load. destruct urls as [|[first u] rest]; [discriminate|].
  destruct (provision _ [] []) as [async sync]. intros [= <-]. cbn.
  repeat split; discriminate.
Qed.


Lemma In_keys {V} (d : dict V) k v : In (k, v) d -> In k (keys d).
Proof. intros H. unfold keys. now apply (in_map fst) in H. Qed.

Lemma access_by_kind urls alias url r :
  NoDup (keys urls) -> In (alias, url) urls -> alias <> "" -> load urls = Ok r ->
  resolve_db_alias r (Some alias) = Ok alias /\
  if is_sync alias url
  then dict_get (SYNC_ENGINES r) alias = Some (SyncEngine url) /\
       dict_mem alias (SESSION_FACTORIES r) = false
  else dict_get (SYNC_ENGINES r) alias = None /\
       dict_mem alias (SESSION_FACTORIES r) = true.
Proof.
  intros Hnd Hin Hne Hl. destruct (load_inv urls r Hl) as (_ & Hu & Hp & Hf).
  split.
  - apply resolve_known; [assumption|]. rewrite Hu. now apply (In_keys urls alias url).
  - destruct (provision_spec urls [] [] Hnd alias) as [H _].
    specialize (H url Hin). rewrite Hp, Hf in *.
    destruct (is_sync alias url); cbn [dict_get] in H; destruct H as [H1 H2]; split;
      try assumption.
    + now apply dict_get_not_mem.
    + now apply (dict_get_mem _ _ _ H1).
Qed.

Section Library.
Variable world : Type.
Variable session : Type.
Variable session_factory : string -> world -> session * world.
Variable close : session -> world -> outcome unit * world.
Variable aexit : session -> world -> outcome unit * world.

Local Abbreviation the_scope := (scope world session session_factory close aexit).
Local Abbreviation the_session := (get_session world session session_factory close aexit).

(** A scope on an alias that has its session factory. *)
Lemma get_session_runs r alias body :
  resolve_db_alias r (Some alias) = Ok alias ->
  dict_mem alias (SESSION_FACTORIES r) = true ->
  the_session r (Some alias) body = the_scope alias body.
Proof. intros Hr Hm. unfold get_session. now rewrite Hr, Hm. Qed.

Lemma get_session_refused r alias body w :
  resolve_db_alias r (Some alias) = Ok alias ->
  dict_mem alias (SESSION_FACTORIES r) = false ->
  the_session r (Some alias) body w = (Raises (ValueError (no_session_msg alias)), w).
Proof. intros Hr Hm. unfold get_session. now rewrite Hr, Hm. Qed.

(** X7. Every configured alias is served by exactly one of the two ways
    to the database. The CMMS alias on an [oracle+oracledb] URL has the
    synchronous engine and no session: [get_session] fails for it before
    a session is made. Every other alias has a session factory, so that
    [get_session] opens the scope of a session on it, and
    [get_sync_engine] fails for it. *)
Theorem access_paths urls alias url r body w :
  NoDup (keys urls) -> In (alias, url) urls -> alias <> "" -> load urls = Ok r ->
  if is_sync alias url
  then get_sync_engine r (Some alias) = Ok (SyncEngine url) /\
       the_session r (Some alias) body w
       = (Raises (ValueError (no_session_msg alias)), w)
  else get_sync_engine r (Some alias) = Raise (ValueError (no_sync_engine_msg alias)) /\
       the_session r (Some alias) body w = the_scope alias body w.
Proof.
  intros Hnd Hin Hne Hl.
  destruct (access_by_kind urls alias url r Hnd Hin Hne Hl) as [Hr H].
  unfold get_sync_engine. rewrite Hr. cbn [bind].
  destruct (is_sync alias url); destruct H as [H1 H2]; rewrite H1; split;
    try reflexivity.
  - now apply get_session_refused.
  - now rewrite get_session_runs.
Qed.

End Library.

Lemma access_paths_witness :
  get_sync_engine
    (mk_registry two_backends [("ip04", AsyncEngine "mysql+aiomysql://h/a")]
       [("cmms", SyncEngine "oracle+oracledb://h/x")]
       [("ip04", AsyncEngine "mysql+aiomysql://h/a")] "ip04") (Some "cmms")
  = Ok (SyncEngine "oracle+oracledb://h/x") /\
  get_session pool_state string pool_factory pool_close pool_close
    (mk_registry two_backends [("ip04", AsyncEngine "mysql+aiomysql://h/a")]
       [("cmms", SyncEngine "oracle+oracledb://h/x")]
       [("ip04", AsyncEngine "mysql+aiomysql://h/a")] "ip04") (Some "cmms")
    body_returns idle
  = (Raises (ValueError (no_session_msg "cmms")), idle).
Proof.
  apply (access_paths pool_state string pool_factory pool_close pool_close
           two_backends "cmms" "oracle+oracledb://h/x" _ body_returns idle).
  - repeat constructor; cbn; intuition discriminate.
  - right. left. reflexivity.
  - discriminate.
  - reflexivity.
Defined.

End AccessPaths.

(** ** From the environment to sessions *)

Module EnvironSessions.
Import PyStr Config Database.
Import DictFacts ProvisionFacts AliasFacts EntryAliasFacts DiscoveryFacts CaseFacts.
Import AccessPaths.












Section Library.
Variable world : Type.
Variable session : Type.
Variable session_factory : string -> world -> session * world.
Variable close : session -> world -> outcome unit * world.
Variable aexit : session -> world -> outcome unit * world.

Local Abbreviation the_scope := (scope world session session_factory close aexit).
Local Abbreviation the_session := (get_session world session session_factory close aexit).


End Library.


(** The services of the chiller open their sessions on [ckp_chiller]:
    the variable has to be written with its suffix in capitals. *)
Example chiller_alias_from_lower_case_key :
  keys (Config.database_urls [("ckp_chiller_database_url", "postgresql+asyncpg://h/c")]
          (mk_settings None None)) = ["ckp_chiller_database_url"].
Proof. reflexivity. Qed.

End EnvironSessions.

(** ** The range of cycle starts *)

Module CycleStartRange.
Import PyStr Calendar Strptime BanbData DateKeySpec BanburyAnomalyDetection.
Import CaseFacts TokenFacts CalendarFacts AddDaysFacts StrptimeFacts StrptimeTokens TokenShape.
Import BanbDataFacts CycleStartFacts CycleStartTokens StripFacts ChillerParse.



Section Iso.
Variable fromisoformat : string -> option datetime.
Local Abbreviation parse := (_parse_cycle_start_date fromisoformat).
Local Abbreviation range := (_resolve_cycle_start_range fromisoformat).







End Iso.


End CycleStartRange.

(** ** The names of chillers *)

Module ChillerNames.
Import PyStr ChillerStatus.
Import CaseFacts EntryAliasFacts.

(** X10. The display name of a device is [Chiller] and the last two
    characters of its identifier, whatever stands before them: two
    identifiers that end alike have one name. An identifier of one
    character gives that character, and the empty identifier stays
    empty. *)
Theorem format_chiller_name_suffix pre a b c :
  _format_chiller_name (pre ++ String a (String b ""))
  = "Chiller " ++ String a (String b "") /\
  _format_chiller_name (String c "") = "Chiller " ++ String c "" /\
  _format_chiller_name "" = "".
Proof.
  split; [|split; reflexivity].
  destruct pre as [|p pre]; [reflexivity|].
  unfold _format_chiller_name. cbn [append]. cbv iota.
  change (String p (pre ++ String a (String b "")))
    with (String p pre ++ String a (String b "")).
  unfold len. rewrite length_app.
  replace (2 <=? Z.of_nat (String.length (String p pre)
                           + String.length (String a (String b ""))))
    with true by (symmetry; apply Z.leb_le; cbn [String.length]; lia).
  replace (String.length (String p pre) + String.length (String a (String b "")) - 2)%nat
    with (String.length (String p pre)) by (cbn [String.length]; lia).
  now rewrite substring_skip.
Qed.

Example format_chiller_name_ckp004 :
  _format_chiller_name "CKP004" = "Chiller 04" /\
  _format_chiller_name "X04" = "Chiller 04".
Proof. split; reflexivity. Qed.

End ChillerNames.
